(** * Notte: the safe action executor and the Falco agent step loop

    A shallow embedding of
    - [packages/notte-agent/src/notte_agent/common/safe_executor.py]
      ([ExecutionStatus], [SafeActionExecutor]),
    - [packages/notte-core/src/notte_core/browser/observation.py]
      ([Observation.valid_action_set]),
    - [src/notte/agents/falco/agent.py] ([FalcoAgent]),
    - [src/notte/common/agent/config.py] ([RaiseCondition]).

    Python code that mutates [self] and may raise is written in a state and
    exception monad [M]; the collaborators whose code is outside these files
    (browser environment, reasoning engine, completion validator, credential
    vault, prompt and perception renderers) are the fields of a record of
    operations over an abstract external state. *)

From Stdlib Require Import ZArith List Bool Lia DecimalString.
From stdpp Require Import base decidable strings gmap.
Import ListNotations.

Local Open Scope Z_scope.

(** ** Python values used throughout *)

(** [str(n)] for a Python [int]. *)
Definition str_int (n : Z) : string := NilZero.string_of_int (Z.to_int n).

(** ** Exceptions

    Only subclasses of [Exception] are modelled: every [except] clause of the
    two files catches [Exception] or one of its subclasses. *)

(** The three messages every [NotteBaseError] carries. *)
Record NotteMessages := {
  dev_message : string;
  user_message : string;
  agent_message : string
}.

(** Subclasses of [NotteBaseError] that the two files raise or register
    handlers for; any other subclass is [OtherNotteError] with its name. *)
Inductive NotteClass :=
| StepExecutionFailure
| MaxConsecutiveFailuresError
| InvalidActionIDError
| OtherNotteError (name : string).

Inductive PyExn :=
| RateLimitError (text : string)
| NotteBaseError (cls : NotteClass) (msgs : NotteMessages)
| ValidationError (text : string)
| PyException (cls : string) (text : string).

(** [type(e)], the key of the handler dictionary. *)
Inductive ExnType :=
| TRateLimitError
| TNotte (cls : NotteClass)
| TValidationError
| TException (cls : string).

#[global] Instance NotteClass_eq_dec : EqDecision NotteClass.
Proof. solve_decision. Defined.

#[global] Instance ExnType_eq_dec : EqDecision ExnType.
Proof. solve_decision. Defined.

Definition type_of (e : PyExn) : ExnType :=
  match e with
  | RateLimitError _ => TRateLimitError
  | NotteBaseError cls _ => TNotte cls
  | ValidationError _ => TValidationError
  | PyException cls _ => TException cls
  end.

(** [StepExecutionFailure(message)]: the three messages are [message]. *)
Definition mk_StepExecutionFailure (message : string) : PyExn :=
  NotteBaseError StepExecutionFailure
    {| dev_message := message; user_message := message; agent_message := message |}.

(** [MaxConsecutiveFailuresError(max_failures)]. *)
Definition mk_MaxConsecutiveFailuresError (max_failures : Z) : PyExn :=
  let message :=
    "Max consecutive failures reached in a single step: " +:+ str_int max_failures +:+ "." in
  NotteBaseError MaxConsecutiveFailuresError
    {| dev_message := message; user_message := message; agent_message := message |}.

(** ** The state and exception monad

    [Timeout] is the outcome of a computation cut by the recursion bound of
    [FalcoAgent.step], or of an external call that does not return. *)

Inductive Outcome (A : Type) :=
| Ret (a : A)
| Raise (e : PyExn)
| Timeout.
Arguments Ret {A} a.
Arguments Raise {A} e.
Arguments Timeout {A}.

Definition M (St A : Type) : Type := St -> Outcome A * St.

Definition ret {St A} (a : A) : M St A := fun st => (Ret a, st).
Definition raise {St A} (e : PyExn) : M St A := fun st => (Raise e, st).
Definition bind {St A B} (m : M St A) (k : A -> M St B) : M St B :=
  fun st =>
    match m st with
    | (Ret a, st') => k a st'
    | (Raise e, st') => (Raise e, st')
    | (Timeout, st') => (Timeout, st')
    end.
Definition get {St} : M St St := fun st => (Ret st, st).
Definition modify {St} (f : St -> St) : M St unit := fun st => (Ret tt, f st).

Notation "x <- m ;; k" := (bind m (fun x => k))
  (at level 100, m at next level, right associativity).
Notation "m ;;; k" := (bind m (fun _ => k))
  (at level 100, right associativity).

(** [keeps R m]: every run of [m] takes a state to one related to it by
    [R], whatever the outcome. *)
Definition keeps {St A} (R : St -> St -> Prop) (m : M St A) : Prop :=
  forall s r s', m s = (r, s') -> R s s'.

(** A coroutine object: the suspended body of a call of an [async def]. *)
Inductive Coroutine (St A : Type) :=
| coroutine (body : M St A).
Arguments coroutine {St A} body.

(** Calling a coroutine function builds the coroutine object and runs
    nothing of the body; [await] runs it. *)
Definition call_async {St A B} (f : A -> M St B) (x : A) : M St (Coroutine St B) :=
  ret (coroutine (f x)).
Definition await {St A} (c : Coroutine St A) : M St A :=
  match c with coroutine body => body end.

(** A Python dictionary keyed by exception classes, as the association list
    of its items; [dict_get] is [dict.get]. *)
Fixpoint dict_get {V} (k : ExnType) (d : list (ExnType * V)) : option V :=
  match d with
  | [] => None
  | (k', v) :: d' => if decide (k = k') then Some v else dict_get k d'
  end.

(** ** safe_executor.py *)

Module SafeExecutor.

(** [output: T | None]: Python's [None], or a value of [T]. *)
Record ExecutionStatus (S T : Type) := {
  input : S;
  output : option T;
  success : bool;
  message : string;
  should_rerun_step_agent : bool
}.
Arguments input {S T} _.
Arguments output {S T} _.
Arguments success {S T} _.
Arguments message {S T} _.
Arguments should_rerun_step_agent {S T} _.

(** [ExecutionStatus.get]. *)
Definition status_get {St S T} (s : ExecutionStatus S T) : M St T :=
  match output s with
  | Some o =>
      if success s then ret o
      else raise (PyException "ValueError" ("Execution failed with message: " +:+ message s))
  | None => raise (PyException "ValueError" ("Execution failed with message: " +:+ message s))
  end.

(** The attributes set by [__init__] other than the counter.  The callables
    act on the state [W] of whatever they close over; what a call returns is
    not used for [precheck_func] and for the handlers, so they are typed by
    the effect of the call alone.  What [func] returns is stored in [output]
    as it is: it is a value of [T], or [None] as any Python call may return. *)
Record SafeActionExecutor (W S T : Type) := {
  func : S -> M W (option T);
  on_failure_handlers : list (ExnType * (PyExn -> M W unit));
  precheck_func : option (S -> M W unit);
  max_consecutive_failures : Z;
  raise_on_failure : bool
}.
Arguments func {W S T} _.
Arguments on_failure_handlers {W S T} _.
Arguments precheck_func {W S T} _.
Arguments max_consecutive_failures {W S T} _.
Arguments raise_on_failure {W S T} _.

(** The mutable attribute [consecutive_failures], next to the state the
    callables act on. *)
Record ExecState (W : Type) := {
  consecutive_failures : Z;
  world : W
}.
Arguments consecutive_failures {W} _.
Arguments world {W} _.

Definition set_failures {W} (n : Z) (st : ExecState W) : ExecState W :=
  {| consecutive_failures := n; world := world st |}.

(** Runs a computation of the callables' state inside the executor's. *)
Definition lift {W A} (m : M W A) : M (ExecState W) A :=
  fun st =>
    let '(r, w) := m (world st) in
    (r, {| consecutive_failures := consecutive_failures st; world := w |}).

Section Executor.
Context {W S T : Type}.
(** [str(input_data)], used in the success message. *)
Variable str_input : S -> string.
Variable self : SafeActionExecutor W S T.

Definition reset : M (ExecState W) unit := modify (set_failures 0).

(** Lines 71-73 of [on_failure]: the handler registered for [type(e)]. *)
Definition call_handler (e : PyExn) : M W unit :=
  match dict_get (type_of e) (on_failure_handlers self) with
  | Some handler => handler e
  | None => ret tt
  end.

Definition on_failure (input_data : S) (error_msg : string) (e : PyExn)
  : M (ExecState W) (ExecutionStatus S T) :=
  modify (fun st => set_failures (consecutive_failures st + 1) st) ;;;
  lift (call_handler e) ;;;
  st <- get ;;
  if max_consecutive_failures self <=? consecutive_failures st then
    raise (mk_MaxConsecutiveFailuresError (max_consecutive_failures self))
  else if raise_on_failure self then
    raise (mk_StepExecutionFailure error_msg)
  else
    ret {| input := input_data;
           output := None;
           success := false;
           message := error_msg;
           should_rerun_step_agent :=
             if consecutive_failures st <=? max_consecutive_failures self
             then true else false |}.

(** The message chosen by the [except] clauses of [execute], in their
    order. *)
Definition error_message (e : PyExn) : string :=
  match e with
  | RateLimitError _ => "Rate limit reached. Waiting before retry."
  | NotteBaseError _ msgs =>
      if raise_on_failure self then dev_message msgs else agent_message msgs
  | ValidationError text =>
      "JSON Schema Validation error: The output format is invalid. "
      +:+ "Please ensure your response follows the expected schema. Details: " +:+ text
  | PyException _ text => "An unexpected error occurred: " +:+ text
  end.

(** The body of the [try] up to the call of [func]. *)
Definition attempt (input_data : S) : M W (option T) :=
  match precheck_func self with
  | Some precheck => precheck input_data ;;; func self input_data
  | None => func self input_data
  end.

Definition execute (input_data : S) : M (ExecState W) (ExecutionStatus S T) :=
  fun st =>
    match lift (attempt input_data) st with
    | (Ret result, st') =>
        (Ret {| input := input_data;
                success := true;
                output := result;
                message := "Successfully executed action with input: " +:+ str_input input_data;
                should_rerun_step_agent := false |},
         set_failures 0 st')
    | (Raise e, st') => on_failure input_data (error_message e) e st'
    | (Timeout, st') => (Timeout, st')
    end.

(** The states after a sequence of calls of [execute], whatever each call
    returned or raised. *)
Fixpoint after_calls (inputs : list S) (st : ExecState W) : ExecState W :=
  match inputs with
  | [] => st
  | i :: rest => after_calls rest (snd (execute i st))
  end.
(** Every call in the sequence fails: the precheck or the operation raises
    and the handler for the error, if there is one, returns. *)
Fixpoint all_fail (inputs : list S) (st : ExecState W) : Prop :=
  match inputs with
  | [] => True
  | i :: rest =>
      (exists e w1 w2,
          attempt i (world st) = (Raise e, w1) /\
          call_handler e w1 = (Ret tt, w2)) /\
      all_fail rest (snd (execute i st))
  end.
End Executor.

End SafeExecutor.

(** ** notte.controller.actions

    The action classes are declared outside the files modelled here; an
    action is what the agent reads of it: its class and its [id]. *)

Module Actions.

Record CompletionAction := {
  success : bool;
  answer : string
}.

Inductive BaseAction :=
| Action (id : string) (params : string)
| FallbackObserveAction
| Completion (c : CompletionAction).

End Actions.

(** ** observation.py *)

Module Observation.

(** [BaseActionSpace]: [actions status] is the method [actions(status)]. *)
Record BaseActionSpace := {
  description : string;
  actions : string -> list Actions.BaseAction
}.

Record Observation := {
  metadata : string;
  screenshot : option string;
  space : option BaseActionSpace;
  data : option string;
  progress : option (Z * Z)
}.

(** Truth value of a class instance in a condition: neither [Observation]
    nor the pydantic [BaseModel] defines [__bool__] or [__len__], so an
    instance is true; a bound method is true as well. *)
Definition bool_instance {A} (x : A) : bool := true.

(** Truth value of a reference that may be [None]. *)
Definition truthy {A} (x : option A) : bool :=
  match x with
  | None => false
  | Some o => bool_instance o
  end.

Definition is_not_None {A} (x : option A) : bool :=
  match x with
  | None => false
  | Some _ => true
  end.

Definition has_space (self : Observation) : bool := is_not_None (space self).
Definition has_data (self : Observation) : bool := is_not_None (data self).

Section ValidActionSet.
(** [action.id]; the identifiers of the classes that carry a fixed one are
    declared outside these files. *)
Variable action_id : Actions.BaseAction -> string.

(** The loop [for action in ...: valid_action_set.add(action.id)]. *)
Definition add_ids (acts : list Actions.BaseAction) (s : gset string) : gset string :=
  foldl (fun acc a => acc ∪ {[ action_id a ]}) s acts.

(** [self.space is not None and self.space.actions]: the second operand is
    read only when the first holds. *)
Definition valid_action_set (self : Observation) : gset string :=
  match space self with
  | None => ∅
  | Some sp =>
      if is_not_None (Some sp) && bool_instance (actions sp)
      then add_ids (actions sp "all") ∅
      else ∅
  end.
End ValidActionSet.

End Observation.

(** ** notte.agents.falco.types and notte.common.agent.types *)

Module Types.

(** Modelled from the spec: [StepAgentOutput] is declared outside these
    files.  It is the "one structured decision containing zero-or-more
    candidate actions and/or a completion signal"; [get_actions] gives the
    candidate actions "in order (bounded by maxActionsPerStep)". *)
Record StepAgentOutput := {
  output : option Actions.CompletionAction;
  actions : list Actions.BaseAction;
  thought : string
}.

Definition get_actions (self : StepAgentOutput) (max_actions : Z) : list Actions.BaseAction :=
  firstn (Z.to_nat max_actions) (actions self).

End Types.

(** ** notte.common.tools.conversation *)

Module Conversation.

Inductive Role := System | User | Assistant.

Record Message := {
  role : Role;
  content : string;
  image : option string
}.

Definition is_system (m : Message) : bool :=
  match role m with System => true | _ => false end.

Section Buffer.
(** The model-specific token estimate of one message, and the budget. *)
Variable count_tokens : Message -> Z.
Variable max_tokens : Z.

Definition total_tokens (ms : list Message) : Z :=
  fold_right (fun m acc => count_tokens m + acc) 0 ms.

Fixpoint drop_oldest_non_system (ms : list Message) : option (list Message) :=
  match ms with
  | [] => None
  | m :: rest =>
      if is_system m
      then option_map (cons m) (drop_oldest_non_system rest)
      else Some rest
  end.

Fixpoint evict (n : nat) (ms : list Message) : list Message :=
  match n with
  | O => ms
  | S n' =>
      if total_tokens ms <=? max_tokens then ms
      else match drop_oldest_non_system ms with
           | Some ms' => evict n' ms'
           | None => ms
           end
  end.

(** Modelled from the spec: the [Conversation] class is declared outside
    these files.  "Autosizing: after each append, if estimated total tokens
    exceeds maxTokens, evict oldest non-system messages until under budget";
    whole messages are dropped, the system message is exempt. *)
Definition autosize (ms : list Message) : list Message := evict (length ms) ms.

Definition add_message (m : Message) (ms : list Message) : list Message :=
  autosize (ms ++ [m]).

Definition add_system_message (c : string) (ms : list Message) : list Message :=
  add_message {| role := System; content := c; image := None |} ms.

Definition add_user_message (c : string) (img : option string) (ms : list Message)
  : list Message :=
  add_message {| role := User; content := c; image := img |} ms.

Definition add_assistant_message (c : string) (ms : list Message) : list Message :=
  add_message {| role := Assistant; content := c; image := None |} ms.
End Buffer.

End Conversation.

(** ** notte.agents.falco.trajectory_history *)

Module Trajectory.

Definition Status : Type :=
  SafeExecutor.ExecutionStatus Actions.BaseAction Observation.Observation.

Record TrajectoryStep := {
  agent_response : Types.StepAgentOutput;
  results : list Status
}.

(** Modelled from the spec: [FalcoTrajectoryHistory] is declared outside
    these files.  "Step (trajectory entry): {reasoningOutput, results:
    ordered sequence of ExecutionStatus}"; "addOutput(reasoningOutput),
    addStep(executionStatus): append; never mutate existing entries". *)
Definition add_output (o : Types.StepAgentOutput) (steps : list TrajectoryStep)
  : list TrajectoryStep :=
  steps ++ [{| agent_response := o; results := [] |}].

(** The result joins the results of the latest entry.  With no entry there
    is nothing to append to and the log is left as it is; the agent calls
    [add_step] only after [add_output]. *)
Fixpoint add_step (s : Status) (steps : list TrajectoryStep) : list TrajectoryStep :=
  match steps with
  | [] => []
  | [st] => [{| agent_response := agent_response st; results := results st ++ [s] |}]
  | st :: rest => st :: add_step s rest
  end.

(** All results, oldest first. *)
Definition all_results (steps : list TrajectoryStep) : list Status :=
  concat (map results steps).

Definition observed (s : Status) : bool :=
  SafeExecutor.success s && Observation.is_not_None (SafeExecutor.output s).

(** "lastObservation(): the output of the most recent step whose result
    succeeded and produced an observation, or none." *)
Definition last_obs (steps : list TrajectoryStep) : option Observation.Observation :=
  match find observed (rev (all_results steps)) with
  | Some s => SafeExecutor.output s
  | None => None
  end.

End Trajectory.

(** ** config.py *)

Module Config.

Inductive RaiseCondition := IMMEDIATELY | RETRY | NEVER.

#[global] Instance RaiseCondition_eq_dec : EqDecision RaiseCondition.
Proof. solve_decision. Defined.

Inductive HistoryType :=
| FULL_CONVERSATION
| SHORT_OBSERVATIONS
| SHORT_OBSERVATIONS_WITH_RAW_DATA
| SHORT_OBSERVATIONS_WITH_SHORT_DATA
| COMPRESSED.

(** The fields of [FalcoAgentConfig] (and of [env.config]) the agent reads. *)
Record FalcoAgentConfig := {
  include_screenshot : bool;
  max_history_tokens : Z;
  raise_condition : RaiseCondition;
  max_consecutive_failures : Z;
  max_actions_per_step : Z;
  history_type : HistoryType;
  max_steps : Z
}.

End Config.

(** ** agent.py *)

Module Falco.

Record ValidationResult := {
  is_valid : bool;
  reason : string
}.

(** [AgentResponse] without [duration_in_s] and [llm_usage], which are read
    from the clock and from the usage tracer. *)
Record AgentResponse := {
  answer : string;
  success : bool;
  env_trajectory : list Observation.Observation;
  agent_trajectory : list Trajectory.TrajectoryStep;
  messages : list Conversation.Message
}.

(** The [logger] calls that mark the control flow of [run], [_run] and
    [step]; the calls that only print a value are left out. *)
Inductive LogEvent :=
| LogRunningTask (task : string)
| LogStep (step : Z)
| LogRerun
| LogTerminatedEarly (answer : string)
| LogCompleted
| LogValidationFailed (msg : string)
| LogBudget (msg : string).

Definition is_LogStep (ev : LogEvent) : bool :=
  match ev with LogStep _ => true | _ => false end.

(** The number of passes through the loop of [_run] that a log records. *)
Definition steps_logged (l : list LogEvent) : nat := length (List.filter is_LogStep l).

(** The credential vault, when one is given.  [replace] stands for lines
    131-140 of [execute_action]: resolving the node, locating the element,
    the assertion and [replace_credentials]. *)
Record Vault (Ext : Type) := {
  contains_credentials : Actions.BaseAction -> bool;
  replace : Actions.BaseAction -> M Ext Actions.BaseAction;
  instructions : M Ext string
}.
Arguments contains_credentials {Ext} _.
Arguments replace {Ext} _.
Arguments instructions {Ext} _.

(** The collaborators of the agent, over the state [Ext] of everything that
    lives outside the agent object (browser session, reasoning engine,
    usage tracer, vault). *)
Record Externals (Ext : Type) := {
  (* NotteEnv *)
  env_act : Actions.BaseAction -> M Ext Observation.Observation;
  env_observe : M Ext Observation.Observation;
  env_aenter : M Ext unit;
  env_aexit : M Ext unit;
  env_trajectory_of : Ext -> list Observation.Observation;
  (* LLMEngine, CompletionValidator, step callback, vault *)
  structured_completion : list Conversation.Message -> M Ext Types.StepAgentOutput;
  validate : string -> Actions.CompletionAction -> Observation.Observation
             -> M Ext ValidationResult;
  step_callback : option (string -> Types.StepAgentOutput -> M Ext unit);
  vault : option (Vault Ext);
  (* FalcoPrompt, FalcoPerception and the renderers of the trajectory *)
  prompt_system : string;
  prompt_task : string -> string;
  prompt_action_message : string;
  trajectory_perceive : list Trajectory.TrajectoryStep -> string;
  trajectory_start_rules : string;
  perceive_step_result : Trajectory.Status -> string;
  model_dump_json : Types.StepAgentOutput -> string;
  perceive : Observation.Observation -> string;
  perceive_data : Observation.Observation -> bool -> string;
  count_tokens : Conversation.Message -> Z;
  (* action and error classes declared outside these files *)
  fallback_observe_id : string;
  completion_id : string;
  str_action : Actions.BaseAction -> string;
  invalid_action_id_messages : string -> list string -> NotteMessages;
  str_exn : PyExn -> string;
  format_exc : PyExn -> string
}.
Arguments env_act {Ext} _.
Arguments env_observe {Ext} _.
Arguments env_aenter {Ext} _.
Arguments env_aexit {Ext} _.
Arguments env_trajectory_of {Ext} _.
Arguments structured_completion {Ext} _.
Arguments validate {Ext} _.
Arguments step_callback {Ext} _.
Arguments vault {Ext} _.
Arguments prompt_system {Ext} _.
Arguments prompt_task {Ext} _.
Arguments prompt_action_message {Ext} _.
Arguments trajectory_perceive {Ext} _.
Arguments trajectory_start_rules {Ext} _.
Arguments perceive_step_result {Ext} _.
Arguments model_dump_json {Ext} _.
Arguments perceive {Ext} _.
Arguments perceive_data {Ext} _.
Arguments count_tokens {Ext} _.
Arguments fallback_observe_id {Ext} _.
Arguments completion_id {Ext} _.
Arguments str_action {Ext} _.
Arguments invalid_action_id_messages {Ext} _.
Arguments str_exn {Ext} _.
Arguments format_exc {Ext} _.


(** The mutable attributes of a [FalcoAgent], with the external state. *)
Record Agent (Ext : Type) := {
  conv : list Conversation.Message;
  trajectory : list Trajectory.TrajectoryStep;
  log : list LogEvent;
  ext : Ext
}.
Arguments conv {Ext} _.
Arguments trajectory {Ext} _.
Arguments log {Ext} _.
Arguments ext {Ext} _.

(** The agent together with the failure counter of [self.step_executor]. *)
Definition State (Ext : Type) : Type := SafeExecutor.ExecState (Agent Ext).

(** Two states of the agent whose logs record the same number of passes
    through the loop of [_run]. *)
Definition same_steps {Ext : Type} (a a' : Agent Ext) : Prop :=
  steps_logged (log a') = steps_logged (log a).

Definition same_steps_state {Ext : Type} (st st' : State Ext) : Prop :=
  same_steps (SafeExecutor.world st) (SafeExecutor.world st').

Section Agent.
Context {Ext : Type}.
Variable X : Externals Ext.
Variable config : Config.FalcoAgentConfig.

Definition set_conv (c : list Conversation.Message) (a : Agent Ext) : Agent Ext :=
  {| conv := c; trajectory := trajectory a; log := log a; ext := ext a |}.
Definition set_trajectory (t : list Trajectory.TrajectoryStep) (a : Agent Ext) : Agent Ext :=
  {| conv := conv a; trajectory := t; log := log a; ext := ext a |}.
Definition set_log (l : list LogEvent) (a : Agent Ext) : Agent Ext :=
  {| conv := conv a; trajectory := trajectory a; log := l; ext := ext a |}.

(** A call of a collaborator. *)
Definition call {A} (m : M Ext A) : M (Agent Ext) A :=
  fun a =>
    let '(r, x) := m (ext a) in
    (r, {| conv := conv a; trajectory := trajectory a; log := log a; ext := x |}).

Definition logger (ev : LogEvent) : M (Agent Ext) unit :=
  modify (fun a => set_log (log a ++ [ev]) a).

Definition conv_reset : M (Agent Ext) unit := modify (set_conv []).
Definition conv_add_system_message (c : string) : M (Agent Ext) unit :=
  modify (fun a =>
    set_conv (Conversation.add_system_message (count_tokens X)
                (Config.max_history_tokens config) c (conv a)) a).
Definition conv_add_user_message (c : string) (img : option string) : M (Agent Ext) unit :=
  modify (fun a =>
    set_conv (Conversation.add_user_message (count_tokens X)
                (Config.max_history_tokens config) c img (conv a)) a).
Definition conv_add_assistant_message (c : string) : M (Agent Ext) unit :=
  modify (fun a =>
    set_conv (Conversation.add_assistant_message (count_tokens X)
                (Config.max_history_tokens config) c (conv a)) a).

Definition trajectory_add_output (o : Types.StepAgentOutput) : M (Agent Ext) unit :=
  modify (fun a => set_trajectory (Trajectory.add_output o (trajectory a)) a).
Definition trajectory_add_step (s : Trajectory.Status) : M (Agent Ext) unit :=
  modify (fun a => set_trajectory (Trajectory.add_step s (trajectory a)) a).

(** [action.id]: a field of the actions of an action space, fixed by the
    class for the other two. *)
Definition action_id (action : Actions.BaseAction) : string :=
  match action with
  | Actions.Action id _ => id
  | Actions.FallbackObserveAction => fallback_observe_id X
  | Actions.Completion _ => completion_id X
  end.

Definition _get_valid_action_set (last_obs : option Observation.Observation) : gset string :=
  match last_obs with
  | None => ∅
  | Some obs =>
      if Observation.truthy (Some obs) then
        match Observation.space obs with
        | None => ∅
        | Some sp =>
            if Observation.truthy (Some sp) && Observation.bool_instance (Observation.actions sp)
            then Observation.add_ids action_id (Observation.actions sp "all") ∅
            else ∅
        end
      else ∅
  end.

Definition _is_first_step (a : Agent Ext) : bool :=
  (length (trajectory a) =? 1)%nat.

Definition mk_InvalidActionIDError (id : string) (valid : list string) : PyExn :=
  NotteBaseError InvalidActionIDError (invalid_action_id_messages X id valid).

(** The body of [async def precheck_action]: what runs if the coroutine is
    awaited. *)
Definition precheck_action_body (action : Actions.BaseAction) : M (Agent Ext) unit :=
  a <- get ;;
  if negb (_is_first_step a) then
    let valid_action_set := _get_valid_action_set (Trajectory.last_obs (trajectory a)) in
    if decide (action_id action ∈ valid_action_set) then ret tt
    else raise (mk_InvalidActionIDError (action_id action) (elements valid_action_set))
  else ret tt.

(** [precheck_action] as [SafeActionExecutor.execute] calls it at line 92:
    [self.precheck_func(input_data)], not awaited, the coroutine dropped. *)
Definition precheck_action (action : Actions.BaseAction) : M (Agent Ext) unit :=
  _ <- call_async precheck_action_body action ;;
  ret tt.

Definition invalid_action_id_handler (e : PyExn) : M (Agent Ext) unit :=
  match e with
  | NotteBaseError _ msgs => conv_add_user_message (agent_message msgs) None
  | _ => raise (PyException "AttributeError" "agent_message")
  end.

Definition execute_action (action : Actions.BaseAction) : M (Agent Ext) Observation.Observation :=
  match vault X with
  | Some v =>
      if contains_credentials v action then
        action' <- call (replace v action) ;;
        call (env_act X action')
      else call (env_act X action)
  | None => call (env_act X action)
  end.

(** [self.step_executor].  Its operation [execute_action] returns the
    [Observation] of [env.act], which is never [None]. *)
Definition step_executor
  : SafeExecutor.SafeActionExecutor (Agent Ext) Actions.BaseAction Observation.Observation :=
  {| SafeExecutor.func := fun action => obs <- execute_action action ;; ret (Some obs);
     SafeExecutor.precheck_func := Some precheck_action;
     SafeExecutor.on_failure_handlers :=
       [(TNotte InvalidActionIDError, invalid_action_id_handler)];
     SafeExecutor.raise_on_failure :=
       bool_decide (Config.raise_condition config = Config.IMMEDIATELY);
     SafeExecutor.max_consecutive_failures := Config.max_consecutive_failures config |}.

Definition step_executor_execute (action : Actions.BaseAction)
  : M (State Ext) Trajectory.Status :=
  SafeExecutor.execute (str_action X) step_executor action.

Definition output (answer : string) (success : bool) : M (Agent Ext) AgentResponse :=
  a <- get ;;
  ret {| answer := answer;
         success := success;
         env_trajectory := env_trajectory_of X (ext a);
         agent_trajectory := trajectory a;
         messages := conv a |}.

(** The newline character of the f-strings. *)
Definition nl : string := String (Ascii.ascii_of_nat 10) EmptyString.

Fixpoint for_each {St A} (body : A -> M St unit) (l : list A) : M St unit :=
  match l with
  | [] => ret tt
  | x :: rest => body x ;;; for_each body rest
  end.

(** The body of [for result in step.results] in [get_messages]. *)
Definition add_result_messages (result : Trajectory.Status) : M (Agent Ext) unit :=
  conv_add_user_message (perceive_step_result X result) None ;;;
  if negb (SafeExecutor.success result) then ret tt
  else
    obs <- SafeExecutor.status_get result ;;
    match Config.history_type config, Observation.has_data obs with
    | Config.FULL_CONVERSATION, _ =>
        conv_add_user_message (perceive X obs)
          (if Config.include_screenshot config then Observation.screenshot obs else None)
    | Config.SHORT_OBSERVATIONS_WITH_RAW_DATA, true =>
        conv_add_user_message (perceive_data X obs true) None
    | Config.SHORT_OBSERVATIONS_WITH_SHORT_DATA, true =>
        conv_add_user_message (perceive_data X obs false) None
    | _, _ => ret tt
    end.

Definition get_messages (task : string) : M (Agent Ext) (list Conversation.Message) :=
  conv_reset ;;;
  system_msg <- match vault X with
                | Some v =>
                    instr <- call (instructions v) ;;
                    ret (prompt_system X +:+ nl +:+ instr)
                | None => ret (prompt_system X)
                end ;;
  conv_add_system_message system_msg ;;;
  conv_add_user_message (prompt_task X task) None ;;;
  a <- get ;;
  let traj_msg := trajectory_perceive X (trajectory a) in
  match Config.history_type config with
  | Config.COMPRESSED => conv_add_user_message traj_msg None
  | _ =>
      (if (length (trajectory a) =? 0)%nat
       then conv_add_user_message (trajectory_start_rules X) None
       else ret tt) ;;;
      for_each
        (fun step =>
           conv_add_assistant_message (model_dump_json X (Trajectory.agent_response step)) ;;;
           for_each add_result_messages (Trajectory.results step))
        (trajectory a)
  end ;;;
  match Trajectory.last_obs (trajectory a) with
  | Some last_valid_obs =>
      match Config.history_type config with
      | Config.FULL_CONVERSATION => ret tt
      | _ =>
          conv_add_user_message (perceive X last_valid_obs)
            (if Config.include_screenshot config
             then Observation.screenshot last_valid_obs else None)
      end
  | None => ret tt
  end ;;;
  (if (0 <? length (trajectory a))%nat
   then conv_add_user_message (prompt_action_message X) None
   else ret tt) ;;;
  a' <- get ;;
  ret (conv a').

(** The status recorded after a failed action, lines 261-266. *)
Definition fallback_status (obs : Observation.Observation) : Trajectory.Status :=
  {| SafeExecutor.input := Actions.FallbackObserveAction;
     SafeExecutor.output := Some obs;
     SafeExecutor.success := true;
     SafeExecutor.message := "Observed";
     SafeExecutor.should_rerun_step_agent := false |}.

Section Step.
(** [self.step_executor.execute], and in [step_actions] the recursive call
    [self.step(task)]. *)
Variable execute : Actions.BaseAction -> M (State Ext) Trajectory.Status.

(** The loop [for action in response.get_actions(...)] of [step]; falling
    out of the loop and [break] both lead to [return None].  The rendering
    of the result for the logger (lines 253-254) is left out. *)
Fixpoint step_actions (rerun : M (State Ext) (option Actions.CompletionAction))
    (response : Types.StepAgentOutput) (actions : list Actions.BaseAction)
  : M (State Ext) (option Actions.CompletionAction) :=
  match actions with
  | [] => ret None
  | action :: rest =>
      result <- execute action ;;
      if SafeExecutor.should_rerun_step_agent result then
        SafeExecutor.lift (logger LogRerun) ;;;
        rerun
      else
        SafeExecutor.lift (trajectory_add_step result) ;;;
        if negb (SafeExecutor.success result) then
          obs <- SafeExecutor.lift (call (env_observe X)) ;;
          SafeExecutor.lift (trajectory_add_output response) ;;;
          SafeExecutor.lift (trajectory_add_step (fallback_status obs)) ;;;
          ret None
        else step_actions rerun response rest
  end.

(** [step], the depth of the recursion [return await self.step(task)]
    bounded by [fuel]. *)
Fixpoint step_with (fuel : nat) (task : string)
  : M (State Ext) (option Actions.CompletionAction) :=
  match fuel with
  | O => fun st => (Timeout, st)
  | S fuel' =>
      messages <- SafeExecutor.lift (get_messages task) ;;
      response <- SafeExecutor.lift (call (structured_completion X messages)) ;;
      SafeExecutor.lift
        (match step_callback X with
         | Some callback => call (callback task response)
         | None => ret tt
         end) ;;;
      SafeExecutor.lift (trajectory_add_output response) ;;;
      match Types.output response with
      | Some completion => ret (Some completion)
      | None =>
          step_actions (step_with fuel' task) response
            (Types.get_actions response (Config.max_actions_per_step config))
      end
  end.
End Step.

Definition step : nat -> string -> M (State Ext) (option Actions.CompletionAction) :=
  step_with step_executor_execute.

(** [range(n)]. *)
Definition range (n : Z) : list Z := map Z.of_nat (seq 0 (Z.to_nat n)).

(** [self.env.trajectory[-1]]. *)
Definition env_trajectory_last : M (Agent Ext) Observation.Observation :=
  a <- get ;;
  match rev (env_trajectory_of X (ext a)) with
  | obs :: _ => ret obs
  | [] => raise (PyException "IndexError" "list index out of range")
  end.

Definition failed_validation_status (completion : Actions.CompletionAction)
    (failed_val_msg : string) : Trajectory.Status :=
  {| SafeExecutor.input := Actions.Completion completion;
     SafeExecutor.output := None;
     SafeExecutor.success := false;
     SafeExecutor.message := failed_val_msg;
     SafeExecutor.should_rerun_step_agent := false |}.

(** How one pass through the body of a [for] loop ends: the next pass
    follows, or the function returns. *)
Inductive LoopControl :=
| Continue
| Return (r : AgentResponse).

(** Lines 301-326: what the loop of [_run] does with the value [step]
    returned. *)
Definition check_completion (task : string) (out : option Actions.CompletionAction)
  : M (State Ext) LoopControl :=
  match out with
  | None => ret Continue
  | Some completion =>
      if negb (Actions.success completion) then
        SafeExecutor.lift (logger (LogTerminatedEarly (Actions.answer completion))) ;;;
        r <- SafeExecutor.lift (output (Actions.answer completion) false) ;;
        ret (Return r)
      else
        obs <- SafeExecutor.lift env_trajectory_last ;;
        val <- SafeExecutor.lift (call (validate X task completion obs)) ;;
        if is_valid val then
          SafeExecutor.lift (logger LogCompleted) ;;;
          r <- SafeExecutor.lift
                 (output (Actions.answer completion) (Actions.success completion)) ;;
          ret (Return r)
        else
          let failed_val_msg :=
            "Final validation failed: " +:+ reason val +:+ ". Continuing..." in
          SafeExecutor.lift (logger (LogValidationFailed failed_val_msg)) ;;;
          SafeExecutor.lift
            (trajectory_add_step (failed_validation_status completion failed_val_msg)) ;;;
          ret Continue
  end.

(** The body of the loop [for step in range(max_steps)] of [_run]. *)
Definition run_body (fuel : nat) (task : string) (n : Z) : M (State Ext) LoopControl :=
  SafeExecutor.lift (logger (LogStep n)) ;;;
  out <- step fuel task ;;
  check_completion task out.

(** The loop over the remaining step numbers: [Some r] is a [return r] from
    inside the loop, [None] is the loop running to its end. *)
Fixpoint run_loop (fuel : nat) (task : string) (steps : list Z)
  : M (State Ext) (option AgentResponse) :=
  match steps with
  | [] => ret None
  | n :: rest =>
      c <- run_body fuel task n ;;
      match c with
      | Continue => run_loop fuel task rest
      | Return r => ret (Some r)
      end
  end.

Definition budget_message : string :=
  "Failed to solve task in " +:+ str_int (Config.max_steps config) +:+ " steps".

(** Lines 292-293: the task, prefixed with the start URL if there is one. *)
Definition task_with_url (task : string) (url : option string) : string :=
  match url with
  | Some u => "Start on '" +:+ u +:+ "' and " +:+ task
  | None => task
  end.

(** [_run].  [async with self.env] enters the environment, and leaves it
    again however the block ends; an exception raised on leaving replaces the
    result of the block. *)
Definition _run (fuel : nat) (task : string) (url : option string)
  : M (State Ext) AgentResponse :=
  let task := task_with_url task url in
  SafeExecutor.lift (call (env_aenter X)) ;;;
  fun st =>
    match run_loop fuel task (range (Config.max_steps config)) st with
    | (Timeout, st1) => (Timeout, st1)
    | (block, st1) =>
        match SafeExecutor.lift (call (env_aexit X)) st1 with
        | (Ret _, st2) =>
            match block with
            | Ret (Some r) => (Ret r, st2)
            | Ret None =>
                (SafeExecutor.lift (logger (LogBudget budget_message)) ;;;
                 SafeExecutor.lift (output budget_message false)) st2
            | Raise e => (Raise e, st2)
            | Timeout => (Timeout, st2)
            end
        | (Raise e, st2) => (Raise e, st2)
        | (Timeout, st2) => (Timeout, st2)
        end
    end.

Definition run (fuel : nat) (task : string) (url : option string)
  : M (State Ext) AgentResponse :=
  SafeExecutor.lift (logger (LogRunningTask task)) ;;;
  fun st =>
    match _run fuel task url st with
    | (Raise e, st') =>
        if decide (Config.raise_condition config = Config.NEVER) then
          SafeExecutor.lift
            (output ("Failed due to " +:+ str_exn X e +:+ ": " +:+ format_exc X e) false) st'
        else (Raise e, st')
    | other => other
    end.
End Agent.

End Falco.

(** ** config.py: [AgentConfig.set_env] and [AgentConfig.from_args] *)

Module AgentConfig.

(** Code without state: [Ret] or [Raise]. *)
Definition and_then {A B} (r : Outcome A) (k : A -> Outcome B) : Outcome B :=
  match r with
  | Ret a => k a
  | Raise e => Raise e
  | Timeout => Timeout
  end.

(** [s.replace(old, new)] for a non-empty [old], as at every call of
    [from_args]: the occurrences are replaced from the left and do not
    overlap; [skip] counts the characters of a match still to pass. *)
Fixpoint replace_from (old new : string) (skip : nat) (s : string) : string :=
  match s with
  | EmptyString => EmptyString
  | String c rest =>
      match skip with
      | S n => replace_from old new n rest
      | O =>
          if String.prefix old s
          then new +:+ replace_from old new (String.length old - 1) rest
          else String c (replace_from old new 0 rest)
      end
  end.

Definition str_replace (old new s : string) : string := replace_from old new 0 s.

(** [s.startswith(p)]. *)
Definition startswith (s p : string) : bool := String.prefix p s.

Fixpoint contains_char (c : Ascii.ascii) (s : string) : bool :=
  match s with
  | EmptyString => false
  | String c' rest => Ascii.eqb c c' || contains_char c rest
  end.

Section Validation.
(** The values of the keyword arguments, with their truth value, and the
    environment configuration that [cls.default_env()] returns. *)
Variable V : Type.
Variable truthy : V -> bool.
Variable default_env : V.

(** [set_env], the [model_validator(mode="before")] of [AgentConfig]. *)
Definition set_env (values : gmap string V) : Outcome (gmap string V) :=
  if decide (is_Some (values !! "env")) then
    if match values !! "force_env" with
       | Some v => truthy v
       | None => false
       end
    then Ret (delete "force_env" values)
    else Raise (PyException "ValueError"
                  "Env should not be set by the user. Set `default_env` instead.")
  else Ret (<["env" := default_env]> values).

Definition disallowed_args : list string := ["task"; "env.window.headless"].

Definition disallowed (k : string) : bool :=
  existsb (String.eqb k) disallowed_args.

(** The two dictionary comprehensions of [from_args] over the items of
    [vars(args)]; a later item wins over an earlier one with the same
    key. *)
Definition env_args (items : list (string * V)) : gmap string V :=
  foldl (fun d kv =>
           if startswith (fst kv) "env." && negb (disallowed (fst kv))
           then <[str_replace "-" "_" (str_replace "env." "" (fst kv)) := snd kv]> d
           else d)
        ∅ items.

Definition agent_args (items : list (string * V)) : gmap string V :=
  foldl (fun d kv =>
           if negb (startswith (fst kv) "env.") && negb (disallowed (fst kv))
           then <[str_replace "-" "_" (fst kv) := snd kv]> d
           else d)
        ∅ items.

(** [update_env], over the methods of [NotteEnvConfig], which is declared
    outside this file. *)
Section UpdateEnv.
Variable Env : Type.
Variable _copy_and_validate : Env -> gmap string V -> Outcome Env.
Variable headless : Env -> V -> Outcome Env.
Variable disable_web_security : Env -> Outcome Env.

Definition update_env (items : list (string * V)) (env : Env) : Outcome Env :=
  let env_args := env_args items in
  and_then (_copy_and_validate env env_args) (fun env =>
  and_then (match env_args !! "env.headless" with
            | Some v => headless env v
            | None => Ret env
            end) (fun env =>
  match env_args !! "env.disable_web_security" with
  | Some v => if truthy v then disable_web_security env else Ret env
  | None => Ret env
  end)).
End UpdateEnv.
End Validation.

End AgentConfig.

(** ** playwright.py *)

Module Playwright.

Inductive BrowserType := CHROMIUM | FIREFOX.

(** The fields of [BrowserWindowOptions] that the managers read; a proxy
    and a cookie are kept as their rendering. *)
Record BrowserWindowOptions := {
  cdp_url : option string;
  browser_type : BrowserType;
  headless : bool;
  user_agent : option string;
  proxy : option string;
  chrome_args : list string;
  viewport_width : option Z;
  viewport_height : option Z;
  cookies : option (list string)
}.

(** The keyword arguments of [browser.new_context]. *)
Record ContextArgs := {
  no_viewport : bool;
  viewport : option (option Z * option Z);
  permissions : list string;
  context_proxy : option string;
  context_user_agent : option string
}.

(** The keyword arguments of [launch]; the timeout is in milliseconds. *)
Record LaunchArgs := {
  launch_headless : bool;
  launch_proxy : option string;
  launch_timeout : Z;
  launch_args : option (list string)
}.

Section Managers.
(** The handles of the playwright library and the state [Ext] of the
    processes behind them. *)
Context {Ext PlaywrightHandle Browser BrowserContext Page : Type}.

Record Driver := {
  async_playwright_start : M Ext PlaywrightHandle;
  playwright_stop : PlaywrightHandle -> M Ext unit;
  connect_over_cdp : PlaywrightHandle -> string -> M Ext Browser;
  firefox_connect : PlaywrightHandle -> string -> M Ext Browser;
  launch : PlaywrightHandle -> BrowserType -> LaunchArgs -> M Ext Browser;
  browser_close : Browser -> M Ext unit;
  new_context : Browser -> ContextArgs -> M Ext BrowserContext;
  add_cookies : BrowserContext -> string -> M Ext unit;
  context_pages : BrowserContext -> Ext -> list Page;
  new_page : BrowserContext -> M Ext Page;
  context_close : BrowserContext -> M Ext unit;
  page_context : Page -> BrowserContext;
  BrowserNotStartedError : PyExn
}.

Variable D : Driver.

Record BrowserResource := {
  page : Page;
  options : BrowserWindowOptions
}.

(** A [WindowManager] (with the [_playwright] of [PlaywrightManager]) and
    the flag of [GlobalWindowManager], with the external state. *)
Record Manager := {
  _playwright : option PlaywrightHandle;
  browser : option Browser;
  started : bool;
  ext : Ext
}.

Definition set_playwright_field (p : option PlaywrightHandle) (m : Manager) : Manager :=
  {| _playwright := p; browser := browser m; started := started m; ext := ext m |}.
Definition set_browser (b : option Browser) (m : Manager) : Manager :=
  {| _playwright := _playwright m; browser := b; started := started m; ext := ext m |}.
Definition set_started (b : bool) (m : Manager) : Manager :=
  {| _playwright := _playwright m; browser := browser m; started := b; ext := ext m |}.

(** A call of the playwright library. *)
Definition call {A} (c : M Ext A) : M Manager A :=
  fun m =>
    let '(r, x) := c (ext m) in
    (r, {| _playwright := _playwright m; browser := browser m;
           started := started m; ext := x |}).

Definition BROWSER_CREATION_TIMEOUT_SECONDS : Z := 30.
Definition BROWSER_OPERATION_TIMEOUT_SECONDS : Z := 30.

(** [PlaywrightManager.start]. *)
Definition start : M Manager unit :=
  m <- get ;;
  match _playwright m with
  | None =>
      p <- call (async_playwright_start D) ;;
      modify (set_playwright_field (Some p))
  | Some _ => ret tt
  end.

(** [PlaywrightManager.stop]. *)
Definition stop : M Manager unit :=
  m <- get ;;
  match _playwright m with
  | Some p =>
      call (playwright_stop D p) ;;;
      modify (set_playwright_field None)
  | None => ret tt
  end.

Definition is_started (m : Manager) : bool :=
  match _playwright m with Some _ => true | None => false end.

(** The property [playwright]. *)
Definition playwright : M Manager PlaywrightHandle :=
  m <- get ;;
  match _playwright m with
  | None => raise (BrowserNotStartedError D)
  | Some p => ret p
  end.

Definition set_playwright (p : PlaywrightHandle) : M Manager unit :=
  modify (set_playwright_field (Some p)).

Definition connect_cdp_browser (o : BrowserWindowOptions) : M Manager Browser :=
  match cdp_url o with
  | None =>
      raise (PyException "ValueError"
               "CDP URL is required to connect to a browser over CDP")
  | Some url =>
      match browser_type o with
      | CHROMIUM => p <- playwright ;; call (connect_over_cdp D p url)
      | FIREFOX => p <- playwright ;; call (firefox_connect D p url)
      end
  end.

(** [WindowManager.create_playwright_browser]; the [logger] calls are left
    out. *)
Definition create_playwright_browser (o : BrowserWindowOptions) : M Manager Browser :=
  match cdp_url o with
  | Some _ => connect_cdp_browser o
  | None =>
      b <- match browser_type o with
           | CHROMIUM =>
               p <- playwright ;;
               call (launch D p CHROMIUM
                       {| launch_headless := headless o;
                          launch_proxy := proxy o;
                          launch_timeout := BROWSER_CREATION_TIMEOUT_SECONDS * 1000;
                          launch_args := Some (chrome_args o) |})
           | FIREFOX =>
               p <- playwright ;;
               call (launch D p FIREFOX
                       {| launch_headless := headless o;
                          launch_proxy := proxy o;
                          launch_timeout := BROWSER_CREATION_TIMEOUT_SECONDS * 1000;
                          launch_args := None |})
           end ;;
      modify (set_browser (Some b)) ;;;
      ret b
  end.

(** [try: ... except Exception as e:]: the handler takes over when the
    body raises. *)
Definition try_except {St A} (body : M St A) (handler : PyExn -> M St A) : M St A :=
  fun s =>
    match body s with
    | (Raise e, s') => handler e s'
    | other => other
    end.

(** [WindowManager.close_playwright_browser]; [browser or self.browser]
    takes the argument when one is given, a browser handle being true.  The
    expiry of [asyncio.timeout] is one of the exceptions of the call. *)
Definition close_playwright_browser (arg : option Browser) : M Manager bool :=
  m <- get ;;
  match (match arg with Some b => Some b | None => browser m end) with
  | None => raise (BrowserNotStartedError D)
  | Some b =>
      r <- try_except (call (browser_close D b) ;;; ret (Some true))
                      (fun _ => ret None) ;;
      match r with
      | Some v => ret v
      | None => modify (set_browser None) ;;; ret false
      end
  end.

(** What [get_browser_resource] does once [self.browser] is set. *)
Definition open_resource (b : Browser) (o : BrowserWindowOptions) : M Manager BrowserResource :=
  let viewport :=
    match viewport_width o, viewport_height o with
    | None, None => None
    | w, h => Some (w, h)
    end in
  context <- call (new_context D b
                     {| no_viewport := negb (headless o);
                        viewport := viewport;
                        permissions := ["clipboard-read"; "clipboard-write"];
                        context_proxy := proxy o;
                        context_user_agent := user_agent o |}) ;;
  match cookies o with
  | Some cs => Falco.for_each (fun c => call (add_cookies D context c)) cs
  | None => ret tt
  end ;;;
  m <- get ;;
  pg <- match rev (context_pages D context (ext m)) with
        | [] => call (new_page D context)
        | last :: _ => ret last
        end ;;
  ret {| page := pg; options := o |}.

(** [WindowManager.get_browser_resource]. *)
Definition get_browser_resource (o : BrowserWindowOptions) : M Manager BrowserResource :=
  m <- get ;;
  b <- match browser m with
       | None =>
           b <- create_playwright_browser o ;;
           modify (set_browser (Some b)) ;;;
           ret b
       | Some b => ret b
       end ;;
  open_resource b o.

(** [WindowManager.release_browser_resource]. *)
Definition release_browser_resource (r : BrowserResource) : M Manager unit :=
  call (context_close D (page_context D (page r))).

(** A [BrowserWindow]: the resource, and the closure [on_close]. *)
Record BrowserWindow := {
  resource : BrowserResource;
  on_close : M Manager unit
}.

(** [PlaywrightManager.new_window], given the options. *)
Definition new_window (o : BrowserWindowOptions) : M Manager BrowserWindow :=
  r <- get_browser_resource o ;;
  ret {| resource := r; on_close := release_browser_resource r |}.

(** [GlobalWindowManager.new_window]. *)
Definition global_new_window (o : BrowserWindowOptions) : M Manager BrowserWindow :=
  stop ;;;
  start ;;;
  modify (set_started true) ;;;
  new_window o.

(** [GlobalWindowManager.close_window]. *)
Definition global_close_window (w : BrowserWindow) : M Manager unit :=
  m <- get ;;
  (if started m then
     try_except (release_browser_resource (resource w))
                (fun _ => modify (set_browser None)) ;;;
     stop
   else ret tt) ;;;
  modify (set_browser None) ;;;
  modify (set_started false).
End Managers.

End Playwright.

(** ** prompt.py *)

Module Prompt.

(** [litellm.Message], and the dictionaries that [materialize] returns. *)
Record Message := {
  role : string;
  content : option string
}.

Record MessageDict := {
  dict_role : string;
  dict_content : string
}.

(** [name.split(".")[0]]: the part of the name before its first dot. *)
Fixpoint before_dot (name : string) : string :=
  match name with
  | EmptyString => EmptyString
  | String c rest =>
      if Ascii.eqb c (Ascii.ascii_of_nat 46) then EmptyString
      else String c (before_dot rest)
  end.

Definition roles : list string := ["assistant"; "user"; "system"; "tool"; "function"].

Definition valid_role (r : string) : bool := existsb (String.eqb r) roles.

(** A loop that appends one result per element and stops at the first
    exception. *)
Fixpoint collect {A B} (body : A -> Outcome B) (l : list A) : Outcome (list B) :=
  match l with
  | [] => Ret []
  | x :: rest =>
      AgentConfig.and_then (body x) (fun y =>
      AgentConfig.and_then (collect body rest) (fun ys => Ret (y :: ys)))
  end.

Section Library.
(** The directory [prompts_dir] as the library reads it: the names of the
    [*.md] files of a prompt, in the order [glob] gives them, and the reading
    of one of them; and [chevron.render]. *)
Variable Variables : Type.
Variable glob_md : string -> list string.
Variable read : string -> string -> Outcome string.
Variable render : string -> Variables -> Outcome string.
Variable str_exn : PyExn -> string.

(** One pass of the loop of [get]. *)
Definition load (prompt_id prompt_file : string) : Outcome Message :=
  AgentConfig.and_then (read prompt_id prompt_file) (fun content =>
  let role := before_dot prompt_file in
  if valid_role role then Ret {| role := role; content := Some content |}
  else Raise (PyException "ValueError" ("Invalid role: " +:+ role))).

Definition get (prompt_id : string) : Outcome (list Message) :=
  let prompt_files := glob_md prompt_id in
  if (length prompt_files =? 0)%nat then
    Raise (PyException "FileNotFoundError" ("Prompt template not found: " +:+ prompt_id))
  else collect (load prompt_id) prompt_files.

Definition as_dict (m : Message) : Outcome MessageDict :=
  match content m with
  | None => Raise (PyException "ValueError" ("Message content is None: " +:+ role m))
  | Some c => Ret {| dict_role := role m; dict_content := c |}
  end.

Definition format (variables : Variables) (m : MessageDict) : Outcome MessageDict :=
  AgentConfig.and_then (render (dict_content m) variables) (fun formatted_content =>
  Ret {| dict_role := dict_role m; dict_content := formatted_content |}).

(** The two [except] clauses of [materialize]. *)
Definition wrap_error (e : PyExn) : PyExn :=
  match e with
  | PyException "KeyError" _ =>
      PyException "ValueError"
        ("Missing required variable in prompt template: " +:+ str_exn e)
  | _ => PyException "ValueError" ("Error formatting prompt: " +:+ str_exn e)
  end.

Definition materialize (prompt_id : string) (variables : option Variables)
  : Outcome (list MessageDict) :=
  AgentConfig.and_then (get prompt_id) (fun _messages =>
  AgentConfig.and_then (collect as_dict _messages) (fun messages =>
  match variables with
  | None => Ret messages
  | Some vs =>
      match collect (format vs) messages with
      | Raise e => Raise (wrap_error e)
      | other => other
      end
  end)).
End Library.

End Prompt.

(** ** Results that can be read back *)

(** A status whose [get] returns: it has an output if it is a success. *)
Definition readable (s : Trajectory.Status) : Prop :=
  SafeExecutor.success s = true -> SafeExecutor.output s <> None.

(** Every result recorded in the trajectory is readable. *)
Definition well_formed (t : list Trajectory.TrajectoryStep) : Prop :=
  Forall readable (Trajectory.all_results t).

(** The relations kept by the operations of the agent: the trajectory is
    untouched, or it stays well formed. *)
Definition same_trajectory {Ext : Type} (a a' : Falco.Agent Ext) : Prop :=
  Falco.trajectory a' = Falco.trajectory a.

Definition stays_well_formed {Ext : Type} (st st' : Falco.State Ext) : Prop :=
  well_formed (Falco.trajectory (SafeExecutor.world st)) ->
  well_formed (Falco.trajectory (SafeExecutor.world st')).

(** A computation that returns from every state where [I] holds, in a state
    where [I] holds again. *)
Definition returns_in {St A : Type} (I : St -> Prop) (m : M St A) : Prop :=
  forall s, I s -> exists a s', m s = (Ret a, s') /\ I s'.

(** ** Calls that return or raise *)

(** [finishes m s]: run from [s], [m] returns or raises. *)
Definition finishes {St A} (m : M St A) (s : St) : Prop := fst (m s) <> Timeout.

(** Every call of a collaborator that [step] makes returns or raises. *)
Definition responsive {Ext : Type} (X : Falco.Externals Ext) : Prop :=
  (forall a x, finishes (Falco.env_act X a) x) /\
  (forall x, finishes (Falco.env_observe X) x) /\
  (forall msgs x, finishes (Falco.structured_completion X msgs) x) /\
  (forall callback task r x,
     Falco.step_callback X = Some callback -> finishes (callback task r) x) /\
  (forall v, Falco.vault X = Some v ->
     (forall a x, finishes (Falco.replace v a) x) /\
     (forall x, finishes (Falco.instructions v) x)).

(** * Small instances for the examples *)

Module Demo.

(** An operation on numbers that raises on odd inputs, behind an executor
    with a ceiling of three failures and no handlers. *)
Definition flaky_func (n : nat) : M unit (option nat) :=
  if Nat.even n then ret (Some n) else raise (PyException "RuntimeError" "odd input").

Definition flaky (raise_on_failure : bool) : SafeExecutor.SafeActionExecutor unit nat nat :=
  {| SafeExecutor.func := flaky_func;
     SafeExecutor.on_failure_handlers := [];
     SafeExecutor.precheck_func := None;
     SafeExecutor.max_consecutive_failures := 3;
     SafeExecutor.raise_on_failure := raise_on_failure |}.

Definition str_nat (n : nat) : string := str_int (Z.of_nat n).

(** An operation that only acts and returns [None], behind the same
    executor. *)
Definition silent : SafeExecutor.SafeActionExecutor unit nat nat :=
  {| SafeExecutor.func := fun _ => ret None;
     SafeExecutor.on_failure_handlers := [];
     SafeExecutor.precheck_func := None;
     SafeExecutor.max_consecutive_failures := 3;
     SafeExecutor.raise_on_failure := false |}.

Definition fresh : SafeExecutor.ExecState unit :=
  {| SafeExecutor.consecutive_failures := 0; SafeExecutor.world := tt |}.

(** A scripted world for the agent: the replies of the reasoning engine,
    the results of [env.act] and the verdicts of the validator are consumed
    in order; [seen] is [env.trajectory]. *)
Record Script := {
  llm_replies : list Types.StepAgentOutput;
  act_results : list (Outcome Observation.Observation);
  verdicts : list Falco.ValidationResult;
  seen : list Observation.Observation
}.

Definition exhausted {A} (what : string) : M Script A :=
  raise (PyException "RuntimeError" ("script exhausted: " +:+ what)).

Definition page (title : string) (ids : list string) : Observation.Observation :=
  {| Observation.metadata := title;
     Observation.screenshot := None;
     Observation.space :=
       Some {| Observation.description := title;
               Observation.actions := fun _ => map (fun i => Actions.Action i "") ids |};
     Observation.data := None;
     Observation.progress := None |}.

Definition scripted_act (a : Actions.BaseAction) : M Script Observation.Observation :=
  fun s =>
    match act_results s with
    | [] => exhausted "act" s
    | r :: rest =>
        (r, {| llm_replies := llm_replies s;
               act_results := rest;
               verdicts := verdicts s;
               seen := match r with Ret obs => seen s ++ [obs] | _ => seen s end |})
    end.

Definition scripted_observe : M Script Observation.Observation :=
  fun s =>
    let obs := page "observed" ["B1"] in
    (Ret obs, {| llm_replies := llm_replies s;
                 act_results := act_results s;
                 verdicts := verdicts s;
                 seen := seen s ++ [obs] |}).

Definition scripted_completion (msgs : list Conversation.Message)
  : M Script Types.StepAgentOutput :=
  fun s =>
    match llm_replies s with
    | [] => exhausted "llm" s
    | r :: rest =>
        (Ret r, {| llm_replies := rest;
                   act_results := act_results s;
                   verdicts := verdicts s;
                   seen := seen s |})
    end.

Definition scripted_validate (task : string) (c : Actions.CompletionAction)
    (obs : Observation.Observation) : M Script Falco.ValidationResult :=
  fun s =>
    match verdicts s with
    | [] => exhausted "validator" s
    | v :: rest =>
        (Ret v, {| llm_replies := llm_replies s;
                   act_results := act_results s;
                   verdicts := rest;
                   seen := seen s |})
    end.

Definition demo_action_id (a : Actions.BaseAction) : string :=
  match a with
  | Actions.Action id _ => id
  | Actions.FallbackObserveAction => "fallback-observe"
  | Actions.Completion _ => "completion"
  end.

Definition demo_str_exn (e : PyExn) : string :=
  match e with
  | RateLimitError t => t
  | NotteBaseError _ msgs => dev_message msgs
  | ValidationError t => t
  | PyException _ t => t
  end.

Definition scripted : Falco.Externals Script :=
  {| Falco.env_act := scripted_act;
     Falco.env_observe := scripted_observe;
     Falco.env_aenter := ret tt;
     Falco.env_aexit := ret tt;
     Falco.env_trajectory_of := seen;
     Falco.structured_completion := scripted_completion;
     Falco.validate := scripted_validate;
     Falco.step_callback := None;
     Falco.vault := None;
     Falco.prompt_system := "system";
     Falco.prompt_task := fun task => "task: " +:+ task;
     Falco.prompt_action_message := "next action?";
     Falco.trajectory_perceive := fun _ => "history";
     Falco.trajectory_start_rules := "start";
     Falco.perceive_step_result := fun r => SafeExecutor.message r;
     Falco.model_dump_json := Types.thought;
     Falco.perceive := Observation.metadata;
     Falco.perceive_data := fun obs _ => Observation.metadata obs;
     Falco.count_tokens := fun _ => 1;
     Falco.fallback_observe_id := "fallback-observe";
     Falco.completion_id := "completion";
     Falco.str_action := demo_action_id;
     Falco.invalid_action_id_messages := fun id _ =>
       {| dev_message := "invalid action id " +:+ id;
          user_message := "invalid action id " +:+ id;
          agent_message := "invalid action id " +:+ id |};
     Falco.str_exn := demo_str_exn;
     Falco.format_exc := fun _ => "Traceback" |}.

(** The same world with a reasoning engine that always answers with no
    action and no completion. *)
Definition idle_reply : Types.StepAgentOutput :=
  {| Types.output := None; Types.actions := []; Types.thought := "wait" |}.

Definition idle : Falco.Externals Script :=
  {| Falco.env_act := scripted_act;
     Falco.env_observe := scripted_observe;
     Falco.env_aenter := ret tt;
     Falco.env_aexit := ret tt;
     Falco.env_trajectory_of := seen;
     Falco.structured_completion := fun _ => ret idle_reply;
     Falco.validate := scripted_validate;
     Falco.step_callback := None;
     Falco.vault := None;
     Falco.prompt_system := "system";
     Falco.prompt_task := fun task => "task: " +:+ task;
     Falco.prompt_action_message := "next action?";
     Falco.trajectory_perceive := fun _ => "history";
     Falco.trajectory_start_rules := "start";
     Falco.perceive_step_result := fun r => SafeExecutor.message r;
     Falco.model_dump_json := Types.thought;
     Falco.perceive := Observation.metadata;
     Falco.perceive_data := fun obs _ => Observation.metadata obs;
     Falco.count_tokens := fun _ => 1;
     Falco.fallback_observe_id := "fallback-observe";
     Falco.completion_id := "completion";
     Falco.str_action := demo_action_id;
     Falco.invalid_action_id_messages := fun id _ =>
       {| dev_message := "invalid action id " +:+ id;
          user_message := "invalid action id " +:+ id;
          agent_message := "invalid action id " +:+ id |};
     Falco.str_exn := demo_str_exn;
     Falco.format_exc := fun _ => "Traceback" |}.

Definition demo_config (rc : Config.RaiseCondition) (history : Config.HistoryType)
    (steps : Z) : Config.FalcoAgentConfig :=
  {| Config.include_screenshot := false;
     Config.max_history_tokens := 16000;
     Config.raise_condition := rc;
     Config.max_consecutive_failures := 3;
     Config.max_actions_per_step := 1;
     Config.history_type := history;
     Config.max_steps := steps |}.

Definition start (s : Script) (traj : list Trajectory.TrajectoryStep) : Falco.State Script :=
  {| SafeExecutor.consecutive_failures := 0;
     SafeExecutor.world :=
       {| Falco.conv := []; Falco.trajectory := traj; Falco.log := []; Falco.ext := s |} |}.

Definition reply_action (id : string) : Types.StepAgentOutput :=
  {| Types.output := None;
     Types.actions := [Actions.Action id ""];
     Types.thought := "act " +:+ id |}.

Definition reply_done (success : bool) (answer : string) : Types.StepAgentOutput :=
  {| Types.output := Some {| Actions.success := success; Actions.answer := answer |};
     Types.actions := [];
     Types.thought := "done" |}.

Definition ok_status (a : Actions.BaseAction) (obs : Observation.Observation)
  : Trajectory.Status :=
  {| SafeExecutor.input := a;
     SafeExecutor.output := Some obs;
     SafeExecutor.success := true;
     SafeExecutor.message :=
       "Successfully executed action with input: " +:+ demo_action_id a;
     SafeExecutor.should_rerun_step_agent := false |}.

(** The agent inside its second step: the first step opened the page whose
    action space is [B1], the reply of the second step has been recorded. *)
Definition second_step_trajectory : list Trajectory.TrajectoryStep :=
  [ {| Trajectory.agent_response := reply_action "goto";
       Trajectory.results := [ok_status (Actions.Action "goto" "") (page "home" ["B1"])] |};
    {| Trajectory.agent_response := reply_action "X9";
       Trajectory.results := [] |} ].

(** An executor over a journal of what ran: a precheck that rejects inputs
    above 100, an operation that raises on odd inputs, a handler that notes
    the failures of the operation and a handler that itself raises on the
    rejections of the precheck. *)
Definition guarded_precheck (n : nat) : M (list string) unit :=
  if (100 <? n)%nat then raise (ValidationError "too large") else ret tt.

Definition journal_func (n : nat) : M (list string) (option nat) :=
  fun w =>
    if Nat.even n then (Ret (Some n), w ++ ["ran"])
    else (Raise (PyException "RuntimeError" "odd input"), w ++ ["ran"]).

Definition note_handler (e : PyExn) : M (list string) unit :=
  modify (fun w => w ++ ["handled"]).

Definition failing_handler (e : PyExn) : M (list string) unit :=
  raise (PyException "KeyError" "handler").

Definition guarded (raise_on_failure : bool)
  : SafeExecutor.SafeActionExecutor (list string) nat nat :=
  {| SafeExecutor.func := journal_func;
     SafeExecutor.on_failure_handlers :=
       [(TException "RuntimeError", note_handler); (TValidationError, failing_handler)];
     SafeExecutor.precheck_func := Some guarded_precheck;
     SafeExecutor.max_consecutive_failures := 3;
     SafeExecutor.raise_on_failure := raise_on_failure |}.

Definition blank : SafeExecutor.ExecState (list string) :=
  {| SafeExecutor.consecutive_failures := 0; SafeExecutor.world := [] |}.

(** A world in which every action fails and the reasoning engine keeps
    proposing the same one. *)
Definition stubborn : Falco.Externals Script :=
  {| Falco.env_act := fun _ => raise (PyException "TimeoutError" "page did not load");
     Falco.env_observe := scripted_observe;
     Falco.env_aenter := ret tt;
     Falco.env_aexit := ret tt;
     Falco.env_trajectory_of := seen;
     Falco.structured_completion := fun _ => ret (reply_action "B1");
     Falco.validate := scripted_validate;
     Falco.step_callback := None;
     Falco.vault := None;
     Falco.prompt_system := "system";
     Falco.prompt_task := fun task => "task: " +:+ task;
     Falco.prompt_action_message := "next action?";
     Falco.trajectory_perceive := fun _ => "history";
     Falco.trajectory_start_rules := "start";
     Falco.perceive_step_result := fun r => SafeExecutor.message r;
     Falco.model_dump_json := Types.thought;
     Falco.perceive := Observation.metadata;
     Falco.perceive_data := fun obs _ => Observation.metadata obs;
     Falco.count_tokens := fun _ => 1;
     Falco.fallback_observe_id := "fallback-observe";
     Falco.completion_id := "completion";
     Falco.str_action := demo_action_id;
     Falco.invalid_action_id_messages := fun id _ =>
       {| dev_message := "invalid action id " +:+ id;
          user_message := "invalid action id " +:+ id;
          agent_message := "invalid action id " +:+ id |};
     Falco.str_exn := demo_str_exn;
     Falco.format_exc := fun _ => "Traceback" |}.

Definition empty_script : Script :=
  {| llm_replies := []; act_results := []; verdicts := []; seen := [] |}.

(** A world in which the action [good] always works and any other action
    always fails, and the reasoning engine proposes [good] then [bad]. *)
Definition two_actions_reply : Types.StepAgentOutput :=
  {| Types.output := None;
     Types.actions := [Actions.Action "good" ""; Actions.Action "bad" ""];
     Types.thought := "both" |}.

Definition alternating : Falco.Externals Script :=
  {| Falco.env_act := fun a =>
       if String.eqb (demo_action_id a) "good" then ret (page "home" ["good"; "bad"])
       else raise (PyException "TimeoutError" "page did not load");
     Falco.env_observe := scripted_observe;
     Falco.env_aenter := ret tt;
     Falco.env_aexit := ret tt;
     Falco.env_trajectory_of := seen;
     Falco.structured_completion := fun _ => ret two_actions_reply;
     Falco.validate := scripted_validate;
     Falco.step_callback := None;
     Falco.vault := None;
     Falco.prompt_system := "system";
     Falco.prompt_task := fun task => "task: " +:+ task;
     Falco.prompt_action_message := "next action?";
     Falco.trajectory_perceive := fun _ => "history";
     Falco.trajectory_start_rules := "start";
     Falco.perceive_step_result := fun r => SafeExecutor.message r;
     Falco.model_dump_json := Types.thought;
     Falco.perceive := Observation.metadata;
     Falco.perceive_data := fun obs _ => Observation.metadata obs;
     Falco.count_tokens := fun _ => 1;
     Falco.fallback_observe_id := "fallback-observe";
     Falco.completion_id := "completion";
     Falco.str_action := demo_action_id;
     Falco.invalid_action_id_messages := fun id _ =>
       {| dev_message := "invalid action id " +:+ id;
          user_message := "invalid action id " +:+ id;
          agent_message := "invalid action id " +:+ id |};
     Falco.str_exn := demo_str_exn;
     Falco.format_exc := fun _ => "Traceback" |}.

Definition two_actions_config : Config.FalcoAgentConfig :=
  {| Config.include_screenshot := false;
     Config.max_history_tokens := 16000;
     Config.raise_condition := Config.RETRY;
     Config.max_consecutive_failures := 3;
     Config.max_actions_per_step := 2;
     Config.history_type := Config.COMPRESSED;
     Config.max_steps := 5 |}.

(** The scripted world with an environment that cannot be left. *)
Definition leaky : Falco.Externals Script :=
  {| Falco.env_act := scripted_act;
     Falco.env_observe := scripted_observe;
     Falco.env_aenter := ret tt;
     Falco.env_aexit := raise (PyException "RuntimeError" "browser already closed");
     Falco.env_trajectory_of := seen;
     Falco.structured_completion := scripted_completion;
     Falco.validate := scripted_validate;
     Falco.step_callback := None;
     Falco.vault := None;
     Falco.prompt_system := "system";
     Falco.prompt_task := fun task => "task: " +:+ task;
     Falco.prompt_action_message := "next action?";
     Falco.trajectory_perceive := fun _ => "history";
     Falco.trajectory_start_rules := "start";
     Falco.perceive_step_result := fun r => SafeExecutor.message r;
     Falco.model_dump_json := Types.thought;
     Falco.perceive := Observation.metadata;
     Falco.perceive_data := fun obs _ => Observation.metadata obs;
     Falco.count_tokens := fun _ => 1;
     Falco.fallback_observe_id := "fallback-observe";
     Falco.completion_id := "completion";
     Falco.str_action := demo_action_id;
     Falco.invalid_action_id_messages := fun id _ =>
       {| dev_message := "invalid action id " +:+ id;
          user_message := "invalid action id " +:+ id;
          agent_message := "invalid action id " +:+ id |};
     Falco.str_exn := demo_str_exn;
     Falco.format_exc := fun _ => "Traceback" |}.

(** A run that ends at once with an accepted completion. *)
Definition accepted_script : Script :=
  {| llm_replies := [reply_done true "42"];
     act_results := [];
     verdicts := [{| Falco.is_valid := true; Falco.reason := "" |}];
     seen := [page "home" ["B1"]] |}.

(** Keyword arguments of a configuration with the caller's own [env]. *)
Definition forced_values : gmap string bool :=
  {[ "env" := false; "force_env" := true; "verbose" := true ]}.

Definition forced_result : gmap string bool :=
  {[ "env" := false; "verbose" := true ]}.

(** The items of a namespace as [create_base_parser] fills it. *)
Definition parsed_items : list (string * bool) :=
  [("env.headless", true); ("env.disable_web_security", true);
   ("task", true); ("max-history-tokens", false)].

(** A driver that keeps a journal of the calls made to the playwright
    library; handles are numbers, and closing browser 13 fails. *)
Definition journal (entry : string) {A} (a : A) : M (list string) A :=
  fun x => (Ret a, x ++ [entry]).

Definition journal_driver : @Playwright.Driver (list string) nat nat nat nat :=
  {| Playwright.async_playwright_start := fun x => (Ret (length x), x ++ ["start"]);
     Playwright.playwright_stop := fun _ => journal "stop" tt;
     Playwright.connect_over_cdp := fun _ _ => journal "connect_over_cdp" 7%nat;
     Playwright.firefox_connect := fun _ _ => journal "connect" 8%nat;
     Playwright.launch := fun _ _ _ => journal "launch" 9%nat;
     Playwright.browser_close := fun b =>
       if (b =? 13)%nat then raise (PyException "TimeoutError" "close timed out")
       else journal "close" tt;
     Playwright.new_context := fun b _ => journal "new_context" (b + 100)%nat;
     Playwright.add_cookies := fun _ _ => journal "add_cookies" tt;
     Playwright.context_pages := fun _ _ => [];
     Playwright.new_page := fun c => journal "new_page" (c + 1000)%nat;
     Playwright.context_close := fun c =>
       if (c =? 113)%nat then raise (PyException "Error" "context already closed")
       else journal "context_close" tt;
     Playwright.page_context := fun p => (p - 1000)%nat;
     Playwright.BrowserNotStartedError := PyException "BrowserNotStartedError" "" |}.

Definition manager (p : option nat) (b : option nat) (started : bool) (x : list string)
  : @Playwright.Manager (list string) nat nat :=
  {| Playwright._playwright := p; Playwright.browser := b;
     Playwright.started := started; Playwright.ext := x |}.

Definition plain_options : Playwright.BrowserWindowOptions :=
  {| Playwright.cdp_url := None;
     Playwright.browser_type := Playwright.CHROMIUM;
     Playwright.headless := true;
     Playwright.user_agent := None;
     Playwright.proxy := None;
     Playwright.chrome_args := [];
     Playwright.viewport_width := None;
     Playwright.viewport_height := None;
     Playwright.cookies := None |}.

(** A prompt directory with two prompts, and a renderer that knows the
    variable [name] only. *)
Definition demo_glob (prompt_id : string) : list string :=
  if String.eqb prompt_id "greet" then ["system.md"; "user.md"]
  else if String.eqb prompt_id "broken" then ["system.md"; "notes.md"]
  else [].

Definition demo_read (prompt_id prompt_file : string) : Outcome string :=
  if String.eqb prompt_file "system.md" then Ret "You are helpful."
  else Ret "Hello {{name}}".

Definition demo_render (template : string) (variables : list string) : Outcome string :=
  if String.eqb template "Hello {{name}}" then
    match variables with
    | name :: _ => Ret ("Hello " +:+ name)
    | [] => Raise (PyException "KeyError" "'name'")
    end
  else Ret template.

(** A run of two steps: one action that works, then an accepted completion. *)
Definition one_action_script : Script :=
  {| llm_replies := [reply_action "B1"; reply_done true "42"];
     act_results := [Ret (page "next" ["C1"])];
     verdicts := [{| Falco.is_valid := true; Falco.reason := "" |}];
     seen := [page "home" ["B1"]] |}.


End Demo.

(** * Properties of [SafeActionExecutor] *)

Section ExecutorFacts.
Context {W S T : Type}.
Variable str_input : S -> string.
Variable self : SafeExecutor.SafeActionExecutor W S T.

Local Abbreviation execute := (SafeExecutor.execute str_input self).
Local Abbreviation attempt := (SafeExecutor.attempt self).
Local Abbreviation call_handler := (SafeExecutor.call_handler self).
Local Abbreviation max_failures := (SafeExecutor.max_consecutive_failures self).

(** [on_failure] written out by the outcome of the handler. *)
Lemma on_failure_unfold (input_data : S) (msg : string) (e : PyExn)
    (st : SafeExecutor.ExecState W) :
  SafeExecutor.on_failure self input_data msg e st =
  let n := SafeExecutor.consecutive_failures st + 1 in
  match call_handler e (SafeExecutor.world st) with
  | (Ret _, w) =>
      let st' := {| SafeExecutor.consecutive_failures := n; SafeExecutor.world := w |} in
      if max_failures <=? n then
        (Raise (mk_MaxConsecutiveFailuresError max_failures), st')
      else if SafeExecutor.raise_on_failure self then
        (Raise (mk_StepExecutionFailure msg), st')
      else
        (Ret {| SafeExecutor.input := input_data;
                SafeExecutor.output := None;
                SafeExecutor.success := false;
                SafeExecutor.message := msg;
                SafeExecutor.should_rerun_step_agent :=
                  if n <=? max_failures then true else false |}, st')
  | (Raise e', w) =>
      (Raise e', {| SafeExecutor.consecutive_failures := n; SafeExecutor.world := w |})
  | (Timeout, w) =>
      (Timeout, {| SafeExecutor.consecutive_failures := n; SafeExecutor.world := w |})
  end.
Proof.
  unfold SafeExecutor.on_failure, bind, modify, SafeExecutor.lift, get, raise, ret.
  cbn.
  destruct (call_handler e (SafeExecutor.world st)) as [[u | e' | ] w]; cbn;
    try reflexivity.
  destruct (max_failures <=? _); [reflexivity |].
  destruct (SafeExecutor.raise_on_failure self); reflexivity.
Qed.

(** [execute] written out by the outcome of the precheck and the
    operation. *)
Lemma execute_unfold (input_data : S) (st : SafeExecutor.ExecState W) :
  execute input_data st =
  match attempt input_data (SafeExecutor.world st) with
  | (Ret result, w) =>
      (Ret {| SafeExecutor.input := input_data;
              SafeExecutor.success := true;
              SafeExecutor.output := result;
              SafeExecutor.message :=
                "Successfully executed action with input: " +:+ str_input input_data;
              SafeExecutor.should_rerun_step_agent := false |},
       {| SafeExecutor.consecutive_failures := 0; SafeExecutor.world := w |})
  | (Raise e, w) =>
      SafeExecutor.on_failure self input_data (SafeExecutor.error_message self e) e
        {| SafeExecutor.consecutive_failures := SafeExecutor.consecutive_failures st;
           SafeExecutor.world := w |}
  | (Timeout, w) =>
      (Timeout, {| SafeExecutor.consecutive_failures := SafeExecutor.consecutive_failures st;
                   SafeExecutor.world := w |})
  end.
Proof.
  unfold SafeExecutor.execute, SafeExecutor.lift.
  destruct (attempt input_data (SafeExecutor.world st)) as [[r | e | ] w]; reflexivity.
Qed.

(** A failed call whose handler returns moves the counter up by one,
    whatever the call then returns or raises. *)
Lemma failure_increments (input_data : S) (st : SafeExecutor.ExecState W)
    (e : PyExn) (w1 w2 : W) :
  attempt input_data (SafeExecutor.world st) = (Raise e, w1) ->
  call_handler e w1 = (Ret tt, w2) ->
  snd (execute input_data st) =
  {| SafeExecutor.consecutive_failures := SafeExecutor.consecutive_failures st + 1;
     SafeExecutor.world := w2 |}.
Proof.
  intros Ha Hh. rewrite execute_unfold, Ha, on_failure_unfold. cbn. rewrite Hh.
  destruct (max_failures <=? _); [reflexivity |].
  destruct (SafeExecutor.raise_on_failure self); reflexivity.
Qed.

(** The failure that brings the counter to the ceiling is fatal. *)
Lemma ceiling_is_fatal (input_data : S) (st : SafeExecutor.ExecState W)
    (e : PyExn) (w1 w2 : W) :
  attempt input_data (SafeExecutor.world st) = (Raise e, w1) ->
  call_handler e w1 = (Ret tt, w2) ->
  max_failures <= SafeExecutor.consecutive_failures st + 1 ->
  execute input_data st =
  (Raise (mk_MaxConsecutiveFailuresError max_failures),
   {| SafeExecutor.consecutive_failures := SafeExecutor.consecutive_failures st + 1;
      SafeExecutor.world := w2 |}).
Proof.
  intros Ha Hh Hmax. rewrite execute_unfold, Ha, on_failure_unfold. cbn. rewrite Hh.
  destruct (Z.leb_spec max_failures (SafeExecutor.consecutive_failures st + 1));
    [reflexivity | lia].
Qed.

(** A failure below the ceiling that is returned: the status of line 79. *)
Lemma returned_failure (input_data : S) (st : SafeExecutor.ExecState W)
    (e : PyExn) (w1 w2 : W) :
  attempt input_data (SafeExecutor.world st) = (Raise e, w1) ->
  call_handler e w1 = (Ret tt, w2) ->
  SafeExecutor.consecutive_failures st + 1 < max_failures ->
  SafeExecutor.raise_on_failure self = false ->
  execute input_data st =
  (Ret {| SafeExecutor.input := input_data;
          SafeExecutor.output := None;
          SafeExecutor.success := false;
          SafeExecutor.message := SafeExecutor.error_message self e;
          SafeExecutor.should_rerun_step_agent :=
            SafeExecutor.consecutive_failures st + 1 <=? max_failures |},
   {| SafeExecutor.consecutive_failures := SafeExecutor.consecutive_failures st + 1;
      SafeExecutor.world := w2 |}).
Proof.
  intros Ha Hh Hlt Hr. rewrite execute_unfold, Ha, on_failure_unfold. cbn. rewrite Hh, Hr.
  destruct (Z.leb_spec max_failures (SafeExecutor.consecutive_failures st + 1));
    [lia |].
  destruct (SafeExecutor.consecutive_failures st + 1 <=? max_failures); reflexivity.
Qed.

(** What a returned status looks like: the success status of line 95, whose
    output is what the operation returned, with the counter at 0, or the
    failure status of line 79, which asks for a rerun, is returned only when
    [raise_on_failure] is off and leaves the counter below the ceiling. *)
Lemma returned_status_cases (input_data : S) (st st' : SafeExecutor.ExecState W)
    (status : SafeExecutor.ExecutionStatus S T) :
  execute input_data st = (Ret status, st') ->
  (exists w,
      attempt input_data (SafeExecutor.world st) = (Ret (SafeExecutor.output status), w) /\
      SafeExecutor.success status = true /\
      SafeExecutor.should_rerun_step_agent status = false /\
      SafeExecutor.consecutive_failures st' = 0) \/
  (SafeExecutor.output status = None /\
   SafeExecutor.success status = false /\
   SafeExecutor.should_rerun_step_agent status = true /\
   SafeExecutor.raise_on_failure self = false /\
   SafeExecutor.consecutive_failures st' = SafeExecutor.consecutive_failures st + 1 /\
   SafeExecutor.consecutive_failures st' < max_failures).
Proof.
  rewrite execute_unfold.
  destruct (attempt input_data (SafeExecutor.world st)) as [[r | e | ] w].
  - intros [= <- <-]. left. exists w. cbn. auto.
  - rewrite on_failure_unfold. cbn.
    destruct (call_handler e w) as [[u | e' | ] w']; try discriminate.
    destruct (Z.leb_spec max_failures (SafeExecutor.consecutive_failures st + 1));
      try discriminate.
    destruct (SafeExecutor.raise_on_failure self) eqn:Hr; try discriminate.
    intros [= <- <-]. right. cbn.
    destruct (Z.leb_spec (SafeExecutor.consecutive_failures st + 1) max_failures);
      [| lia].
    repeat split; auto.
  - discriminate.
Qed.

(** After [k] failures in a row the counter has grown by [k]. *)
Lemma counter_after_failures (inputs : list S) (st : SafeExecutor.ExecState W) :
  SafeExecutor.all_fail str_input self inputs st ->
  SafeExecutor.consecutive_failures (SafeExecutor.after_calls str_input self inputs st) =
  SafeExecutor.consecutive_failures st + Z.of_nat (length inputs).
Proof.
  revert st. induction inputs as [| i rest IH]; intros st Hall.
  - cbn. lia.
  - destruct Hall as [(e & w1 & w2 & Ha & Hh) Hrest].
    cbn [SafeExecutor.after_calls length]. rewrite IH by exact Hrest.
    rewrite (failure_increments _ _ _ _ _ Ha Hh). cbn. lia.
Qed.
End ExecutorFacts.

(** The calls before the last one of a failing sequence fail, and so does
    the last one in the state they leave. *)
Lemma all_fail_app {W S T : Type} (str_input : S -> string)
    (self : SafeExecutor.SafeActionExecutor W S T)
    (earlier : list S) (i : S) (st : SafeExecutor.ExecState W) :
  SafeExecutor.all_fail str_input self (earlier ++ [i]) st ->
  SafeExecutor.all_fail str_input self earlier st /\
  exists e w1 w2,
    SafeExecutor.attempt self i
      (SafeExecutor.world (SafeExecutor.after_calls str_input self earlier st))
    = (Raise e, w1) /\
    SafeExecutor.call_handler self e w1 = (Ret tt, w2).
Proof.
  revert st. induction earlier as [| j rest IH]; intros st Hall.
  - destruct Hall as [Hi _]. split; [exact I | exact Hi].
  - destruct Hall as [Hj Hrest]. destruct (IH _ Hrest) as [Hearlier Hlast].
    split; [split; assumption | exact Hlast].
Qed.

(** ** The contract of [execute] *)

(** C2.  Once as many calls of [execute] in a row have failed as
    [max_consecutive_failures] allows (counting from a counter at 0, the
    last of them included), that last call raises
    [MaxConsecutiveFailuresError]: the outcome is the exception and never a
    returned status.  The executor is arbitrary, so this holds for both
    values of [raise_on_failure]. *)
Theorem max_consecutive_failures_is_fatal {W S T : Type} (str_input : S -> string)
    (self : SafeExecutor.SafeActionExecutor W S T)
    (earlier : list S) (input_data : S) (st : SafeExecutor.ExecState W) :
  SafeExecutor.consecutive_failures st = 0 ->
  SafeExecutor.all_fail str_input self (earlier ++ [input_data]) st ->
  SafeExecutor.max_consecutive_failures self <= Z.of_nat (length (earlier ++ [input_data])) ->
  exists st',
    SafeExecutor.execute str_input self input_data
      (SafeExecutor.after_calls str_input self earlier st)
    = (Raise (mk_MaxConsecutiveFailuresError (SafeExecutor.max_consecutive_failures self)), st')
    /\ SafeExecutor.consecutive_failures st' = Z.of_nat (length (earlier ++ [input_data])).
Proof.
  intros Hzero Hall Hmax.
  destruct (all_fail_app _ _ _ _ _ Hall) as [Hearlier (e & w1 & w2 & Ha & Hh)].
  pose proof (counter_after_failures str_input self earlier st Hearlier) as Hcount.
  rewrite length_app in *. cbn [length] in *.
  eexists. split.
  - apply (ceiling_is_fatal str_input self _ _ e w1 w2 Ha Hh). lia.
  - cbn. lia.
Qed.

(** The third failure in a row of the demo executor is fatal, with
    [raise_on_failure] off and with it on. *)
Lemma max_consecutive_failures_is_fatal_witness :
  (exists st',
     SafeExecutor.execute Demo.str_nat (Demo.flaky false) 5%nat
       (SafeExecutor.after_calls Demo.str_nat (Demo.flaky false) [1%nat; 3%nat] Demo.fresh)
     = (Raise (mk_MaxConsecutiveFailuresError 3), st')
     /\ SafeExecutor.consecutive_failures st' = 3) /\
  (exists st',
     SafeExecutor.execute Demo.str_nat (Demo.flaky true) 5%nat
       (SafeExecutor.after_calls Demo.str_nat (Demo.flaky true) [1%nat; 3%nat] Demo.fresh)
     = (Raise (mk_MaxConsecutiveFailuresError 3), st')
     /\ SafeExecutor.consecutive_failures st' = 3).
Proof.
  split.
  - apply (max_consecutive_failures_is_fatal Demo.str_nat (Demo.flaky false)
             [1%nat; 3%nat] 5%nat Demo.fresh).
    + reflexivity.
    + repeat split;
        exists (PyException "RuntimeError" "odd input"), tt, tt; split; reflexivity.
    + vm_compute. discriminate.
  - apply (max_consecutive_failures_is_fatal Demo.str_nat (Demo.flaky true)
             [1%nat; 3%nat] 5%nat Demo.fresh).
    + reflexivity.
    + repeat split;
        exists (PyException "RuntimeError" "odd input"), tt, tt; split; reflexivity.
    + vm_compute. discriminate.
Defined.

(** C3, amended.  Every status returned by [execute]: when [success] is
    true its output is what the operation returned, so it is present unless
    the operation returned [None]; when [success] is false it has no output
    (and a failure status is returned only with [raise_on_failure] off); it
    asks for a rerun only when [success] is false. *)
Theorem execution_status_envelope {W S T : Type} (str_input : S -> string)
    (self : SafeExecutor.SafeActionExecutor W S T)
    (input_data : S) (st st' : SafeExecutor.ExecState W)
    (status : SafeExecutor.ExecutionStatus S T) :
  SafeExecutor.execute str_input self input_data st = (Ret status, st') ->
  (SafeExecutor.success status = true ->
     (exists w,
        SafeExecutor.attempt self input_data (SafeExecutor.world st) =
        (Ret (SafeExecutor.output status), w)) /\
     ((forall w,
         SafeExecutor.attempt self input_data (SafeExecutor.world st) <> (Ret None, w)) ->
      SafeExecutor.output status <> None)) /\
  (SafeExecutor.success status = false ->
     SafeExecutor.raise_on_failure self = false /\ SafeExecutor.output status = None) /\
  (SafeExecutor.should_rerun_step_agent status = true ->
     SafeExecutor.success status = false).
Proof.
  intros Hex.
  destruct (returned_status_cases str_input self _ _ _ _ Hex)
    as [(w & Ha & Hs & Hr & _) | (Ho & Hs & Hr & Hraise & _)].
  - split; [| split; congruence].
    intros _. split; [exists w; exact Ha |].
    intros Hsome Hnone. apply (Hsome w). rewrite Ha, Hnone. reflexivity.
  - repeat split; congruence.
Qed.

(** The envelope of the status returned for an input on which the demo
    operation returns a number. *)
Lemma execution_status_envelope_witness :
  let status :=
    {| SafeExecutor.input := 4%nat;
       SafeExecutor.output := Some 4%nat;
       SafeExecutor.success := true;
       SafeExecutor.message := "Successfully executed action with input: 4";
       SafeExecutor.should_rerun_step_agent := false |} in
  (SafeExecutor.success status = true ->
     (exists w,
        SafeExecutor.attempt (Demo.flaky false) 4%nat (SafeExecutor.world Demo.fresh) =
        (Ret (SafeExecutor.output status), w)) /\
     ((forall w,
         SafeExecutor.attempt (Demo.flaky false) 4%nat (SafeExecutor.world Demo.fresh)
         <> (Ret None, w)) ->
      SafeExecutor.output status <> None)) /\
  (SafeExecutor.success status = false ->
     SafeExecutor.raise_on_failure (Demo.flaky false) = false
     /\ SafeExecutor.output status = None) /\
  (SafeExecutor.should_rerun_step_agent status = true ->
     SafeExecutor.success status = false).
Proof.
  apply (execution_status_envelope Demo.str_nat (Demo.flaky false) 4%nat Demo.fresh
           {| SafeExecutor.consecutive_failures := 0; SafeExecutor.world := tt |}).
  reflexivity.
Defined.

(** C3 as stated fails: an operation that returns [None] gives a status
    with [success] true and no output. *)
Lemma execution_status_envelope_counterexample :
  SafeExecutor.execute Demo.str_nat Demo.silent 4%nat Demo.fresh =
  (Ret {| SafeExecutor.input := 4%nat;
          SafeExecutor.output := None;
          SafeExecutor.success := true;
          SafeExecutor.message := "Successfully executed action with input: 4";
          SafeExecutor.should_rerun_step_agent := false |},
   {| SafeExecutor.consecutive_failures := 0; SafeExecutor.world := tt |}).
Proof. reflexivity. Qed.

(** C4.  Whatever calls of [execute] came before, failed or successful, a
    call that returns a status with [success] true leaves the counter
    [consecutive_failures] at 0. *)
Theorem success_resets_consecutive_failures {W S T : Type} (str_input : S -> string)
    (self : SafeExecutor.SafeActionExecutor W S T)
    (earlier : list S) (input_data : S) (st st' : SafeExecutor.ExecState W)
    (status : SafeExecutor.ExecutionStatus S T) :
  SafeExecutor.execute str_input self input_data
    (SafeExecutor.after_calls str_input self earlier st) = (Ret status, st') ->
  SafeExecutor.success status = true ->
  SafeExecutor.consecutive_failures st' = 0.
Proof.
  intros Hex Hs.
  destruct (returned_status_cases str_input self _ _ _ _ Hex)
    as [(r & _ & _ & _ & Hz) | (_ & Hf & _)].
  - exact Hz.
  - congruence.
Qed.

(** A success after a success and two failures: the counter is back at 0. *)
Lemma success_resets_consecutive_failures_witness :
  SafeExecutor.consecutive_failures
    (SafeExecutor.after_calls Demo.str_nat (Demo.flaky false)
       [2%nat; 1%nat; 3%nat] Demo.fresh) = 2 /\
  SafeExecutor.consecutive_failures
    (snd (SafeExecutor.execute Demo.str_nat (Demo.flaky false) 4%nat
            (SafeExecutor.after_calls Demo.str_nat (Demo.flaky false)
               [2%nat; 1%nat; 3%nat] Demo.fresh))) = 0.
Proof.
  split; [reflexivity |].
  apply (success_resets_consecutive_failures Demo.str_nat (Demo.flaky false)
           [2%nat; 1%nat; 3%nat] 4%nat Demo.fresh _
           {| SafeExecutor.input := 4%nat;
              SafeExecutor.output := Some 4%nat;
              SafeExecutor.success := true;
              SafeExecutor.message := "Successfully executed action with input: 4";
              SafeExecutor.should_rerun_step_agent := false |}).
  - reflexivity.
  - reflexivity.
Defined.

(** C5.  When the precheck or the operation raises [e], the handler for [e]
    (if any) returns, the counter after its increment is below the ceiling
    and [raise_on_failure] is off, [execute] returns exactly the status with
    [success] false, no output, the message classified for [e], and
    [should_rerun_step_agent] the truth of
    [consecutive_failures <= max_consecutive_failures] for the incremented
    counter. *)
Theorem failure_status_returned {W S T : Type} (str_input : S -> string)
    (self : SafeExecutor.SafeActionExecutor W S T)
    (input_data : S) (st : SafeExecutor.ExecState W) (e : PyExn) (w1 w2 : W) :
  SafeExecutor.attempt self input_data (SafeExecutor.world st) = (Raise e, w1) ->
  SafeExecutor.call_handler self e w1 = (Ret tt, w2) ->
  SafeExecutor.consecutive_failures st + 1 < SafeExecutor.max_consecutive_failures self ->
  SafeExecutor.raise_on_failure self = false ->
  SafeExecutor.execute str_input self input_data st =
  (Ret {| SafeExecutor.input := input_data;
          SafeExecutor.output := None;
          SafeExecutor.success := false;
          SafeExecutor.message := SafeExecutor.error_message self e;
          SafeExecutor.should_rerun_step_agent :=
            SafeExecutor.consecutive_failures st + 1
            <=? SafeExecutor.max_consecutive_failures self |},
   {| SafeExecutor.consecutive_failures := SafeExecutor.consecutive_failures st + 1;
      SafeExecutor.world := w2 |}).
Proof.
  intros Ha Hh Hlt Hr. exact (returned_failure str_input self _ _ _ _ _ Ha Hh Hlt Hr).
Qed.

(** The status returned for the first failure of the demo executor. *)
Lemma failure_status_returned_witness :
  SafeExecutor.execute Demo.str_nat (Demo.flaky false) 1%nat Demo.fresh =
  (Ret {| SafeExecutor.input := 1%nat;
          SafeExecutor.output := None;
          SafeExecutor.success := false;
          SafeExecutor.message := "An unexpected error occurred: odd input";
          SafeExecutor.should_rerun_step_agent := true |},
   {| SafeExecutor.consecutive_failures := 1; SafeExecutor.world := tt |}).
Proof.
  apply (failure_status_returned Demo.str_nat (Demo.flaky false) 1%nat Demo.fresh
           (PyException "RuntimeError" "odd input") tt tt).
  - reflexivity.
  - reflexivity.
  - reflexivity.
  - reflexivity.
Defined.

(** * Properties of [FalcoAgent] *)

(** ** The valid action set *)

(** C10.  For every observation, the helper [_get_valid_action_set] of the
    agent and the method [valid_action_set] of [Observation] give the same
    set of action identifiers. *)
Theorem get_valid_action_set_agrees {Ext : Type} (X : Falco.Externals Ext)
    (obs : Observation.Observation) :
  Falco._get_valid_action_set X (Some obs) =
  Observation.valid_action_set (Falco.action_id X) obs.
Proof.
  unfold Falco._get_valid_action_set, Observation.valid_action_set.
  destruct (Observation.space obs) as [sp |]; reflexivity.
Qed.

(** With no observation yet the helper gives the empty set. *)
Lemma get_valid_action_set_None {Ext : Type} (X : Falco.Externals Ext) :
  Falco._get_valid_action_set X None = ∅.
Proof. reflexivity. Qed.

(** ** The precheck of the action identifier *)

(** Calling [precheck_action] without awaiting it neither raises nor
    changes anything, whatever the action and the state. *)
Lemma precheck_action_returns {Ext : Type} (X : Falco.Externals Ext)
    (action : Actions.BaseAction) (a : Falco.Agent Ext) :
  Falco.precheck_action X action a = (Ret tt, a).
Proof. reflexivity. Qed.

(** So [execute] of the step executor goes straight to the operation. *)
Lemma step_executor_attempt {Ext : Type} (X : Falco.Externals Ext)
    (config : Config.FalcoAgentConfig) (action : Actions.BaseAction) (a : Falco.Agent Ext) :
  SafeExecutor.attempt (Falco.step_executor X config) action a =
  (obs <- Falco.execute_action X action ;; ret (Some obs)) a.
Proof.
  unfold SafeExecutor.attempt. cbn [SafeExecutor.precheck_func Falco.step_executor].
  unfold bind at 1. rewrite precheck_action_returns. reflexivity.
Qed.

(** The operation of the step executor returns the observation of
    [execute_action], and raises what it raises. *)
Lemma step_executor_attempt_returns {Ext : Type} (X : Falco.Externals Ext)
    (config : Config.FalcoAgentConfig) (action : Actions.BaseAction) (a a' : Falco.Agent Ext)
    (obs : Observation.Observation) :
  Falco.execute_action X action a = (Ret obs, a') ->
  SafeExecutor.attempt (Falco.step_executor X config) action a = (Ret (Some obs), a').
Proof. intros Hop. rewrite step_executor_attempt. unfold bind. now rewrite Hop. Qed.

Lemma step_executor_attempt_raises {Ext : Type} (X : Falco.Externals Ext)
    (config : Config.FalcoAgentConfig) (action : Actions.BaseAction) (a a' : Falco.Agent Ext)
    (e : PyExn) :
  Falco.execute_action X action a = (Raise e, a') ->
  SafeExecutor.attempt (Falco.step_executor X config) action a = (Raise e, a').
Proof. intros Hop. rewrite step_executor_attempt. unfold bind. now rewrite Hop. Qed.

(** It never returns [None]. *)
Lemma step_executor_attempt_not_None {Ext : Type} (X : Falco.Externals Ext)
    (config : Config.FalcoAgentConfig) (action : Actions.BaseAction) (a a' : Falco.Agent Ext) :
  SafeExecutor.attempt (Falco.step_executor X config) action a <> (Ret None, a').
Proof.
  rewrite step_executor_attempt. unfold bind.
  destruct (Falco.execute_action X action a) as [[obs | e | ] a1]; discriminate.
Qed.

(** Awaited, the body of the precheck raises [InvalidActionIDError] for an
    identifier outside the valid set after the first step. *)
Lemma precheck_action_body_rejects {Ext : Type} (X : Falco.Externals Ext)
    (action : Actions.BaseAction) (a : Falco.Agent Ext) :
  Falco._is_first_step a = false ->
  Falco.action_id X action ∉
    Falco._get_valid_action_set X (Trajectory.last_obs (Falco.trajectory a)) ->
  await (coroutine (Falco.precheck_action_body X action)) a =
  (Raise (Falco.mk_InvalidActionIDError X (Falco.action_id X action)
            (elements (Falco._get_valid_action_set X
                         (Trajectory.last_obs (Falco.trajectory a))))), a).
Proof.
  intros Hfirst Hnot. cbn. unfold Falco.precheck_action_body, bind, get. cbn.
  rewrite Hfirst. cbn.
  destruct (decide _) as [Hin | _]; [contradiction | reflexivity].
Qed.

(** Whenever the operation returns an observation, [execute] of the step
    executor returns a success that does not ask for a rerun: the identifier
    of the action is not looked at. *)
Lemma step_executor_runs_operation {Ext : Type} (X : Falco.Externals Ext)
    (config : Config.FalcoAgentConfig) (action : Actions.BaseAction)
    (st : Falco.State Ext) (obs : Observation.Observation) (a' : Falco.Agent Ext) :
  Falco.execute_action X action (SafeExecutor.world st) = (Ret obs, a') ->
  Falco.step_executor_execute X config action st =
  (Ret {| SafeExecutor.input := action;
          SafeExecutor.success := true;
          SafeExecutor.output := Some obs;
          SafeExecutor.message :=
            "Successfully executed action with input: " +:+ Falco.str_action X action;
          SafeExecutor.should_rerun_step_agent := false |},
   {| SafeExecutor.consecutive_failures := 0; SafeExecutor.world := a' |}).
Proof.
  intros Hop. unfold Falco.step_executor_execute.
  rewrite execute_unfold, (step_executor_attempt_returns _ _ _ _ _ _ Hop). reflexivity.
Qed.

(** C1, on the code.  The agent is in its second step, the last observation
    exposes the single identifier [B1], and the candidate action has the
    identifier [X9].  [execute] runs the operation and returns a success
    with [should_rerun_step_agent] false; no corrective message reaches the
    conversation and the failure counter stays at 0.  Had the precheck been
    awaited, it would have raised [InvalidActionIDError].  A whole call of
    [step] from the end of the first step records the action as a
    successful result of the second entry and logs no rerun. *)
Theorem invalid_action_id_is_executed :
  let config := Demo.demo_config Config.RETRY Config.SHORT_OBSERVATIONS 5 in
  let action := Actions.Action "X9" "" in
  let st :=
    Demo.start {| Demo.llm_replies := [];
                  Demo.act_results := [Ret (Demo.page "next" ["C1"])];
                  Demo.verdicts := [];
                  Demo.seen := [Demo.page "home" ["B1"]] |}
      Demo.second_step_trajectory in
  Falco._is_first_step (SafeExecutor.world st) = false /\
  elements (Falco._get_valid_action_set Demo.scripted
              (Trajectory.last_obs (Falco.trajectory (SafeExecutor.world st)))) = ["B1"] /\
  fst (Falco.precheck_action_body Demo.scripted action (SafeExecutor.world st)) =
    Raise (Falco.mk_InvalidActionIDError Demo.scripted "X9" ["B1"]) /\
  fst (Falco.step_executor_execute Demo.scripted config action st) =
    Ret (Demo.ok_status action (Demo.page "next" ["C1"])) /\
  Falco.conv (SafeExecutor.world
                (snd (Falco.step_executor_execute Demo.scripted config action st))) = [] /\
  Demo.seen (Falco.ext (SafeExecutor.world
                (snd (Falco.step_executor_execute Demo.scripted config action st)))) =
    [Demo.page "home" ["B1"]; Demo.page "next" ["C1"]] /\
  SafeExecutor.consecutive_failures
    (snd (Falco.step_executor_execute Demo.scripted config action st)) = 0 /\
  (let before :=
     Demo.start {| Demo.llm_replies := [Demo.reply_action "X9"];
                   Demo.act_results := [Ret (Demo.page "next" ["C1"])];
                   Demo.verdicts := [];
                   Demo.seen := [Demo.page "home" ["B1"]] |}
       [ {| Trajectory.agent_response := Demo.reply_action "goto";
            Trajectory.results :=
              [Demo.ok_status (Actions.Action "goto" "") (Demo.page "home" ["B1"])] |} ] in
   let after := Falco.step Demo.scripted config 1 "find X" before in
   fst after = Ret None /\
   map Trajectory.results (Falco.trajectory (SafeExecutor.world (snd after))) =
     [ [Demo.ok_status (Actions.Action "goto" "") (Demo.page "home" ["B1"])];
       [Demo.ok_status action (Demo.page "next" ["C1"])] ] /\
   Falco.log (SafeExecutor.world (snd after)) = []).
Proof.
  cbv zeta. repeat split; vm_compute; reflexivity.
Qed.

(** ** What the agent's operations leave unchanged *)

Section Keeps.
Context {St : Type}.
Variable R : St -> St -> Prop.
Hypothesis R_refl : forall s, R s s.
Hypothesis R_trans : forall s1 s2 s3, R s1 s2 -> R s2 s3 -> R s1 s3.

Lemma keeps_ret {A} (a : A) : keeps R (ret a).
Proof. intros s r s' [= <- <-]. apply R_refl. Qed.

Lemma keeps_raise {A} (e : PyExn) : keeps R (@raise St A e).
Proof. intros s r s' [= <- <-]. apply R_refl. Qed.

Lemma keeps_get : keeps R (@get St).
Proof. intros s r s' [= <- <-]. apply R_refl. Qed.

Lemma keeps_timeout {A} : keeps R (fun st : St => (@Timeout A, st)).
Proof. intros s r s' [= <- <-]. apply R_refl. Qed.

Lemma keeps_modify (f : St -> St) : (forall s, R s (f s)) -> keeps R (modify f).
Proof. intros Hf s r s' [= <- <-]. apply Hf. Qed.

Lemma keeps_bind {A B} (m : M St A) (k : A -> M St B) :
  keeps R m -> (forall a, keeps R (k a)) -> keeps R (bind m k).
Proof.
  intros Hm Hk s r s'. unfold bind.
  destruct (m s) as [[a | e | ] s1] eqn:Em.
  - intros Ek. eapply R_trans; [eapply Hm, Em | eapply Hk, Ek].
  - intros [= <- <-]. eapply Hm, Em.
  - intros [= <- <-]. eapply Hm, Em.
Qed.

Lemma keeps_for_each {A} (body : A -> M St unit) (l : list A) :
  (forall x, keeps R (body x)) -> keeps R (Falco.for_each body l).
Proof.
  intros Hbody. induction l as [| x rest IH]; cbn.
  - apply keeps_ret.
  - apply keeps_bind; [apply Hbody | intros _; exact IH].
Qed.
End Keeps.

(** [execute] keeps whatever the precheck, the operation and the handlers
    keep: the counter is the only thing it writes itself. *)
Lemma execute_keeps {W S T : Type} (RA : W -> W -> Prop)
    (str_input : S -> string) (self : SafeExecutor.SafeActionExecutor W S T) :
  (forall w1 w2 w3, RA w1 w2 -> RA w2 w3 -> RA w1 w3) ->
  (forall i, keeps RA (SafeExecutor.attempt self i)) ->
  (forall e, keeps RA (SafeExecutor.call_handler self e)) ->
  forall i,
    keeps (fun st st' => RA (SafeExecutor.world st) (SafeExecutor.world st'))
      (SafeExecutor.execute str_input self i).
Proof.
  intros Htrans Hatt Hh i st r st'. rewrite execute_unfold.
  destruct (SafeExecutor.attempt self i (SafeExecutor.world st)) as [[x | e | ] w] eqn:Ea.
  - intros [= <- <-]. cbn. eapply Hatt, Ea.
  - rewrite on_failure_unfold. cbn.
    destruct (SafeExecutor.call_handler self e w) as [[u | e' | ] w'] eqn:Eh.
    + assert (RA (SafeExecutor.world st) w') as HR
        by (eapply Htrans; [eapply Hatt, Ea | eapply Hh, Eh]).
      destruct (_ <=? _); [intros [= <- <-]; exact HR |].
      destruct (SafeExecutor.raise_on_failure self); intros [= <- <-]; exact HR.
    + intros [= <- <-]. cbn. eapply Htrans; [eapply Hatt, Ea | eapply Hh, Eh].
    + intros [= <- <-]. cbn. eapply Htrans; [eapply Hatt, Ea | eapply Hh, Eh].
  - intros [= <- <-]. cbn. eapply Hatt, Ea.
Qed.

Lemma lift_keeps {W A : Type} (RA : W -> W -> Prop) (m : M W A) :
  keeps RA m ->
  keeps (fun st st' => RA (SafeExecutor.world st) (SafeExecutor.world st'))
    (SafeExecutor.lift m).
Proof.
  intros Hm st r st'. unfold SafeExecutor.lift.
  destruct (m (SafeExecutor.world st)) as [r0 w] eqn:Em.
  intros [= <- <-]. cbn. eapply Hm, Em.
Qed.

Section StepCount.
Context {Ext : Type}.
Variable X : Falco.Externals Ext.
Variable config : Config.FalcoAgentConfig.

Lemma same_steps_refl (a : Falco.Agent Ext) : Falco.same_steps a a.
Proof. reflexivity. Qed.

Lemma same_steps_trans (a1 a2 a3 : Falco.Agent Ext) :
  Falco.same_steps a1 a2 -> Falco.same_steps a2 a3 -> Falco.same_steps a1 a3.
Proof. unfold Falco.same_steps. congruence. Qed.

Lemma same_steps_state_refl (st : Falco.State Ext) : Falco.same_steps_state st st.
Proof. reflexivity. Qed.

Lemma same_steps_state_trans (s1 s2 s3 : Falco.State Ext) :
  Falco.same_steps_state s1 s2 -> Falco.same_steps_state s2 s3 ->
  Falco.same_steps_state s1 s3.
Proof. unfold Falco.same_steps_state, Falco.same_steps. congruence. Qed.

Lemma call_keeps {A} (m : M Ext A) : keeps (@Falco.same_steps Ext) (Falco.call m).
Proof.
  intros a r a'. unfold Falco.call. destruct (m (Falco.ext a)) as [r0 x].
  intros [= <- <-]. reflexivity.
Qed.

Lemma modify_keeps (f : Falco.Agent Ext -> Falco.Agent Ext) :
  (forall a, Falco.log (f a) = Falco.log a) -> keeps (@Falco.same_steps Ext) (modify f).
Proof.
  intros Hf. apply keeps_modify. intros a. unfold Falco.same_steps. now rewrite Hf.
Qed.

Lemma logger_keeps (ev : Falco.LogEvent) :
  Falco.is_LogStep ev = false -> keeps (@Falco.same_steps Ext) (Falco.logger ev).
Proof.
  intros Hev. apply keeps_modify. intros a. unfold Falco.same_steps, Falco.steps_logged.
  cbn [Falco.log Falco.set_log]. rewrite List.filter_app. cbn [List.filter].
  rewrite Hev. now rewrite app_nil_r.
Qed.

(** One step of the tactic that walks through a computation of the agent. *)
Ltac keeps_walk :=
  first
    [ apply (keeps_ret _ same_steps_refl)
    | apply (keeps_raise _ same_steps_refl)
    | apply (keeps_get _ same_steps_refl)
    | apply call_keeps
    | apply modify_keeps; intros; reflexivity
    | apply (keeps_bind _ same_steps_trans); [| intros ?]
    | apply (keeps_for_each _ same_steps_refl same_steps_trans); intros ?
    | match goal with
      | |- keeps _ (match ?x with _ => _ end) => destruct x
      end ].

Lemma get_messages_keeps (task : string) :
  keeps (@Falco.same_steps Ext) (Falco.get_messages X config task).
Proof.
  unfold Falco.get_messages, Falco.add_result_messages, SafeExecutor.status_get,
    Falco.conv_reset, Falco.conv_add_system_message, Falco.conv_add_user_message,
    Falco.conv_add_assistant_message.
  repeat keeps_walk.
Qed.

Lemma execute_action_keeps (action : Actions.BaseAction) :
  keeps (@Falco.same_steps Ext) (Falco.execute_action X action).
Proof. unfold Falco.execute_action. repeat keeps_walk. Qed.

Lemma invalid_action_id_handler_keeps (e : PyExn) :
  keeps (@Falco.same_steps Ext) (Falco.invalid_action_id_handler X config e).
Proof.
  unfold Falco.invalid_action_id_handler, Falco.conv_add_user_message.
  repeat keeps_walk.
Qed.
End StepCount.

Section StepCountState.
Context {Ext : Type}.
Variable X : Falco.Externals Ext.
Variable config : Config.FalcoAgentConfig.

Lemma lift_keeps_steps {A} (m : M (Falco.Agent Ext) A) :
  keeps (@Falco.same_steps Ext) m ->
  keeps (@Falco.same_steps_state Ext) (SafeExecutor.lift m).
Proof. apply (lift_keeps (@Falco.same_steps Ext)). Qed.

Lemma step_executor_execute_keeps (action : Actions.BaseAction) :
  keeps (@Falco.same_steps_state Ext) (Falco.step_executor_execute X config action).
Proof.
  unfold Falco.step_executor_execute.
  apply (execute_keeps (@Falco.same_steps Ext)).
  - apply same_steps_trans.
  - intros i a r a'. rewrite step_executor_attempt.
    apply (keeps_bind _ same_steps_trans);
      [apply execute_action_keeps | intros obs; apply (keeps_ret _ same_steps_refl)].
  - intros e. unfold SafeExecutor.call_handler. cbn.
    destruct (decide _); [apply invalid_action_id_handler_keeps |].
    apply (keeps_ret _ same_steps_refl).
Qed.

Lemma step_actions_keeps
    (execute : Actions.BaseAction -> M (Falco.State Ext) Trajectory.Status)
    (rerun : M (Falco.State Ext) (option Actions.CompletionAction))
    (response : Types.StepAgentOutput) (actions : list Actions.BaseAction) :
  (forall a, keeps (@Falco.same_steps_state Ext) (execute a)) ->
  keeps (@Falco.same_steps_state Ext) rerun ->
  keeps (@Falco.same_steps_state Ext) (Falco.step_actions X execute rerun response actions).
Proof.
  intros Hex Hrerun. induction actions as [| action rest IH]; cbn [Falco.step_actions].
  - apply (keeps_ret _ same_steps_state_refl).
  - apply (keeps_bind _ same_steps_state_trans); [apply Hex | intros result].
    destruct (SafeExecutor.should_rerun_step_agent result).
    + apply (keeps_bind _ same_steps_state_trans); [| intros _; exact Hrerun].
      apply lift_keeps_steps, logger_keeps. reflexivity.
    + apply (keeps_bind _ same_steps_state_trans);
        [apply lift_keeps_steps, modify_keeps; reflexivity | intros _].
      destruct (negb (SafeExecutor.success result)); [| exact IH].
      apply (keeps_bind _ same_steps_state_trans);
        [apply lift_keeps_steps, call_keeps | intros obs].
      apply (keeps_bind _ same_steps_state_trans);
        [apply lift_keeps_steps, modify_keeps; reflexivity | intros _].
      apply (keeps_bind _ same_steps_state_trans);
        [apply lift_keeps_steps, modify_keeps; reflexivity | intros _].
      apply (keeps_ret _ same_steps_state_refl).
Qed.

Lemma step_with_keeps
    (execute : Actions.BaseAction -> M (Falco.State Ext) Trajectory.Status)
    (fuel : nat) (task : string) :
  (forall a, keeps (@Falco.same_steps_state Ext) (execute a)) ->
  keeps (@Falco.same_steps_state Ext) (Falco.step_with X config execute fuel task).
Proof.
  intros Hex. induction fuel as [| fuel IH]; cbn [Falco.step_with].
  - apply (keeps_timeout _ same_steps_state_refl).
  - apply (keeps_bind _ same_steps_state_trans);
      [apply lift_keeps_steps, get_messages_keeps | intros messages].
    apply (keeps_bind _ same_steps_state_trans);
      [apply lift_keeps_steps, call_keeps | intros response].
    apply (keeps_bind _ same_steps_state_trans); [| intros _].
    { apply lift_keeps_steps. destruct (Falco.step_callback X);
        [apply call_keeps | apply (keeps_ret _ same_steps_refl)]. }
    apply (keeps_bind _ same_steps_state_trans);
      [apply lift_keeps_steps, modify_keeps; reflexivity | intros _].
    destruct (Types.output response).
    + apply (keeps_ret _ same_steps_state_refl).
    + apply step_actions_keeps; assumption.
Qed.

(** A call of [step] logs no pass of the loop of [_run]. *)
Lemma step_keeps (fuel : nat) (task : string) :
  keeps (@Falco.same_steps_state Ext) (Falco.step X config fuel task).
Proof. apply step_with_keeps, step_executor_execute_keeps. Qed.

(** The number of passes logged, read off a state. *)
Local Abbreviation passes st := (Falco.steps_logged (Falco.log (SafeExecutor.world st))).

Lemma check_completion_keeps (task : string) (out : option Actions.CompletionAction) :
  keeps (@Falco.same_steps_state Ext) (Falco.check_completion X task out).
Proof.
  unfold Falco.check_completion, Falco.output, Falco.env_trajectory_last,
    Falco.trajectory_add_step.
  destruct out as [completion |]; [| apply (keeps_ret _ same_steps_state_refl)].
  destruct (negb (Actions.success completion)).
  - repeat first
      [ apply (keeps_ret _ same_steps_state_refl)
      | apply (keeps_bind _ same_steps_state_trans); [| intros ?]
      | apply lift_keeps_steps
      | apply logger_keeps; reflexivity
      | apply (keeps_bind _ same_steps_trans); [| intros ?]
      | apply (keeps_get _ same_steps_refl)
      | apply (keeps_ret _ same_steps_refl) ].
  - apply (keeps_bind _ same_steps_state_trans); [| intros obs].
    { apply lift_keeps_steps.
      apply (keeps_bind _ same_steps_trans); [apply (keeps_get _ same_steps_refl) | intros a].
      destruct (rev _);
        [apply (keeps_raise _ same_steps_refl) | apply (keeps_ret _ same_steps_refl)]. }
    apply (keeps_bind _ same_steps_state_trans);
      [apply lift_keeps_steps, call_keeps | intros val].
    destruct (Falco.is_valid val);
      repeat first
        [ apply (keeps_ret _ same_steps_state_refl)
        | apply (keeps_bind _ same_steps_state_trans); [| intros ?]
        | apply lift_keeps_steps
        | apply logger_keeps; reflexivity
        | apply modify_keeps; reflexivity
        | apply (keeps_bind _ same_steps_trans); [| intros ?]
        | apply (keeps_get _ same_steps_refl)
        | apply (keeps_ret _ same_steps_refl) ].
Qed.

(** One pass through the body of the loop logs exactly one pass, however
    it ends. *)
Lemma run_body_logs_one (fuel : nat) (task : string) (n : Z)
    (st st' : Falco.State Ext) (r : Outcome Falco.LoopControl) :
  Falco.run_body X config fuel task n st = (r, st') ->
  passes st' = S (passes st).
Proof.
  unfold Falco.run_body. unfold bind at 1.
  set (st0 := snd (SafeExecutor.lift (Falco.logger (Falco.LogStep n)) st)).
  change (SafeExecutor.lift (Falco.logger (Falco.LogStep n)) st) with (Ret tt, st0).
  assert (passes st0 = S (passes st)) as H0.
  { subst st0. cbn. unfold Falco.steps_logged. rewrite List.filter_app, length_app.
    cbn. lia. }
  intros Hrun. rewrite <- H0.
  assert (keeps (@Falco.same_steps_state Ext)
            (out <- Falco.step X config fuel task ;; Falco.check_completion X task out))
    as Hk
    by (apply (keeps_bind _ same_steps_state_trans);
        [apply step_keeps | intros out; apply check_completion_keeps]).
  exact (Hk _ _ _ Hrun).
Qed.
End StepCountState.

(** ** The loop of [_run] *)

Section RunLoop.
Context {Ext : Type}.
Variable X : Falco.Externals Ext.
Variable config : Config.FalcoAgentConfig.

Local Abbreviation passes st := (Falco.steps_logged (Falco.log (SafeExecutor.world st))).

Lemma range_length (n : Z) : length (Falco.range n) = Z.to_nat n.
Proof. unfold Falco.range. now rewrite length_map, length_seq. Qed.

(** However the loop ends, it logs at most one pass per step number. *)
Lemma run_loop_bound (fuel : nat) (task : string) (steps : list Z) :
  forall (st st' : Falco.State Ext) (r : Outcome (option Falco.AgentResponse)),
    Falco.run_loop X config fuel task steps st = (r, st') ->
    (passes st' <= passes st + length steps)%nat.
Proof.
  induction steps as [| n rest IH]; intros st st' r; cbn [Falco.run_loop length].
  - intros [= <- <-]. lia.
  - unfold bind.
    destruct (Falco.run_body X config fuel task n st) as [[c | e | ] s1] eqn:Eb;
      pose proof (run_body_logs_one X config _ _ _ _ _ _ Eb) as H1.
    + destruct c as [| resp].
      * intros Hrest. apply IH in Hrest. lia.
      * intros [= <- <-]. lia.
    + intros [= <- <-]. lia.
    + intros [= <- <-]. lia.
Qed.

(** If every pass ends with the next pass due, the loop runs to its end
    and has logged one pass per step number. *)
Lemma run_loop_runs_out (fuel : nat) (task : string) (Inv : Falco.State Ext -> Prop) :
  (forall n s, Inv s ->
     exists s', Falco.run_body X config fuel task n s = (Ret Falco.Continue, s') /\ Inv s') ->
  forall (steps : list Z) (st : Falco.State Ext),
    Inv st ->
    exists st',
      Falco.run_loop X config fuel task steps st = (Ret None, st') /\ Inv st' /\
      passes st' = (passes st + length steps)%nat.
Proof.
  intros Hbody. induction steps as [| n rest IH]; intros st Hinv; cbn [Falco.run_loop length].
  - exists st. repeat split; [assumption | lia].
  - destruct (Hbody n st Hinv) as (s1 & Eb & Hinv1).
    destruct (IH s1 Hinv1) as (st' & Erest & Hinv' & Hcount).
    exists st'. unfold bind. rewrite Eb. repeat split; [assumption.. |].
    pose proof (run_body_logs_one X config _ _ _ _ _ _ Eb). lia.
Qed.

Lemma output_eq (answer : string) (success : bool) (st : Falco.State Ext) :
  SafeExecutor.lift (Falco.output X answer success) st =
  (Ret {| Falco.answer := answer;
          Falco.success := success;
          Falco.env_trajectory :=
            Falco.env_trajectory_of X (Falco.ext (SafeExecutor.world st));
          Falco.agent_trajectory := Falco.trajectory (SafeExecutor.world st);
          Falco.messages := Falco.conv (SafeExecutor.world st) |}, st).
Proof. destruct st as [n [c t l x]]. reflexivity. Qed.

(** [_run] written out by what entering the environment, the loop and
    leaving the environment do. *)
Lemma _run_returns_from_loop (fuel : nat) (task : string) (url : option string)
    (st st1 st2 st3 : Falco.State Ext) (r : Falco.AgentResponse) :
  SafeExecutor.lift (Falco.call (Falco.env_aenter X)) st = (Ret tt, st1) ->
  Falco.run_loop X config fuel (Falco.task_with_url task url)
    (Falco.range (Config.max_steps config)) st1 = (Ret (Some r), st2) ->
  SafeExecutor.lift (Falco.call (Falco.env_aexit X)) st2 = (Ret tt, st3) ->
  Falco._run X config fuel task url st = (Ret r, st3).
Proof.
  intros He Hl Hx. unfold Falco._run. unfold bind at 1. rewrite He. cbv zeta.
  rewrite Hl, Hx. reflexivity.
Qed.

(** Whatever [_run] returns or raises, it has logged at most [max_steps]
    passes through its loop. *)
Lemma _run_bound (fuel : nat) (task : string) (url : option string)
    (st st' : Falco.State Ext) (r : Outcome Falco.AgentResponse) :
  Falco._run X config fuel task url st = (r, st') ->
  (passes st' <= passes st + Z.to_nat (Config.max_steps config))%nat.
Proof.
  unfold Falco._run. unfold bind at 1.
  destruct (SafeExecutor.lift (Falco.call (Falco.env_aenter X)) st) as [[u | e | ] st1] eqn:He;
    pose proof (lift_keeps_steps _ (call_keeps _) _ _ _ He) as H1;
    unfold Falco.same_steps_state, Falco.same_steps in H1.
  2,3: intros [= <- <-]; lia.
  cbv zeta.
  destruct (Falco.run_loop X config fuel (Falco.task_with_url task url)
              (Falco.range (Config.max_steps config)) st1) as [block st2] eqn:Hl.
  pose proof (run_loop_bound _ _ _ _ _ _ Hl) as H2. rewrite range_length in H2.
  destruct block as [[resp |] | e | ].
  4: intros [= <- <-]; lia.
  all: destruct (SafeExecutor.lift (Falco.call (Falco.env_aexit X)) st2)
         as [[u' | e' | ] st3] eqn:Hx;
       pose proof (lift_keeps_steps _ (call_keeps _) _ _ _ Hx) as H3;
       unfold Falco.same_steps_state, Falco.same_steps in H3.
  all: try (intros [= <- <-]; lia).
  unfold bind.
  destruct (SafeExecutor.lift (Falco.logger (Falco.LogBudget (Falco.budget_message config))) st3)
    as [r4 st4] eqn:Hlog.
  pose proof (lift_keeps_steps _
                (logger_keeps (Falco.LogBudget (Falco.budget_message config)) eq_refl)
                _ _ _ Hlog) as H4.
  unfold Falco.same_steps_state, Falco.same_steps in H4.
  destruct r4 as [u4 | e4 | ].
  - rewrite output_eq. intros [= <- <-]. lia.
  - intros [= <- <-]. lia.
  - intros [= <- <-]. lia.
Qed.
End RunLoop.

(** With the compressed history and no vault, building the messages always
    returns, and writes the conversation only. *)
Lemma get_messages_compressed {Ext : Type} (X : Falco.Externals Ext)
    (config : Config.FalcoAgentConfig) (task : string) (a : Falco.Agent Ext) :
  Config.history_type config = Config.COMPRESSED ->
  Falco.vault X = None ->
  exists msgs c, Falco.get_messages X config task a = (Ret msgs, Falco.set_conv c a).
Proof.
  intros Hh Hv. unfold Falco.get_messages. rewrite Hh, Hv.
  unfold Falco.conv_reset, Falco.conv_add_system_message, Falco.conv_add_user_message,
    bind, modify, get, ret.
  cbn [Falco.trajectory Falco.set_conv Falco.conv].
  destruct (Trajectory.last_obs (Falco.trajectory a));
    destruct (0 <? length (Falco.trajectory a))%nat;
    cbn [Falco.trajectory Falco.set_conv Falco.conv Falco.log Falco.ext];
    eexists; eexists; unfold Falco.set_conv; cbn; reflexivity.
Qed.

(** A pass of the loop in the idle world: the reasoning engine gives no
    action and no completion, and the next pass is due. *)
Lemma idle_pass_continues (steps : Z) (fuel : nat) (task : string) (n : Z)
    (s : Falco.State Demo.Script) :
  exists s',
    Falco.run_body Demo.idle (Demo.demo_config Config.NEVER Config.COMPRESSED steps)
      (S fuel) task n s = (Ret Falco.Continue, s').
Proof.
  unfold Falco.run_body. unfold bind at 1. cbn [SafeExecutor.lift Falco.logger modify].
  set (a0 := Falco.set_log _ _).
  destruct (get_messages_compressed Demo.idle
              (Demo.demo_config Config.NEVER Config.COMPRESSED steps) task a0
              eq_refl eq_refl) as (msgs & c & Hm).
  unfold Falco.step, Falco.step_with. unfold bind at 1. unfold bind at 1.
  unfold SafeExecutor.lift at 1.
  cbn [SafeExecutor.world SafeExecutor.consecutive_failures]. rewrite Hm.
  eexists. reflexivity.
Qed.

(** ** The step budget *)

(** C8, amended.  Enter the environment, and let every pass of the loop end
    with the next pass due: in each, [step] returns, and what it returns is
    no run-ending completion decision; nothing raises.  ([Inv] holds of the
    state on entering and is kept by such passes.)  When leaving the
    environment raises nothing either, [_run] returns a response with
    [success] false whose answer is ["Failed to solve task in <max_steps>
    steps"], after exactly [max_steps] passes of the loop, hence after at
    most [max_steps] calls of [step] from the loop. *)
Theorem step_budget_exhausted {Ext : Type} (X : Falco.Externals Ext)
    (config : Config.FalcoAgentConfig) (fuel : nat) (task : string) (url : option string)
    (Inv : Falco.State Ext -> Prop) (st st1 : Falco.State Ext) :
  SafeExecutor.lift (Falco.call (Falco.env_aenter X)) st = (Ret tt, st1) ->
  Inv st1 ->
  (forall n s, Inv s ->
     exists s',
       Falco.run_body X config fuel (Falco.task_with_url task url) n s
       = (Ret Falco.Continue, s') /\ Inv s') ->
  (forall s, Inv s ->
     exists s', SafeExecutor.lift (Falco.call (Falco.env_aexit X)) s = (Ret tt, s')) ->
  exists r st',
    Falco._run X config fuel task url st = (Ret r, st') /\
    Falco.success r = false /\
    Falco.answer r =
      "Failed to solve task in " +:+ str_int (Config.max_steps config) +:+ " steps" /\
    Falco.steps_logged (Falco.log (SafeExecutor.world st')) =
      (Falco.steps_logged (Falco.log (SafeExecutor.world st))
       + Z.to_nat (Config.max_steps config))%nat.
Proof.
  intros He Hinv Hbody Hexit.
  destruct (run_loop_runs_out X config fuel (Falco.task_with_url task url) Inv Hbody
              (Falco.range (Config.max_steps config)) st1 Hinv)
    as (st2 & Hloop & Hinv2 & Hcount).
  destruct (Hexit st2 Hinv2) as (st3 & Hx).
  pose proof (lift_keeps_steps _ (call_keeps _) _ _ _ He) as H1.
  pose proof (lift_keeps_steps _ (call_keeps _) _ _ _ Hx) as H3.
  unfold Falco.same_steps_state, Falco.same_steps in H1, H3.
  rewrite range_length in Hcount.
  eexists. eexists. split.
  - unfold Falco._run. unfold bind at 1. rewrite He. cbv zeta. rewrite Hloop, Hx.
    unfold bind. cbn [SafeExecutor.lift Falco.logger modify]. rewrite output_eq.
    reflexivity.
  - cbn [Falco.success Falco.answer]. repeat split.
    cbn [SafeExecutor.world Falco.log Falco.set_log]. unfold Falco.steps_logged in *.
    rewrite List.filter_app, length_app. cbn. lia.
Qed.

(** A budget of five steps in the idle world: the run fails with the
    message for five steps after five passes. *)
Lemma step_budget_exhausted_witness :
  exists r st',
    Falco._run Demo.idle (Demo.demo_config Config.NEVER Config.COMPRESSED 5) 1 "find X" None
      (Demo.start {| Demo.llm_replies := []; Demo.act_results := [];
                     Demo.verdicts := []; Demo.seen := [] |} [])
    = (Ret r, st') /\
    Falco.success r = false /\
    Falco.answer r = "Failed to solve task in 5 steps" /\
    Falco.steps_logged (Falco.log (SafeExecutor.world st')) = 5%nat.
Proof.
  apply (step_budget_exhausted Demo.idle
           (Demo.demo_config Config.NEVER Config.COMPRESSED 5) 1 "find X" None
           (fun _ => True)
           (Demo.start {| Demo.llm_replies := []; Demo.act_results := [];
                          Demo.verdicts := []; Demo.seen := [] |} [])
           (Demo.start {| Demo.llm_replies := []; Demo.act_results := [];
                          Demo.verdicts := []; Demo.seen := [] |} [])).
  - reflexivity.
  - exact I.
  - intros n s _.
    destruct (idle_pass_continues 5 0 (Falco.task_with_url "find X" None) n s) as [s' Hs].
    exists s'. split; [exact Hs | exact I].
  - intros s _. eexists. reflexivity.
Defined.

(** ** The top-level failure policy *)

(** C9.  With [raise_condition = NEVER], [run] never ends by raising: an
    exception that escapes [_run] becomes a returned response with [success]
    false whose answer is ["Failed due to <e>: <traceback>"]. *)
Theorem run_never_raises {Ext : Type} (X : Falco.Externals Ext)
    (config : Config.FalcoAgentConfig) (fuel : nat) (task : string) (url : option string)
    (st : Falco.State Ext) :
  Config.raise_condition config = Config.NEVER ->
  (forall e st', Falco.run X config fuel task url st <> (Raise e, st')) /\
  (forall e st',
     Falco._run X config fuel task url
       (snd (SafeExecutor.lift (Falco.logger (Falco.LogRunningTask task)) st))
     = (Raise e, st') ->
     Falco.run X config fuel task url st =
     (Ret {| Falco.answer :=
               "Failed due to " +:+ Falco.str_exn X e +:+ ": " +:+ Falco.format_exc X e;
             Falco.success := false;
             Falco.env_trajectory :=
               Falco.env_trajectory_of X (Falco.ext (SafeExecutor.world st'));
             Falco.agent_trajectory := Falco.trajectory (SafeExecutor.world st');
             Falco.messages := Falco.conv (SafeExecutor.world st') |}, st')).
Proof.
  intros Hnever. unfold Falco.run, bind.
  cbn [SafeExecutor.lift Falco.logger modify snd].
  set (st0 := {| SafeExecutor.consecutive_failures := _; SafeExecutor.world := _ |}).
  rewrite Hnever. split.
  - intros e st'.
    destruct (Falco._run X config fuel task url st0) as [[r | e0 | ] s1].
    + discriminate.
    + destruct (decide _) as [_ | Hne]; [| congruence].
      rewrite output_eq. discriminate.
    + discriminate.
  - intros e st' Hrun. rewrite Hrun.
    destruct (decide _) as [_ | Hne]; [| congruence].
    apply output_eq.
Qed.

(** Three failing actions in a row hit the ceiling inside [step]; under
    [NEVER] the run returns a failed response that describes the error. *)
Lemma run_never_raises_witness :
  exists r st',
    Falco.run Demo.scripted (Demo.demo_config Config.NEVER Config.SHORT_OBSERVATIONS 5)
      4 "find X" None
      (Demo.start
         {| Demo.llm_replies :=
              [Demo.reply_action "B1"; Demo.reply_action "B1"; Demo.reply_action "B1"];
            Demo.act_results :=
              [Raise (PyException "TimeoutError" "page did not load");
               Raise (PyException "TimeoutError" "page did not load");
               Raise (PyException "TimeoutError" "page did not load")];
            Demo.verdicts := [];
            Demo.seen := [] |} [])
    = (Ret r, st') /\
    Falco.success r = false /\
    Falco.answer r =
      "Failed due to Max consecutive failures reached in a single step: 3.: Traceback".
Proof.
  eexists. eexists. split.
  - eapply (proj2 (run_never_raises Demo.scripted
                     (Demo.demo_config Config.NEVER Config.SHORT_OBSERVATIONS 5)
                     4 "find X" None _ eq_refl)
              (mk_MaxConsecutiveFailuresError 3)).
    vm_compute. reflexivity.
  - split; reflexivity.
Defined.

(** ** Falling back to an observation *)

(** Appending a result to a log whose latest entry is known. *)
Lemma add_step_last (s : Trajectory.Status) (t : list Trajectory.TrajectoryStep)
    (response : Types.StepAgentOutput) (rs : list Trajectory.Status) :
  Trajectory.add_step s
    (t ++ [{| Trajectory.agent_response := response; Trajectory.results := rs |}]) =
  t ++ [{| Trajectory.agent_response := response; Trajectory.results := rs ++ [s] |}].
Proof.
  induction t as [| x t IH].
  - reflexivity.
  - cbn [app Trajectory.add_step]. rewrite IH.
    destruct (t ++ _) eqn:E; [destruct t; discriminate | reflexivity].
Qed.

(** What lines 255-271 of [step] do, should they be reached: for a result
    with [success] false that does not ask for a rerun, whatever produced
    it, and [env.observe] returning [obs], the loop ends there with [None]
    whatever the remaining actions are; the failed result joins the latest
    entry of the trajectory, and a new entry is added for the same response
    whose one result has input [FallbackObserveAction], success true and
    output [obs]. *)
Lemma fallback_branch {Ext : Type} (X : Falco.Externals Ext)
    (execute : Actions.BaseAction -> M (Falco.State Ext) Trajectory.Status)
    (rerun : M (Falco.State Ext) (option Actions.CompletionAction))
    (response : Types.StepAgentOutput) (action : Actions.BaseAction)
    (rest : list Actions.BaseAction) (st st1 : Falco.State Ext)
    (result : Trajectory.Status) (obs : Observation.Observation) (x2 : Ext) :
  execute action st = (Ret result, st1) ->
  SafeExecutor.success result = false ->
  SafeExecutor.should_rerun_step_agent result = false ->
  Falco.env_observe X (Falco.ext (SafeExecutor.world st1)) = (Ret obs, x2) ->
  Falco.step_actions X execute rerun response (action :: rest) st =
  (Ret None,
   {| SafeExecutor.consecutive_failures := SafeExecutor.consecutive_failures st1;
      SafeExecutor.world :=
        {| Falco.conv := Falco.conv (SafeExecutor.world st1);
           Falco.trajectory :=
             Trajectory.add_step result (Falco.trajectory (SafeExecutor.world st1))
             ++ [{| Trajectory.agent_response := response;
                    Trajectory.results :=
                      [{| SafeExecutor.input := Actions.FallbackObserveAction;
                          SafeExecutor.output := Some obs;
                          SafeExecutor.success := true;
                          SafeExecutor.message := "Observed";
                          SafeExecutor.should_rerun_step_agent := false |}] |}];
           Falco.log := Falco.log (SafeExecutor.world st1);
           Falco.ext := x2 |} |}).
Proof.
  intros Hex Hfail Hrerun Hobs.
  cbn [Falco.step_actions]. unfold bind at 1. rewrite Hex, Hrerun.
  unfold bind at 1. cbn [SafeExecutor.lift Falco.trajectory_add_step modify]. rewrite Hfail.
  cbn [negb]. unfold bind at 1. unfold SafeExecutor.lift at 1, Falco.call.
  cbn [SafeExecutor.world SafeExecutor.consecutive_failures Falco.ext Falco.set_trajectory].
  rewrite Hobs. unfold bind. cbn. unfold Trajectory.add_output.
  rewrite (add_step_last _ _ response []). reflexivity.
Qed.


(** ** Completion decisions *)

Section Completion.
Context {Ext : Type}.
Variable X : Falco.Externals Ext.
Variable config : Config.FalcoAgentConfig.
Variable execute : Actions.BaseAction -> M (Falco.State Ext) Trajectory.Status.

(** The loop over the actions returns a completion only through the
    recursive call of [step]. *)
Lemma step_actions_completion
    (rerun : M (Falco.State Ext) (option Actions.CompletionAction))
    (response : Types.StepAgentOutput) (actions : list Actions.BaseAction) :
  forall (st st1 : Falco.State Ext) (c : Actions.CompletionAction),
    Falco.step_actions X execute rerun response actions st = (Ret (Some c), st1) ->
    exists st0, rerun st0 = (Ret (Some c), st1).
Proof.
  induction actions as [| action rest IH]; intros st st1 c; cbn [Falco.step_actions].
  - discriminate.
  - unfold bind at 1. destruct (execute action st) as [[result | e | ] s1]; try discriminate.
    destruct (SafeExecutor.should_rerun_step_agent result).
    + unfold bind. cbn [SafeExecutor.lift Falco.logger modify]. eauto.
    + unfold bind at 1. cbn [SafeExecutor.lift Falco.trajectory_add_step modify].
      destruct (negb (SafeExecutor.success result)); [| apply IH].
      unfold bind at 1.
      destruct (SafeExecutor.lift (Falco.call (Falco.env_observe X)) _)
        as [[obs | e | ] s2]; discriminate.
Qed.

(** When [step] returns a completion, the latest entry of the trajectory is
    the response that carries it, with no result yet. *)
Lemma step_with_completion (fuel : nat) (task : string) :
  forall (st st1 : Falco.State Ext) (c : Actions.CompletionAction),
    Falco.step_with X config execute fuel task st = (Ret (Some c), st1) ->
    exists t response,
      Falco.trajectory (SafeExecutor.world st1) =
        t ++ [{| Trajectory.agent_response := response; Trajectory.results := [] |}] /\
      Types.output response = Some c.
Proof.
  induction fuel as [| fuel IH]; intros st st1 c; cbn [Falco.step_with].
  - discriminate.
  - unfold bind at 1.
    destruct (SafeExecutor.lift (Falco.get_messages X config task) st)
      as [[msgs | e | ] s1]; try discriminate.
    unfold bind at 1.
    destruct (SafeExecutor.lift (Falco.call (Falco.structured_completion X msgs)) s1)
      as [[response | e | ] s2]; try discriminate.
    unfold bind at 1.
    destruct (SafeExecutor.lift _ s2) as [[u | e | ] s3]; try discriminate.
    unfold bind at 1. cbn [SafeExecutor.lift Falco.trajectory_add_output modify].
    destruct (Types.output response) as [c' |] eqn:Hout.
    + intros [= <- <-]. cbn. unfold Trajectory.add_output. eauto.
    + intros Hacts. apply step_actions_completion in Hacts as [st0 Hrec].
      exact (IH _ _ _ Hrec).
Qed.
End Completion.

(** The loop over the step numbers [l1 ++ l2] when the passes for [l1] all
    end with the next pass due. *)
Lemma run_loop_app {Ext : Type} (X : Falco.Externals Ext)
    (config : Config.FalcoAgentConfig) (fuel : nat) (task : string) (l1 l2 : list Z) :
  forall st s : Falco.State Ext,
    Falco.run_loop X config fuel task l1 st = (Ret None, s) ->
    Falco.run_loop X config fuel task (l1 ++ l2) st = Falco.run_loop X config fuel task l2 s.
Proof.
  induction l1 as [| n l1 IH]; intros st s; cbn [Falco.run_loop app].
  - intros [= <-]. reflexivity.
  - unfold bind.
    destruct (Falco.run_body X config fuel task n st) as [[[| r] | e | ] s1];
      try discriminate.
    apply IH.
Qed.

(** The pass of the loop of [_run] for step number [n] in which [step]
    returns the completion decision [c]. *)
Lemma completion_in_loop {Ext : Type} (X : Falco.Externals Ext)
    (config : Config.FalcoAgentConfig) (fuel : nat) (task : string)
    (n : Z) (rest : list Z) (st st1 : Falco.State Ext) (c : Actions.CompletionAction) :
  Falco.step X config fuel task
    (snd (SafeExecutor.lift (Falco.logger (Falco.LogStep n)) st)) = (Ret (Some c), st1) ->
  (Actions.success c = false ->
   Falco.run_loop X config fuel task (n :: rest) st =
   (Ret (Some {| Falco.answer := Actions.answer c;
                 Falco.success := false;
                 Falco.env_trajectory :=
                   Falco.env_trajectory_of X (Falco.ext (SafeExecutor.world st1));
                 Falco.agent_trajectory := Falco.trajectory (SafeExecutor.world st1);
                 Falco.messages := Falco.conv (SafeExecutor.world st1) |}),
    snd (SafeExecutor.lift
           (Falco.logger (Falco.LogTerminatedEarly (Actions.answer c))) st1))) /\
  (Actions.success c = true ->
   forall (earlier : list Observation.Observation) (obs : Observation.Observation)
          (val : Falco.ValidationResult) (x2 : Ext),
     Falco.env_trajectory_of X (Falco.ext (SafeExecutor.world st1)) = earlier ++ [obs] ->
     Falco.validate X task c obs (Falco.ext (SafeExecutor.world st1)) = (Ret val, x2) ->
     (Falco.is_valid val = true ->
      Falco.run_loop X config fuel task (n :: rest) st =
      (Ret (Some {| Falco.answer := Actions.answer c;
                    Falco.success := true;
                    Falco.env_trajectory := Falco.env_trajectory_of X x2;
                    Falco.agent_trajectory := Falco.trajectory (SafeExecutor.world st1);
                    Falco.messages := Falco.conv (SafeExecutor.world st1) |}),
       {| SafeExecutor.consecutive_failures := SafeExecutor.consecutive_failures st1;
          SafeExecutor.world :=
            {| Falco.conv := Falco.conv (SafeExecutor.world st1);
               Falco.trajectory := Falco.trajectory (SafeExecutor.world st1);
               Falco.log := Falco.log (SafeExecutor.world st1) ++ [Falco.LogCompleted];
               Falco.ext := x2 |} |})) /\
     (Falco.is_valid val = false ->
      let failed_val_msg :=
        "Final validation failed: " +:+ Falco.reason val +:+ ". Continuing..." in
      exists t response,
        Falco.trajectory (SafeExecutor.world st1) =
          t ++ [{| Trajectory.agent_response := response; Trajectory.results := [] |}] /\
        Types.output response = Some c /\
        Falco.run_loop X config fuel task (n :: rest) st =
        Falco.run_loop X config fuel task rest
          {| SafeExecutor.consecutive_failures := SafeExecutor.consecutive_failures st1;
             SafeExecutor.world :=
               {| Falco.conv := Falco.conv (SafeExecutor.world st1);
                  Falco.trajectory :=
                    t ++ [{| Trajectory.agent_response := response;
                             Trajectory.results :=
                               [{| SafeExecutor.input := Actions.Completion c;
                                   SafeExecutor.output := None;
                                   SafeExecutor.success := false;
                                   SafeExecutor.message := failed_val_msg;
                                   SafeExecutor.should_rerun_step_agent := false |}] |}];
                  Falco.log :=
                    Falco.log (SafeExecutor.world st1)
                    ++ [Falco.LogValidationFailed failed_val_msg];
                  Falco.ext := x2 |} |})).
Proof.
  intros Hstep.
  assert (Falco.run_loop X config fuel task (n :: rest) st =
          bind (Falco.check_completion X task (Some c))
            (fun ctl => match ctl with
                        | Falco.Continue => Falco.run_loop X config fuel task rest
                        | Falco.Return r => ret (Some r)
                        end) st1) as Hloop.
  { cbn [Falco.run_loop]. unfold Falco.run_body.
    unfold bind at 1. unfold bind at 1.
    destruct (SafeExecutor.lift (Falco.logger (Falco.LogStep n)) st) as [r0 s0] eqn:Elog.
    cbn [SafeExecutor.lift Falco.logger modify] in Elog. injection Elog as <- <-.
    cbn [SafeExecutor.lift Falco.logger modify snd] in Hstep.
    unfold bind at 1. rewrite Hstep. reflexivity. }
  rewrite Hloop. clear Hloop. unfold Falco.check_completion. split.
  - intros Hs. rewrite Hs. cbn [negb]. unfold bind.
    cbn [SafeExecutor.lift Falco.logger modify]. rewrite output_eq.
    reflexivity.
  - intros Hs earlier obs val x2 Henv Hval. rewrite Hs. cbn [negb].
    assert (SafeExecutor.lift (Falco.env_trajectory_last X) st1 = (Ret obs, st1)) as Hlast.
    { unfold SafeExecutor.lift, Falco.env_trajectory_last, bind, get.
      rewrite Henv, List.rev_app_distr. cbn. destruct st1; reflexivity. }
    assert (SafeExecutor.lift (Falco.call (Falco.validate X task c obs)) st1 =
            (Ret val,
             {| SafeExecutor.consecutive_failures := SafeExecutor.consecutive_failures st1;
                SafeExecutor.world :=
                  {| Falco.conv := Falco.conv (SafeExecutor.world st1);
                     Falco.trajectory := Falco.trajectory (SafeExecutor.world st1);
                     Falco.log := Falco.log (SafeExecutor.world st1);
                     Falco.ext := x2 |} |})) as Hcall.
    { unfold SafeExecutor.lift, Falco.call. rewrite Hval. reflexivity. }
    split.
    + intros Hvalid. unfold bind at 1. unfold bind at 1. rewrite Hlast.
      unfold bind at 1. rewrite Hcall, Hvalid. unfold bind.
      cbn [SafeExecutor.lift Falco.logger modify]. rewrite output_eq.
      reflexivity.
    + intros Hinvalid. cbv zeta.
      destruct (step_with_completion X config _ fuel task _ _ _ Hstep)
        as (t & response & Htraj & Hout).
      exists t, response. repeat split; [assumption.. |].
      unfold bind at 1. unfold bind at 1. rewrite Hlast.
      unfold bind at 1. rewrite Hcall, Hinvalid. unfold bind.
      cbn [SafeExecutor.lift Falco.logger Falco.trajectory_add_step modify
           SafeExecutor.world SafeExecutor.consecutive_failures
           Falco.set_log Falco.set_trajectory Falco.conv Falco.trajectory Falco.log
           Falco.ext].
      rewrite Htraj. unfold Falco.failed_validation_status.
      rewrite (add_step_last _ t response []). reflexivity.
Qed.

(** * More of [SafeActionExecutor] *)

(** X1.  With [raise_on_failure] on, a failure below the ceiling is not
    returned: [execute] raises [StepExecutionFailure] with the message
    classified for the error, which for a [NotteBaseError] is its developer
    message. *)
Theorem strict_failure_raises {W S T : Type} (str_input : S -> string)
    (self : SafeExecutor.SafeActionExecutor W S T)
    (input_data : S) (st : SafeExecutor.ExecState W) (e : PyExn) (w1 w2 : W) :
  SafeExecutor.attempt self input_data (SafeExecutor.world st) = (Raise e, w1) ->
  SafeExecutor.call_handler self e w1 = (Ret tt, w2) ->
  SafeExecutor.consecutive_failures st + 1 < SafeExecutor.max_consecutive_failures self ->
  SafeExecutor.raise_on_failure self = true ->
  SafeExecutor.execute str_input self input_data st =
    (Raise (mk_StepExecutionFailure (SafeExecutor.error_message self e)),
     {| SafeExecutor.consecutive_failures := SafeExecutor.consecutive_failures st + 1;
        SafeExecutor.world := w2 |}) /\
  (forall cls msgs,
     e = NotteBaseError cls msgs ->
     SafeExecutor.error_message self e = dev_message msgs).
Proof.
  intros Ha Hh Hlt Hr. split.
  - rewrite execute_unfold, Ha, on_failure_unfold. cbn. rewrite Hh, Hr.
    destruct (Z.leb_spec (SafeExecutor.max_consecutive_failures self)
                (SafeExecutor.consecutive_failures st + 1)); [lia | reflexivity].
  - intros cls msgs ->. cbn. now rewrite Hr.
Qed.

Lemma strict_failure_raises_witness :
  SafeExecutor.execute Demo.str_nat (Demo.guarded true) 3%nat Demo.blank =
  (Raise (mk_StepExecutionFailure "An unexpected error occurred: odd input"),
   {| SafeExecutor.consecutive_failures := 1;
      SafeExecutor.world := ["ran"; "handled"] |}).
Proof.
  apply (strict_failure_raises Demo.str_nat (Demo.guarded true) 3%nat Demo.blank
           (PyException "RuntimeError" "odd input") ["ran"] ["ran"; "handled"]);
    reflexivity.
Defined.

(** X2.  When the handler registered for the error raises, that exception
    leaves [execute]: neither the fatal error nor [StepExecutionFailure] nor
    a status takes its place, whatever the ceiling and [raise_on_failure];
    the counter has been incremented. *)
Theorem handler_error_propagates {W S T : Type} (str_input : S -> string)
    (self : SafeExecutor.SafeActionExecutor W S T)
    (input_data : S) (st : SafeExecutor.ExecState W) (e e' : PyExn) (w1 w2 : W) :
  SafeExecutor.attempt self input_data (SafeExecutor.world st) = (Raise e, w1) ->
  SafeExecutor.call_handler self e w1 = (Raise e', w2) ->
  SafeExecutor.execute str_input self input_data st =
  (Raise e',
   {| SafeExecutor.consecutive_failures := SafeExecutor.consecutive_failures st + 1;
      SafeExecutor.world := w2 |}).
Proof.
  intros Ha Hh. rewrite execute_unfold, Ha, on_failure_unfold. cbn. now rewrite Hh.
Qed.

Lemma handler_error_propagates_witness :
  SafeExecutor.execute Demo.str_nat (Demo.guarded false) 101%nat
    {| SafeExecutor.consecutive_failures := 2; SafeExecutor.world := [] |} =
  (Raise (PyException "KeyError" "handler"),
   {| SafeExecutor.consecutive_failures := 3; SafeExecutor.world := [] |}).
Proof.
  apply (handler_error_propagates Demo.str_nat (Demo.guarded false) 101%nat
           {| SafeExecutor.consecutive_failures := 2; SafeExecutor.world := [] |}
           (ValidationError "too large") (PyException "KeyError" "handler") [] []);
    reflexivity.
Defined.

(** X3.  When the precheck raises, the operation is not run: what [execute]
    returns or raises, and the state it leaves, are the same for any other
    operation put in place of [func]. *)
Theorem precheck_failure_skips_operation {W S T : Type} (str_input : S -> string)
    (self other : SafeExecutor.SafeActionExecutor W S T)
    (precheck : S -> M W unit)
    (input_data : S) (st : SafeExecutor.ExecState W) (e : PyExn) (w1 : W) :
  SafeExecutor.precheck_func self = Some precheck ->
  SafeExecutor.precheck_func other = Some precheck ->
  SafeExecutor.on_failure_handlers other = SafeExecutor.on_failure_handlers self ->
  SafeExecutor.max_consecutive_failures other = SafeExecutor.max_consecutive_failures self ->
  SafeExecutor.raise_on_failure other = SafeExecutor.raise_on_failure self ->
  precheck input_data (SafeExecutor.world st) = (Raise e, w1) ->
  SafeExecutor.attempt self input_data (SafeExecutor.world st) = (Raise e, w1) /\
  SafeExecutor.execute str_input other input_data st =
  SafeExecutor.execute str_input self input_data st.
Proof.
  intros Hp Hp' Hh Hm Hr He.
  assert (forall ex : SafeExecutor.SafeActionExecutor W S T,
             SafeExecutor.precheck_func ex = Some precheck ->
             SafeExecutor.attempt ex input_data (SafeExecutor.world st) = (Raise e, w1))
    as Hatt.
  { intros ex Hex. unfold SafeExecutor.attempt, bind. now rewrite Hex, He. }
  split; [apply Hatt, Hp |].
  rewrite !execute_unfold, (Hatt self Hp), (Hatt other Hp'), !on_failure_unfold.
  unfold SafeExecutor.call_handler, SafeExecutor.error_message. rewrite Hh, Hm, Hr.
  reflexivity.
Qed.

Lemma precheck_failure_skips_operation_witness :
  SafeExecutor.attempt (Demo.guarded false) 101%nat [] =
    (Raise (ValidationError "too large"), []) /\
  SafeExecutor.execute Demo.str_nat
    {| SafeExecutor.func := fun n => ret (Some n);
       SafeExecutor.on_failure_handlers :=
         SafeExecutor.on_failure_handlers (Demo.guarded false);
       SafeExecutor.precheck_func := Some Demo.guarded_precheck;
       SafeExecutor.max_consecutive_failures := 3;
       SafeExecutor.raise_on_failure := false |} 101%nat Demo.blank =
  SafeExecutor.execute Demo.str_nat (Demo.guarded false) 101%nat Demo.blank.
Proof.
  apply (precheck_failure_skips_operation Demo.str_nat (Demo.guarded false) _
           Demo.guarded_precheck 101%nat Demo.blank (ValidationError "too large") []);
    reflexivity.
Defined.

(** X4.  Every failure status that [execute] returns has
    [should_rerun_step_agent] true: the test
    [consecutive_failures <= max_consecutive_failures] of line 84 is reached
    only below the ceiling. *)
Theorem returned_failure_reruns {W S T : Type} (str_input : S -> string)
    (self : SafeExecutor.SafeActionExecutor W S T)
    (input_data : S) (st st' : SafeExecutor.ExecState W)
    (status : SafeExecutor.ExecutionStatus S T) :
  SafeExecutor.execute str_input self input_data st = (Ret status, st') ->
  SafeExecutor.success status = false ->
  SafeExecutor.should_rerun_step_agent status = true /\
  SafeExecutor.consecutive_failures st' < SafeExecutor.max_consecutive_failures self.
Proof.
  intros Hex Hf.
  destruct (returned_status_cases str_input self _ _ _ _ Hex)
    as [(r & _ & Hs & _) | (_ & _ & Hr & _ & _ & Hlt)]; [congruence | auto].
Qed.

Lemma returned_failure_reruns_witness :
  SafeExecutor.should_rerun_step_agent
    {| SafeExecutor.input := 3%nat;
       SafeExecutor.output := @None nat;
       SafeExecutor.success := false;
       SafeExecutor.message := "An unexpected error occurred: odd input";
       SafeExecutor.should_rerun_step_agent := true |} = true /\
  1 < SafeExecutor.max_consecutive_failures (Demo.guarded false).
Proof.
  apply (returned_failure_reruns Demo.str_nat (Demo.guarded false) 3%nat Demo.blank
           {| SafeExecutor.consecutive_failures := 1;
              SafeExecutor.world := ["ran"; "handled"] |});
    reflexivity.
Defined.

(** One call moves the counter to 0, leaves it, or adds one. *)
Lemma counter_step {W S T : Type} (str_input : S -> string)
    (self : SafeExecutor.SafeActionExecutor W S T)
    (input_data : S) (st : SafeExecutor.ExecState W) :
  let n := SafeExecutor.consecutive_failures
             (snd (SafeExecutor.execute str_input self input_data st)) in
  n = 0 \/ n = SafeExecutor.consecutive_failures st
  \/ n = SafeExecutor.consecutive_failures st + 1.
Proof.
  cbv zeta. rewrite execute_unfold.
  destruct (SafeExecutor.attempt self input_data (SafeExecutor.world st)) as [[r | e | ] w].
  - left. reflexivity.
  - rewrite on_failure_unfold. cbn.
    destruct (SafeExecutor.call_handler self e w) as [[u | e' | ] w'];
      try (right; right; reflexivity).
    destruct (_ <=? _); [right; right; reflexivity |].
    destruct (SafeExecutor.raise_on_failure self); right; right; reflexivity.
  - right. left. reflexivity.
Qed.

(** X5.  The counter of consecutive failures never becomes negative: from
    a counter that is not negative, no sequence of calls, whatever each one
    returns or raises, leads to a negative one. *)
Theorem counter_never_negative {W S T : Type} (str_input : S -> string)
    (self : SafeExecutor.SafeActionExecutor W S T)
    (inputs : list S) (st : SafeExecutor.ExecState W) :
  0 <= SafeExecutor.consecutive_failures st ->
  0 <= SafeExecutor.consecutive_failures (SafeExecutor.after_calls str_input self inputs st).
Proof.
  revert st. induction inputs as [| i rest IH]; intros st Hst; cbn [SafeExecutor.after_calls].
  - exact Hst.
  - apply IH. pose proof (counter_step str_input self i st) as Hstep. cbv zeta in Hstep.
    lia.
Qed.

Lemma counter_never_negative_witness :
  0 <= SafeExecutor.consecutive_failures
         (SafeExecutor.after_calls Demo.str_nat (Demo.guarded false)
            [3%nat; 2%nat; 101%nat; 5%nat] Demo.blank).
Proof.
  apply (counter_never_negative Demo.str_nat (Demo.guarded false)
           [3%nat; 2%nat; 101%nat; 5%nat] Demo.blank).
  vm_compute. discriminate.
Defined.

(** X6.  [get] on a status returned by [execute]: after a success it
    returns the value the operation returned, and when the operation
    returned [None] it raises [ValueError] although [success] is true, with
    the message of the success; after a returned failure it raises
    [ValueError] with the message of the status. *)
Theorem get_after_execute {W S T St : Type} (str_input : S -> string)
    (self : SafeExecutor.SafeActionExecutor W S T)
    (input_data : S) (st st' : SafeExecutor.ExecState W)
    (status : SafeExecutor.ExecutionStatus S T) (s : St) :
  SafeExecutor.execute str_input self input_data st = (Ret status, st') ->
  (SafeExecutor.success status = true ->
   exists result w,
     SafeExecutor.attempt self input_data (SafeExecutor.world st) = (Ret result, w) /\
     SafeExecutor.status_get status s =
     match result with
     | Some value => (Ret value, s)
     | None =>
         (Raise (PyException "ValueError"
                   ("Execution failed with message: "
                    +:+ "Successfully executed action with input: "
                    +:+ str_input input_data)), s)
     end) /\
  (SafeExecutor.success status = false ->
   SafeExecutor.status_get status s =
   (Raise (PyException "ValueError"
             ("Execution failed with message: " +:+ SafeExecutor.message status)), s)).
Proof.
  rewrite execute_unfold.
  destruct (SafeExecutor.attempt self input_data (SafeExecutor.world st))
    as [[r | e | ] w] eqn:Ha.
  - intros [= <- <-]. split; [| discriminate].
    intros _. exists r, w. split; [reflexivity |]. destruct r; reflexivity.
  - rewrite on_failure_unfold. cbn.
    destruct (SafeExecutor.call_handler self e w) as [[u | e' | ] w']; try discriminate.
    destruct (_ <=? _); try discriminate.
    destruct (SafeExecutor.raise_on_failure self); try discriminate.
    intros [= <- <-]. split; [discriminate | reflexivity].
  - discriminate.
Qed.

Lemma get_after_execute_witness :
  (exists result w,
     SafeExecutor.attempt (Demo.guarded false) 4%nat [] = (Ret result, w) /\
     SafeExecutor.status_get
       {| SafeExecutor.input := 4%nat;
          SafeExecutor.output := Some 4%nat;
          SafeExecutor.success := true;
          SafeExecutor.message := "Successfully executed action with input: 4";
          SafeExecutor.should_rerun_step_agent := false |} tt =
     match result with
     | Some value => (Ret value, tt)
     | None =>
         (Raise (PyException "ValueError"
                   ("Execution failed with message: "
                    +:+ "Successfully executed action with input: "
                    +:+ Demo.str_nat 4)), tt)
     end) /\
  (exists result w,
     SafeExecutor.attempt Demo.silent 4%nat tt = (Ret result, w) /\
     SafeExecutor.status_get
       {| SafeExecutor.input := 4%nat;
          SafeExecutor.output := @None nat;
          SafeExecutor.success := true;
          SafeExecutor.message := "Successfully executed action with input: 4";
          SafeExecutor.should_rerun_step_agent := false |} tt =
     match result with
     | Some value => (Ret value, tt)
     | None =>
         (Raise (PyException "ValueError"
                   ("Execution failed with message: "
                    +:+ "Successfully executed action with input: "
                    +:+ Demo.str_nat 4)), tt)
     end) /\
  SafeExecutor.status_get
    {| SafeExecutor.input := 3%nat;
       SafeExecutor.output := @None nat;
       SafeExecutor.success := false;
       SafeExecutor.message := "An unexpected error occurred: odd input";
       SafeExecutor.should_rerun_step_agent := true |} tt =
  (Raise (PyException "ValueError"
            "Execution failed with message: An unexpected error occurred: odd input"), tt).
Proof.
  split; [| split].
  - apply (proj1 (get_after_execute Demo.str_nat (Demo.guarded false) 4%nat Demo.blank
                    {| SafeExecutor.consecutive_failures := 0;
                       SafeExecutor.world := ["ran"] |} _ tt eq_refl)).
    reflexivity.
  - apply (proj1 (get_after_execute Demo.str_nat Demo.silent 4%nat Demo.fresh
                    {| SafeExecutor.consecutive_failures := 0;
                       SafeExecutor.world := tt |} _ tt eq_refl)).
    reflexivity.
  - apply (proj2 (get_after_execute Demo.str_nat (Demo.guarded false) 3%nat Demo.blank
                    {| SafeExecutor.consecutive_failures := 1;
                       SafeExecutor.world := ["ran"; "handled"] |} _ tt eq_refl)).
    reflexivity.
Defined.

(** * More of [Observation] and of the precheck *)

Lemma add_ids_spec (action_id : Actions.BaseAction -> string)
    (acts : list Actions.BaseAction) (s : gset string) (id : string) :
  id ∈ Observation.add_ids action_id acts s <->
  id ∈ s \/ exists a, In a acts /\ action_id a = id.
Proof.
  unfold Observation.add_ids. revert s.
  induction acts as [| a rest IH]; intros s; cbn [foldl].
  - split; [auto | intros [H | (a & [] & _)]; exact H].
  - rewrite IH. rewrite elem_of_union, elem_of_singleton. split.
    + intros [[H | ->] | (b & Hb & Hid)].
      * left. exact H.
      * right. exists a. split; [left; reflexivity | reflexivity].
      * right. exists b. split; [right; exact Hb | exact Hid].
    + intros [H | (b & [<- | Hb] & Hid)].
      * left. left. exact H.
      * left. right. symmetry. exact Hid.
      * right. exists b. split; assumption.
Qed.

(** X7.  [valid_action_set] holds exactly the identifiers of the actions
    that [space.actions("all")] lists; it is empty for an observation
    without a space. *)
Theorem valid_action_set_spec (action_id : Actions.BaseAction -> string)
    (obs : Observation.Observation) (id : string) :
  id ∈ Observation.valid_action_set action_id obs <->
  exists sp a,
    Observation.space obs = Some sp /\
    In a (Observation.actions sp "all") /\
    action_id a = id.
Proof.
  unfold Observation.valid_action_set.
  destruct (Observation.space obs) as [sp |]; cbn.
  - rewrite add_ids_spec. split.
    + intros [H | (a & Ha & Hid)]; [set_solver |].
      exists sp, a. auto.
    + intros (sp' & a & [= <-] & Ha & Hid). right. exists a. auto.
  - split; [set_solver | intros (sp & a & [=] & _)].
Qed.

(** The body of [precheck_action], once awaited: on the first step
    it accepts every action; afterwards it accepts the actions whose
    identifier is in the valid set of the last observation and raises
    [InvalidActionIDError], carrying the identifier and the valid ones, for
    the others.  It changes nothing. *)
Theorem precheck_action_body_spec {Ext : Type} (X : Falco.Externals Ext)
    (action : Actions.BaseAction) (a : Falco.Agent Ext) :
  let valid :=
    Falco._get_valid_action_set X (Trajectory.last_obs (Falco.trajectory a)) in
  await (coroutine (Falco.precheck_action_body X action)) a =
  (if Falco._is_first_step a || bool_decide (Falco.action_id X action ∈ valid)
   then Ret tt
   else Raise (Falco.mk_InvalidActionIDError X (Falco.action_id X action) (elements valid)),
   a).
Proof.
  cbv zeta. cbn [await]. unfold Falco.precheck_action_body, bind, get.
  destruct (Falco._is_first_step a); cbn [negb orb]; [reflexivity |].
  destruct (decide _) as [Hin | Hout].
  - rewrite bool_decide_eq_true_2 by exact Hin. reflexivity.
  - rewrite bool_decide_eq_false_2 by exact Hout. reflexivity.
Qed.

(** [get_messages] starts from an empty conversation: what the
    conversation held before has no part in its outcome. *)
Lemma get_messages_forgets {Ext : Type} (X : Falco.Externals Ext)
    (config : Config.FalcoAgentConfig) (task : string)
    (c : list Conversation.Message) (a : Falco.Agent Ext) :
  Falco.get_messages X config task (Falco.set_conv c a) =
  Falco.get_messages X config task a.
Proof. reflexivity. Qed.

(** X9.  The message that [invalid_action_id_handler] appends does not
    reach the next reasoning call: [get_messages] resets the conversation
    first, so after the handler has run it builds the same messages, and
    leaves the same state, as if the handler had not run. *)
Theorem corrective_message_is_dropped {Ext : Type} (X : Falco.Externals Ext)
    (config : Config.FalcoAgentConfig) (task : string)
    (e : PyExn) (a a' : Falco.Agent Ext) :
  Falco.invalid_action_id_handler X config e a = (Ret tt, a') ->
  Falco.conv a' =
    Conversation.add_user_message (Falco.count_tokens X)
      (Config.max_history_tokens config)
      (match e with NotteBaseError _ msgs => agent_message msgs | _ => "" end)
      None (Falco.conv a) /\
  Falco.get_messages X config task a' = Falco.get_messages X config task a.
Proof.
  unfold Falco.invalid_action_id_handler, Falco.conv_add_user_message, modify, raise.
  destruct e as [t | cls msgs | t | cls t]; try discriminate.
  intros [= <-]. split; [reflexivity |].
  apply (get_messages_forgets X config task _ a).
Qed.

Lemma corrective_message_is_dropped_witness :
  let config := Demo.demo_config Config.RETRY Config.SHORT_OBSERVATIONS 5 in
  let a :=
    SafeExecutor.world
      (Demo.start {| Demo.llm_replies := []; Demo.act_results := [];
                     Demo.verdicts := []; Demo.seen := [] |}
         Demo.second_step_trajectory) in
  let e := Falco.mk_InvalidActionIDError Demo.scripted "X9" ["B1"] in
  map Conversation.content
    (Falco.conv (snd (Falco.invalid_action_id_handler Demo.scripted config e a))) =
    ["invalid action id X9"] /\
  Falco.get_messages Demo.scripted config "find X"
    (snd (Falco.invalid_action_id_handler Demo.scripted config e a)) =
  Falco.get_messages Demo.scripted config "find X" a.
Proof.
  cbv zeta. split; [reflexivity |].
  apply (corrective_message_is_dropped Demo.scripted
           (Demo.demo_config Config.RETRY Config.SHORT_OBSERVATIONS 5) "find X"
           (Falco.mk_InvalidActionIDError Demo.scripted "X9" ["B1"])).
  reflexivity.
Defined.

(** * Termination of [step] *)

Section Finishes.
Context {St : Type}.

Lemma finishes_ret {A} (a : A) (s : St) : finishes (ret a) s.
Proof. discriminate. Qed.

Lemma finishes_raise {A} (e : PyExn) (s : St) : finishes (@raise St A e) s.
Proof. discriminate. Qed.

Lemma finishes_get (s : St) : finishes (@get St) s.
Proof. discriminate. Qed.

Lemma finishes_modify (f : St -> St) (s : St) : finishes (modify f) s.
Proof. discriminate. Qed.

Lemma finishes_bind {A B} (m : M St A) (k : A -> M St B) (s : St) :
  finishes m s ->
  (forall a s', m s = (Ret a, s') -> finishes (k a) s') ->
  finishes (bind m k) s.
Proof.
  unfold finishes, bind. intros Hm Hk.
  destruct (m s) as [[a | e | ] s'] eqn:Em; cbn in *.
  - apply (Hk a s' eq_refl).
  - discriminate.
  - congruence.
Qed.

Lemma finishes_for_each {A} (body : A -> M St unit) (l : list A) :
  (forall x s, finishes (body x) s) -> forall s, finishes (Falco.for_each body l) s.
Proof.
  intros Hbody. induction l as [| x rest IH]; intros s; cbn.
  - apply finishes_ret.
  - apply finishes_bind; [apply Hbody | intros _ s' _; apply IH].
Qed.
End Finishes.

Lemma finishes_call {Ext A : Type} (m : M Ext A) (a : Falco.Agent Ext) :
  finishes m (Falco.ext a) -> finishes (Falco.call m) a.
Proof.
  unfold finishes, Falco.call. destruct (m (Falco.ext a)) as [r x]. exact id.
Qed.

Lemma finishes_lift {W A : Type} (m : M W A) (st : SafeExecutor.ExecState W) :
  finishes m (SafeExecutor.world st) -> finishes (SafeExecutor.lift m) st.
Proof.
  unfold finishes, SafeExecutor.lift. destruct (m (SafeExecutor.world st)) as [r w].
  exact id.
Qed.

(** [lift] leaves the counter of the executor alone. *)
Lemma lift_counter {W A : Type} (m : M W A) (st st' : SafeExecutor.ExecState W)
    (r : Outcome A) :
  SafeExecutor.lift m st = (r, st') ->
  SafeExecutor.consecutive_failures st' = SafeExecutor.consecutive_failures st.
Proof.
  unfold SafeExecutor.lift. destruct (m (SafeExecutor.world st)) as [r0 w].
  intros [= <- <-]. reflexivity.
Qed.

(** [execute] finishes when the precheck, the operation and the handlers do. *)
Lemma finishes_execute {W S T : Type} (str_input : S -> string)
    (self : SafeExecutor.SafeActionExecutor W S T) (i : S)
    (st : SafeExecutor.ExecState W) :
  (forall w, finishes (SafeExecutor.attempt self i) w) ->
  (forall e w, finishes (SafeExecutor.call_handler self e) w) ->
  finishes (SafeExecutor.execute str_input self i) st.
Proof.
  intros Ha Hh. unfold finishes. rewrite execute_unfold.
  pose proof (Ha (SafeExecutor.world st)) as Ha'. unfold finishes in Ha'.
  destruct (SafeExecutor.attempt self i (SafeExecutor.world st)) as [[r | e | ] w].
  - discriminate.
  - rewrite on_failure_unfold. cbn.
    pose proof (Hh e w) as Hh'. unfold finishes in Hh'.
    destruct (SafeExecutor.call_handler self e w) as [[u | e' | ] w']; cbn in *.
    + destruct (_ <=? _); [discriminate |].
      destruct (SafeExecutor.raise_on_failure self); discriminate.
    + discriminate.
    + congruence.
  - cbn in Ha'. congruence.
Qed.

Section StepTerminates.
Context {Ext : Type}.
Variable X : Falco.Externals Ext.
Variable config : Config.FalcoAgentConfig.
Hypothesis X_responsive : responsive X.

Lemma finishes_get_messages (task : string) (a : Falco.Agent Ext) :
  finishes (Falco.get_messages X config task) a.
Proof.
  destruct X_responsive as (_ & _ & _ & _ & Hvault).
  unfold Falco.get_messages, Falco.add_result_messages, SafeExecutor.status_get,
    Falco.conv_reset, Falco.conv_add_system_message, Falco.conv_add_user_message,
    Falco.conv_add_assistant_message.
  apply finishes_bind; [apply finishes_modify | intros _ a1 _].
  apply finishes_bind.
  { destruct (Falco.vault X) as [v |] eqn:Hv; [| apply finishes_ret].
    apply finishes_bind;
      [apply finishes_call, (proj2 (Hvault v eq_refl)) | intros; apply finishes_ret]. }
  intros system_msg a2 _.
  repeat first
    [ apply finishes_ret
    | apply finishes_raise
    | apply finishes_get
    | apply finishes_modify
    | apply finishes_bind; [| intros ? ? _]
    | apply finishes_for_each; intros ? ?
    | match goal with
      | |- finishes (match ?x with _ => _ end) _ => destruct x
      end ].
Qed.

Lemma finishes_execute_action (action : Actions.BaseAction) (a : Falco.Agent Ext) :
  finishes (Falco.execute_action X action) a.
Proof.
  destruct X_responsive as (Hact & _ & _ & _ & Hvault).
  unfold Falco.execute_action.
  destruct (Falco.vault X) as [v |] eqn:Hv; [| apply finishes_call, Hact].
  destruct (Falco.contains_credentials v action); [| apply finishes_call, Hact].
  apply finishes_bind; [apply finishes_call, (proj1 (Hvault v eq_refl)) |].
  intros action' a' _. apply finishes_call, Hact.
Qed.

Lemma finishes_step_executor (action : Actions.BaseAction) (st : Falco.State Ext) :
  finishes (Falco.step_executor_execute X config action) st.
Proof.
  unfold Falco.step_executor_execute. apply finishes_execute.
  - intros w. unfold finishes. rewrite step_executor_attempt.
    apply finishes_bind; [apply finishes_execute_action | intros; apply finishes_ret].
  - intros e w. unfold SafeExecutor.call_handler. cbn.
    destruct (decide _); [| apply finishes_ret].
    unfold Falco.invalid_action_id_handler, Falco.conv_add_user_message.
    destruct e; first [apply finishes_raise | apply finishes_modify].
Qed.

(** The reruns of one call of [step] with at most one action per step: a
    rerun follows a returned failure, which has moved the counter one closer
    to the ceiling. *)
Lemma step_finishes (task : string) (fuel : nat) :
  Config.max_actions_per_step config <= 1 ->
  forall st : Falco.State Ext,
    (Z.to_nat (Config.max_consecutive_failures config
               - SafeExecutor.consecutive_failures st - 1) < fuel)%nat ->
    finishes (Falco.step X config fuel task) st.
Proof.
  intros Hone. destruct X_responsive as (_ & Hobs & Hllm & Hcb & _).
  induction fuel as [| fuel IH]; intros st Hfuel; [lia |].
  unfold Falco.step in *. cbn [Falco.step_with].
  apply finishes_bind; [apply finishes_lift, finishes_get_messages |].
  intros msgs s1 E1. apply lift_counter in E1.
  apply finishes_bind; [apply finishes_lift, finishes_call, Hllm |].
  intros response s2 E2. apply lift_counter in E2.
  apply finishes_bind.
  { apply finishes_lift. destruct (Falco.step_callback X) as [cb |] eqn:Hc;
      [apply finishes_call, (Hcb cb _ _ _ eq_refl) | apply finishes_ret]. }
  intros u s3 E3. apply lift_counter in E3.
  apply finishes_bind; [apply finishes_lift, finishes_modify |].
  intros u' s4 E4. apply lift_counter in E4.
  destruct (Types.output response); [apply finishes_ret |].
  assert (length (Types.get_actions response (Config.max_actions_per_step config)) <= 1)%nat
    as Hlen.
  { unfold Types.get_actions. rewrite length_firstn. lia. }
  destruct (Types.get_actions response (Config.max_actions_per_step config))
    as [| action [| action' rest]]; cbn [Falco.step_actions].
  - apply finishes_ret.
  - apply finishes_bind; [apply finishes_step_executor |].
    intros result s5 E5.
    destruct (returned_status_cases _ _ _ _ _ _ E5)
      as [(r & _ & Hs & Hr & _) | (_ & Hs & Hr & _ & Hc5 & Hlt)].
    + rewrite Hr, Hs. cbn [negb].
      apply finishes_bind; [apply finishes_lift, finishes_modify |].
      intros; apply finishes_ret.
    + rewrite Hr.
      apply finishes_bind; [apply finishes_lift, finishes_modify |].
      intros u6 s6 E6. apply lift_counter in E6.
      cbn [SafeExecutor.max_consecutive_failures Falco.step_executor] in Hlt.
      apply IH. lia.
  - cbn [length] in Hlen. lia.
Qed.
End StepTerminates.

(** X10.  With at most one action per step and collaborators that always
    return or raise, the recursion of [step] on [should_rerun_step_agent]
    is bounded by the ceiling of the executor: [step] returns or raises
    once it may nest more calls than the counter is short of the ceiling
    (at most [max_consecutive_failures] from a counter at 0). *)
Theorem reruns_are_bounded {Ext : Type} (X : Falco.Externals Ext)
    (config : Config.FalcoAgentConfig) (task : string) (fuel : nat)
    (st : Falco.State Ext) :
  responsive X ->
  Config.max_actions_per_step config <= 1 ->
  (Z.to_nat (Config.max_consecutive_failures config
             - SafeExecutor.consecutive_failures st - 1) < fuel)%nat ->
  finishes (Falco.step X config fuel task) st.
Proof.
  intros HX Hone Hfuel. exact (step_finishes X config HX task fuel Hone st Hfuel).
Qed.

(** In the stubborn world three nested calls end with the fatal error; two
    are not enough. *)
Lemma reruns_are_bounded_witness :
  let config := Demo.demo_config Config.RETRY Config.SHORT_OBSERVATIONS 5 in
  finishes (Falco.step Demo.stubborn config 3 "find X") (Demo.start Demo.empty_script []) /\
  fst (Falco.step Demo.stubborn config 3 "find X" (Demo.start Demo.empty_script [])) =
    Raise (mk_MaxConsecutiveFailuresError 3) /\
  fst (Falco.step Demo.stubborn config 2 "find X" (Demo.start Demo.empty_script [])) =
    Timeout.
Proof.
  cbv zeta. split; [| split; vm_compute; reflexivity].
  apply (reruns_are_bounded Demo.stubborn
           (Demo.demo_config Config.RETRY Config.SHORT_OBSERVATIONS 5) "find X" 3
           (Demo.start Demo.empty_script [])).
  - repeat split; discriminate.
  - cbn. lia.
  - cbn. lia.
Defined.

(** * Failed actions in the agent *)

Lemma step_executor_lenient {Ext : Type} (X : Falco.Externals Ext)
    (config : Config.FalcoAgentConfig) :
  Config.raise_condition config <> Config.IMMEDIATELY ->
  SafeExecutor.raise_on_failure (Falco.step_executor X config) = false.
Proof. intros Hne. cbn. now apply bool_decide_eq_false_2. Qed.

(** No handler is registered for an error of another class than
    [InvalidActionIDError]. *)
Lemma step_executor_no_handler {Ext : Type} (X : Falco.Externals Ext)
    (config : Config.FalcoAgentConfig) (e : PyExn) (a : Falco.Agent Ext) :
  type_of e <> TNotte InvalidActionIDError ->
  SafeExecutor.call_handler (Falco.step_executor X config) e a = (Ret tt, a).
Proof.
  intros Hne. unfold SafeExecutor.call_handler. cbn.
  destruct (decide _) as [Heq | _]; [contradiction | reflexivity].
Qed.

(** The status returned for an operation error that has no handler. *)
Lemma step_executor_failure_status {Ext : Type} (X : Falco.Externals Ext)
    (config : Config.FalcoAgentConfig) (action : Actions.BaseAction)
    (st : Falco.State Ext) (e : PyExn) (a1 : Falco.Agent Ext) :
  Falco.execute_action X action (SafeExecutor.world st) = (Raise e, a1) ->
  type_of e <> TNotte InvalidActionIDError ->
  SafeExecutor.consecutive_failures st + 1 < Config.max_consecutive_failures config ->
  Config.raise_condition config <> Config.IMMEDIATELY ->
  Falco.step_executor_execute X config action st =
    (Ret {| SafeExecutor.input := action;
            SafeExecutor.output := None;
            SafeExecutor.success := false;
            SafeExecutor.message :=
              SafeExecutor.error_message (Falco.step_executor X config) e;
            SafeExecutor.should_rerun_step_agent := true |},
     {| SafeExecutor.consecutive_failures := SafeExecutor.consecutive_failures st + 1;
        SafeExecutor.world := a1 |}).
Proof.
  intros Hop Htype Hlt Hlenient.
  pose proof (step_executor_lenient X config Hlenient) as Hraise.
  unfold Falco.step_executor_execute.
  rewrite (returned_failure (Falco.str_action X) (Falco.step_executor X config)
             action st e a1 a1).
  - cbn [SafeExecutor.max_consecutive_failures Falco.step_executor].
    destruct (Z.leb_spec (SafeExecutor.consecutive_failures st + 1)
                (Config.max_consecutive_failures config)); [reflexivity | lia].
  - exact (step_executor_attempt_raises _ _ _ _ _ _ Hop).
  - apply step_executor_no_handler, Htype.
  - exact Hlt.
  - exact Hraise.
Qed.

(** X11.  An action whose execution raises an error of another class than
    [InvalidActionIDError], below the ceiling and with a raise condition
    other than [IMMEDIATELY]: [execute] returns a failure status that asks
    for a rerun, whose message is the one classified for the error (the
    agent message of a [NotteBaseError]); the conversation is as the
    operation left it, since no handler runs. *)
Theorem operation_error_asks_rerun {Ext : Type} (X : Falco.Externals Ext)
    (config : Config.FalcoAgentConfig) (action : Actions.BaseAction)
    (st : Falco.State Ext) (e : PyExn) (a1 : Falco.Agent Ext) :
  Falco.execute_action X action (SafeExecutor.world st) = (Raise e, a1) ->
  type_of e <> TNotte InvalidActionIDError ->
  SafeExecutor.consecutive_failures st + 1 < Config.max_consecutive_failures config ->
  Config.raise_condition config <> Config.IMMEDIATELY ->
  Falco.step_executor_execute X config action st =
    (Ret {| SafeExecutor.input := action;
            SafeExecutor.output := None;
            SafeExecutor.success := false;
            SafeExecutor.message :=
              SafeExecutor.error_message (Falco.step_executor X config) e;
            SafeExecutor.should_rerun_step_agent := true |},
     {| SafeExecutor.consecutive_failures := SafeExecutor.consecutive_failures st + 1;
        SafeExecutor.world := a1 |}) /\
  Falco.conv a1 = Falco.conv (SafeExecutor.world st) /\
  (forall cls msgs,
     e = NotteBaseError cls msgs ->
     SafeExecutor.error_message (Falco.step_executor X config) e = agent_message msgs).
Proof.
  intros Hop Htype Hlt Hlenient.
  pose proof (step_executor_lenient X config Hlenient) as Hraise.
  split; [| split].
  - exact (step_executor_failure_status X config action st e a1 Hop Htype Hlt Hlenient).
  - unfold Falco.execute_action in Hop.
    assert (forall A (m : M Ext A) a r a',
               Falco.call m a = (r, a') -> Falco.conv a' = Falco.conv a) as Hcall.
    { intros A m a r a'. unfold Falco.call. destruct (m (Falco.ext a)).
      intros [= <- <-]. reflexivity. }
    destruct (Falco.vault X) as [v |]; [| exact (Hcall _ _ _ _ _ Hop)].
    destruct (Falco.contains_credentials v action); [| exact (Hcall _ _ _ _ _ Hop)].
    unfold bind in Hop.
    destruct (Falco.call (Falco.replace v action) (SafeExecutor.world st))
      as [[action' | e0 | ] a0] eqn:Hrep.
    + rewrite (Hcall _ _ _ _ _ Hop). exact (Hcall _ _ _ _ _ Hrep).
    + injection Hop as <- <-. exact (Hcall _ _ _ _ _ Hrep).
    + discriminate.
  - intros cls msgs ->. cbn [SafeExecutor.error_message]. now rewrite Hraise.
Qed.

Lemma operation_error_asks_rerun_witness :
  let config := Demo.demo_config Config.RETRY Config.SHORT_OBSERVATIONS 5 in
  fst (Falco.step_executor_execute Demo.stubborn config (Actions.Action "B1" "")
         (Demo.start Demo.empty_script [])) =
  Ret {| SafeExecutor.input := Actions.Action "B1" "";
         SafeExecutor.output := None;
         SafeExecutor.success := false;
         SafeExecutor.message := "An unexpected error occurred: page did not load";
         SafeExecutor.should_rerun_step_agent := true |}.
Proof.
  cbv zeta.
  rewrite (proj1 (operation_error_asks_rerun Demo.stubborn
                    (Demo.demo_config Config.RETRY Config.SHORT_OBSERVATIONS 5)
                    (Actions.Action "B1" "") (Demo.start Demo.empty_script [])
                    (PyException "TimeoutError" "page did not load")
                    (SafeExecutor.world (Demo.start Demo.empty_script []))
                    eq_refl ltac:(discriminate) ltac:(cbn; lia) ltac:(discriminate))).
  reflexivity.
Defined.

(** X12.  When the operation itself raises [InvalidActionIDError], the
    registered handler runs: below the ceiling and with a raise condition
    other than [IMMEDIATELY], [execute] returns a failure status that asks
    for a rerun, and the agent message of the error has been added to the
    conversation as a user message. *)
Theorem invalid_action_error_is_handled {Ext : Type} (X : Falco.Externals Ext)
    (config : Config.FalcoAgentConfig) (action : Actions.BaseAction)
    (st : Falco.State Ext) (msgs : NotteMessages) (a1 : Falco.Agent Ext) :
  Falco.execute_action X action (SafeExecutor.world st) =
    (Raise (NotteBaseError InvalidActionIDError msgs), a1) ->
  SafeExecutor.consecutive_failures st + 1 < Config.max_consecutive_failures config ->
  Config.raise_condition config <> Config.IMMEDIATELY ->
  Falco.step_executor_execute X config action st =
  (Ret {| SafeExecutor.input := action;
          SafeExecutor.output := None;
          SafeExecutor.success := false;
          SafeExecutor.message := agent_message msgs;
          SafeExecutor.should_rerun_step_agent := true |},
   {| SafeExecutor.consecutive_failures := SafeExecutor.consecutive_failures st + 1;
      SafeExecutor.world :=
        Falco.set_conv
          (Conversation.add_user_message (Falco.count_tokens X)
             (Config.max_history_tokens config) (agent_message msgs) None (Falco.conv a1))
          a1 |}).
Proof.
  intros Hop Hlt Hlenient.
  pose proof (step_executor_lenient X config Hlenient) as Hraise.
  unfold Falco.step_executor_execute.
  rewrite (returned_failure (Falco.str_action X) (Falco.step_executor X config)
             action st (NotteBaseError InvalidActionIDError msgs) a1
             (Falco.set_conv
                (Conversation.add_user_message (Falco.count_tokens X)
                   (Config.max_history_tokens config) (agent_message msgs) None
                   (Falco.conv a1)) a1)).
  - cbn [SafeExecutor.max_consecutive_failures Falco.step_executor
         SafeExecutor.error_message].
    rewrite Hraise.
    destruct (Z.leb_spec (SafeExecutor.consecutive_failures st + 1)
                (Config.max_consecutive_failures config)); [reflexivity | lia].
  - exact (step_executor_attempt_raises _ _ _ _ _ _ Hop).
  - unfold SafeExecutor.call_handler. cbn.
    destruct (decide _) as [_ | Hne]; [reflexivity | contradiction].
  - exact Hlt.
  - exact Hraise.
Qed.

Lemma invalid_action_error_is_handled_witness :
  let config := Demo.demo_config Config.RETRY Config.SHORT_OBSERVATIONS 5 in
  let msgs := {| dev_message := "unknown id"; user_message := "unknown id";
                 agent_message := "Action X9 does not exist, pick one of B1" |} in
  let outcome :=
    Falco.step_executor_execute Demo.scripted config (Actions.Action "X9" "")
      (Demo.start {| Demo.llm_replies := [];
                     Demo.act_results := [Raise (NotteBaseError InvalidActionIDError msgs)];
                     Demo.verdicts := []; Demo.seen := [] |} []) in
  SafeExecutor.message
    {| SafeExecutor.input := Actions.Action "X9" "";
       SafeExecutor.output := @None Observation.Observation;
       SafeExecutor.success := false;
       SafeExecutor.message := agent_message msgs;
       SafeExecutor.should_rerun_step_agent := true |} =
    "Action X9 does not exist, pick one of B1" /\
  map Conversation.content (Falco.conv (SafeExecutor.world (snd outcome))) =
    ["Action X9 does not exist, pick one of B1"].
Proof.
  cbv zeta.
  rewrite (invalid_action_error_is_handled Demo.scripted
             (Demo.demo_config Config.RETRY Config.SHORT_OBSERVATIONS 5)
             (Actions.Action "X9" "")
             (Demo.start
                {| Demo.llm_replies := [];
                   Demo.act_results :=
                     [Raise (NotteBaseError InvalidActionIDError
                               {| dev_message := "unknown id";
                                  user_message := "unknown id";
                                  agent_message :=
                                    "Action X9 does not exist, pick one of B1" |})];
                   Demo.verdicts := []; Demo.seen := [] |} [])
             {| dev_message := "unknown id"; user_message := "unknown id";
                agent_message := "Action X9 does not exist, pick one of B1" |}
             (SafeExecutor.world (Demo.start Demo.empty_script []))
             eq_refl ltac:(cbn; lia) ltac:(discriminate)).
  split; reflexivity.
Defined.

(** * Reruns with two actions per step *)

Section EndlessReruns.
Context {Ext : Type}.
Variable X : Falco.Externals Ext.
Variable config : Config.FalcoAgentConfig.
Variable response : Types.StepAgentOutput.
Variables good bad : Actions.BaseAction.
Variable e : PyExn.

Hypothesis compressed : Config.history_type config = Config.COMPRESSED.
Hypothesis no_vault : Falco.vault X = None.
Hypothesis no_callback : Falco.step_callback X = None.
Hypothesis same_reply :
  forall msgs x, exists x', Falco.structured_completion X msgs x = (Ret response, x').
Hypothesis no_completion : Types.output response = None.
Hypothesis two_actions :
  Types.get_actions response (Config.max_actions_per_step config) = [good; bad].
Hypothesis good_works : forall x, exists obs x', Falco.env_act X good x = (Ret obs, x').
Hypothesis bad_fails : forall x, exists x', Falco.env_act X bad x = (Raise e, x').
Hypothesis other_class : type_of e <> TNotte InvalidActionIDError.
Hypothesis room : 2 <= Config.max_consecutive_failures config.
Hypothesis lenient : Config.raise_condition config <> Config.IMMEDIATELY.

Lemma execute_action_plain (action : Actions.BaseAction) (a : Falco.Agent Ext) :
  Falco.execute_action X action a = Falco.call (Falco.env_act X action) a.
Proof. unfold Falco.execute_action. now rewrite no_vault. Qed.

Lemma endless_step (task : string) (fuel : nat) :
  forall st : Falco.State Ext, fst (Falco.step X config fuel task st) = Timeout.
Proof.
  induction fuel as [| fuel IH]; intros st; [reflexivity |].
  unfold Falco.step in *. cbn [Falco.step_with].
  destruct (get_messages_compressed X config task (SafeExecutor.world st) compressed no_vault)
    as (msgs & c & Hm).
  unfold bind at 1. unfold SafeExecutor.lift at 1. rewrite Hm.
  destruct (same_reply msgs (Falco.ext (Falco.set_conv c (SafeExecutor.world st))))
    as (x1 & Hllm).
  unfold bind at 1. unfold SafeExecutor.lift at 1, Falco.call at 1.
  cbn [SafeExecutor.world SafeExecutor.consecutive_failures]. rewrite Hllm.
  rewrite no_callback, no_completion, two_actions.
  unfold bind at 1. cbn [SafeExecutor.lift ret].
  unfold bind at 1. cbn [SafeExecutor.lift Falco.trajectory_add_output modify
                         SafeExecutor.world SafeExecutor.consecutive_failures].
  cbn [Falco.step_actions].
  set (s1 := {| SafeExecutor.consecutive_failures := _; SafeExecutor.world := _ |}).
  destruct (good_works (Falco.ext (SafeExecutor.world s1))) as (obs & x2 & Hgood).
  unfold bind at 1.
  rewrite (step_executor_runs_operation X config good s1 obs
             {| Falco.conv := Falco.conv (SafeExecutor.world s1);
                Falco.trajectory := Falco.trajectory (SafeExecutor.world s1);
                Falco.log := Falco.log (SafeExecutor.world s1);
                Falco.ext := x2 |})
    by (rewrite execute_action_plain; unfold Falco.call; now rewrite Hgood).
  cbn [SafeExecutor.should_rerun_step_agent SafeExecutor.success negb].
  unfold bind at 1. cbn [SafeExecutor.lift Falco.trajectory_add_step modify
                         SafeExecutor.world SafeExecutor.consecutive_failures].
  set (s2 := {| SafeExecutor.consecutive_failures := 0; SafeExecutor.world := _ |}).
  destruct (bad_fails (Falco.ext (SafeExecutor.world s2))) as (x3 & Hbad).
  unfold bind at 1.
  rewrite (step_executor_failure_status X config bad s2 e
             {| Falco.conv := Falco.conv (SafeExecutor.world s2);
                Falco.trajectory := Falco.trajectory (SafeExecutor.world s2);
                Falco.log := Falco.log (SafeExecutor.world s2);
                Falco.ext := x3 |}
             ltac:(rewrite execute_action_plain; unfold Falco.call; now rewrite Hbad)
             other_class ltac:(cbn; lia) lenient).
  cbn [SafeExecutor.should_rerun_step_agent].
  unfold bind at 1. cbn [SafeExecutor.lift Falco.logger modify].
  apply IH.
Qed.
End EndlessReruns.

(** X13.  With two actions per step the reruns are not bounded by the
    ceiling.  Let the reasoning engine always propose [good] then [bad],
    [good] always work and [bad] always raise an error without handler, with
    a ceiling of at least 2 and the compressed history: the success of
    [good] resets the counter before each failure of [bad], so every call of
    [step] calls [step] again, and however deep the recursion is allowed to
    go the call has not returned. *)
Theorem two_actions_rerun_forever {Ext : Type} (X : Falco.Externals Ext)
    (config : Config.FalcoAgentConfig) (response : Types.StepAgentOutput)
    (good bad : Actions.BaseAction) (e : PyExn) (task : string) :
  Config.history_type config = Config.COMPRESSED ->
  Falco.vault X = None ->
  Falco.step_callback X = None ->
  (forall msgs x, exists x', Falco.structured_completion X msgs x = (Ret response, x')) ->
  Types.output response = None ->
  Types.get_actions response (Config.max_actions_per_step config) = [good; bad] ->
  (forall x, exists obs x', Falco.env_act X good x = (Ret obs, x')) ->
  (forall x, exists x', Falco.env_act X bad x = (Raise e, x')) ->
  type_of e <> TNotte InvalidActionIDError ->
  2 <= Config.max_consecutive_failures config ->
  Config.raise_condition config <> Config.IMMEDIATELY ->
  forall (fuel : nat) (st : Falco.State Ext),
    fst (Falco.step X config fuel task st) = Timeout.
Proof.
  intros H1 H2 H3 H4 H5 H6 H7 H8 H9 H10 H11 fuel st.
  exact (endless_step X config response good bad e H1 H2 H3 H4 H5 H6 H7 H8 H9 H10 H11
           task fuel st).
Qed.

Lemma two_actions_rerun_forever_witness :
  fst (Falco.step Demo.alternating Demo.two_actions_config 50 "find X"
         (Demo.start Demo.empty_script [])) = Timeout.
Proof.
  refine (two_actions_rerun_forever Demo.alternating Demo.two_actions_config
            Demo.two_actions_reply (Actions.Action "good" "") (Actions.Action "bad" "")
            (PyException "TimeoutError" "page did not load") "find X"
            _ _ _ _ _ _ _ _ _ _ _ 50%nat (Demo.start Demo.empty_script [])).
  - reflexivity.
  - reflexivity.
  - reflexivity.
  - intros msgs x. exists x. reflexivity.
  - reflexivity.
  - reflexivity.
  - intros x. eexists. exists x. reflexivity.
  - intros x. exists x. reflexivity.
  - discriminate.
  - cbn. lia.
  - discriminate.
Defined.

(** * More of [run] and [_run] *)

(** X14.  However a call of [run] ends (a response, an exception, or
    still running), the loop of [_run] has made at most [max_steps] passes,
    so [step] has been called from it at most [max_steps] times. *)
Theorem run_passes_bounded {Ext : Type} (X : Falco.Externals Ext)
    (config : Config.FalcoAgentConfig) (fuel : nat) (task : string) (url : option string)
    (st st' : Falco.State Ext) (r : Outcome Falco.AgentResponse) :
  Falco.run X config fuel task url st = (r, st') ->
  (Falco.steps_logged (Falco.log (SafeExecutor.world st')) <=
   Falco.steps_logged (Falco.log (SafeExecutor.world st))
   + Z.to_nat (Config.max_steps config))%nat.
Proof.
  unfold Falco.run. unfold bind. cbn [SafeExecutor.lift Falco.logger modify].
  set (st0 := {| SafeExecutor.consecutive_failures := _; SafeExecutor.world := _ |}).
  assert (Falco.steps_logged (Falco.log (SafeExecutor.world st0)) =
          Falco.steps_logged (Falco.log (SafeExecutor.world st))) as H0.
  { subst st0. cbn. unfold Falco.steps_logged. rewrite List.filter_app, length_app.
    cbn. lia. }
  destruct (Falco._run X config fuel task url st0) as [r1 s1] eqn:Hrun.
  pose proof (_run_bound X config _ _ _ _ _ _ Hrun) as Hb.
  destruct r1 as [resp | e | ].
  - intros [= <- <-]. lia.
  - destruct (decide _).
    + rewrite output_eq. intros [= <- <-]. lia.
    + intros [= <- <-]. lia.
  - intros [= <- <-]. lia.
Qed.

Lemma run_passes_bounded_witness :
  (Falco.steps_logged
     (Falco.log (SafeExecutor.world
        (snd (Falco.run Demo.stubborn
                (Demo.demo_config Config.NEVER Config.SHORT_OBSERVATIONS 5) 4 "find X" None
                (Demo.start Demo.empty_script []))))) <= 0 + 5)%nat.
Proof.
  apply (run_passes_bounded Demo.stubborn
           (Demo.demo_config Config.NEVER Config.SHORT_OBSERVATIONS 5) 4 "find X" None
           (Demo.start Demo.empty_script []) _
           (fst (Falco.run Demo.stubborn
                   (Demo.demo_config Config.NEVER Config.SHORT_OBSERVATIONS 5) 4 "find X"
                   None (Demo.start Demo.empty_script [])))).
  apply surjective_pairing.
Defined.

(** X15.  With a budget of zero steps or less the loop of [_run] is
    empty: once the environment has been entered and left, [_run] returns
    the failed response for the budget without any reasoning call, any
    action or any change to the trajectory, whatever the bound on the
    recursion of [step]. *)
Theorem empty_budget_fails_at_once {Ext : Type} (X : Falco.Externals Ext)
    (config : Config.FalcoAgentConfig) (fuel : nat) (task : string) (url : option string)
    (st : Falco.State Ext) (x1 x2 : Ext) :
  Config.max_steps config <= 0 ->
  Falco.env_aenter X (Falco.ext (SafeExecutor.world st)) = (Ret tt, x1) ->
  Falco.env_aexit X x1 = (Ret tt, x2) ->
  Falco._run X config fuel task url st =
  (Ret {| Falco.answer :=
            "Failed to solve task in " +:+ str_int (Config.max_steps config) +:+ " steps";
          Falco.success := false;
          Falco.env_trajectory := Falco.env_trajectory_of X x2;
          Falco.agent_trajectory := Falco.trajectory (SafeExecutor.world st);
          Falco.messages := Falco.conv (SafeExecutor.world st) |},
   {| SafeExecutor.consecutive_failures := SafeExecutor.consecutive_failures st;
      SafeExecutor.world :=
        {| Falco.conv := Falco.conv (SafeExecutor.world st);
           Falco.trajectory := Falco.trajectory (SafeExecutor.world st);
           Falco.log :=
             Falco.log (SafeExecutor.world st)
             ++ [Falco.LogBudget
                   ("Failed to solve task in " +:+ str_int (Config.max_steps config)
                    +:+ " steps")];
           Falco.ext := x2 |} |}).
Proof.
  intros Hzero Henter Hexit. unfold Falco._run. unfold bind at 1.
  unfold SafeExecutor.lift at 1, Falco.call at 1. rewrite Henter. cbv zeta.
  assert (Falco.range (Config.max_steps config) = []) as ->.
  { unfold Falco.range. replace (Z.to_nat (Config.max_steps config)) with 0%nat by lia.
    reflexivity. }
  cbn [Falco.run_loop ret]. unfold SafeExecutor.lift at 1, Falco.call at 1.
  cbn [SafeExecutor.world SafeExecutor.consecutive_failures Falco.ext].
  rewrite Hexit. unfold bind. cbn [SafeExecutor.lift Falco.logger modify].
  rewrite output_eq. reflexivity.
Qed.

Lemma empty_budget_fails_at_once_witness :
  let outcome :=
    Falco._run Demo.scripted (Demo.demo_config Config.RETRY Config.SHORT_OBSERVATIONS (-3))
      0 "find X" None (Demo.start Demo.empty_script []) in
  option_map Falco.answer
    (match fst outcome with Ret r => Some r | _ => None end) =
  Some "Failed to solve task in -3 steps".
Proof.
  cbv zeta.
  rewrite (empty_budget_fails_at_once Demo.scripted
             (Demo.demo_config Config.RETRY Config.SHORT_OBSERVATIONS (-3)) 0 "find X" None
             (Demo.start Demo.empty_script []) Demo.empty_script Demo.empty_script
             ltac:(cbn; lia) eq_refl eq_refl).
  reflexivity.
Defined.

(** With a raise condition other than [NEVER], an exception that
    escapes [_run] escapes [run] unchanged; and whatever the raise
    condition, a response that [_run] returns is what [run] returns. *)
Theorem run_propagates {Ext : Type} (X : Falco.Externals Ext)
    (config : Config.FalcoAgentConfig) (fuel : nat) (task : string) (url : option string)
    (st st' : Falco.State Ext) :
  let st0 := snd (SafeExecutor.lift (Falco.logger (Falco.LogRunningTask task)) st) in
  (forall e,
     Config.raise_condition config <> Config.NEVER ->
     Falco._run X config fuel task url st0 = (Raise e, st') ->
     Falco.run X config fuel task url st = (Raise e, st')) /\
  (forall r,
     Falco._run X config fuel task url st0 = (Ret r, st') ->
     Falco.run X config fuel task url st = (Ret r, st')).
Proof.
  cbv zeta. unfold Falco.run, bind. cbn [SafeExecutor.lift Falco.logger modify snd].
  split.
  - intros e Hne Hrun. rewrite Hrun.
    destruct (decide _) as [Heq | _]; [contradiction | reflexivity].
  - intros r Hrun. rewrite Hrun. reflexivity.
Qed.

Lemma run_propagates_witness :
  fst (Falco.run Demo.stubborn (Demo.demo_config Config.RETRY Config.SHORT_OBSERVATIONS 5)
         4 "find X" None (Demo.start Demo.empty_script [])) =
  Raise (mk_MaxConsecutiveFailuresError 3).
Proof.
  rewrite (proj1 (run_propagates Demo.stubborn
                    (Demo.demo_config Config.RETRY Config.SHORT_OBSERVATIONS 5)
                    4 "find X" None (Demo.start Demo.empty_script [])
                    (snd (Falco._run Demo.stubborn
                            (Demo.demo_config Config.RETRY Config.SHORT_OBSERVATIONS 5)
                            4 "find X" None
                            (snd (SafeExecutor.lift
                                    (Falco.logger (Falco.LogRunningTask "find X"))
                                    (Demo.start Demo.empty_script []))))))
             (mk_MaxConsecutiveFailuresError 3) ltac:(discriminate)
             ltac:(vm_compute; reflexivity)).
  reflexivity.
Defined.

(** X17.  The environment is left on the way out of [_run] also when the
    loop raises, and an exception raised on leaving takes the place of
    whatever the loop produced, a response included. *)
Theorem environment_is_left {Ext : Type} (X : Falco.Externals Ext)
    (config : Config.FalcoAgentConfig) (fuel : nat) (task : string) (url : option string)
    (st st1 st2 : Falco.State Ext) (block : Outcome (option Falco.AgentResponse)) :
  SafeExecutor.lift (Falco.call (Falco.env_aenter X)) st = (Ret tt, st1) ->
  Falco.run_loop X config fuel (Falco.task_with_url task url)
    (Falco.range (Config.max_steps config)) st1 = (block, st2) ->
  block <> Timeout ->
  (forall e x3,
     block = Raise e ->
     Falco.env_aexit X (Falco.ext (SafeExecutor.world st2)) = (Ret tt, x3) ->
     fst (Falco._run X config fuel task url st) = Raise e /\
     Falco.ext (SafeExecutor.world (snd (Falco._run X config fuel task url st))) = x3) /\
  (forall e' x3,
     Falco.env_aexit X (Falco.ext (SafeExecutor.world st2)) = (Raise e', x3) ->
     fst (Falco._run X config fuel task url st) = Raise e' /\
     Falco.ext (SafeExecutor.world (snd (Falco._run X config fuel task url st))) = x3).
Proof.
  intros Henter Hloop Hblock.
  assert (forall rx x3,
            Falco.env_aexit X (Falco.ext (SafeExecutor.world st2)) = (rx, x3) ->
            SafeExecutor.lift (Falco.call (Falco.env_aexit X)) st2 =
            (rx, {| SafeExecutor.consecutive_failures := SafeExecutor.consecutive_failures st2;
                    SafeExecutor.world :=
                      {| Falco.conv := Falco.conv (SafeExecutor.world st2);
                         Falco.trajectory := Falco.trajectory (SafeExecutor.world st2);
                         Falco.log := Falco.log (SafeExecutor.world st2);
                         Falco.ext := x3 |} |})) as Hlift.
  { intros rx x3 Hexit. unfold SafeExecutor.lift, Falco.call. now rewrite Hexit. }
  split.
  - intros e x3 -> Hexit.
    assert (Falco._run X config fuel task url st =
            (Raise e,
             {| SafeExecutor.consecutive_failures := SafeExecutor.consecutive_failures st2;
                SafeExecutor.world :=
                  {| Falco.conv := Falco.conv (SafeExecutor.world st2);
                     Falco.trajectory := Falco.trajectory (SafeExecutor.world st2);
                     Falco.log := Falco.log (SafeExecutor.world st2);
                     Falco.ext := x3 |} |})) as ->.
    { unfold Falco._run. unfold bind at 1. rewrite Henter. cbv zeta.
      rewrite Hloop, (Hlift _ _ Hexit). reflexivity. }
    split; reflexivity.
  - intros e' x3 Hexit.
    assert (Falco._run X config fuel task url st =
            (Raise e',
             {| SafeExecutor.consecutive_failures := SafeExecutor.consecutive_failures st2;
                SafeExecutor.world :=
                  {| Falco.conv := Falco.conv (SafeExecutor.world st2);
                     Falco.trajectory := Falco.trajectory (SafeExecutor.world st2);
                     Falco.log := Falco.log (SafeExecutor.world st2);
                     Falco.ext := x3 |} |})) as ->.
    { unfold Falco._run. unfold bind at 1. rewrite Henter. cbv zeta.
      rewrite Hloop, (Hlift _ _ Hexit).
      destruct block as [[r |] | e | ]; [reflexivity.. | contradiction]. }
    split; reflexivity.
Qed.

(** The fatal error of the stubborn world leaves [_run] after the
    environment has been left; in the leaky world the error on leaving
    replaces the response for an accepted completion. *)
Lemma environment_is_left_witness :
  let retry := Demo.demo_config Config.RETRY Config.SHORT_OBSERVATIONS 5 in
  fst (Falco._run Demo.stubborn retry 4 "find X" None (Demo.start Demo.empty_script [])) =
    Raise (mk_MaxConsecutiveFailuresError 3) /\
  fst (Falco.run_loop Demo.leaky retry 1 "find X" (Falco.range 5)
         (Demo.start Demo.accepted_script [])) =
    Ret (Some {| Falco.answer := "42"; Falco.success := true;
                 Falco.env_trajectory := [Demo.page "home" ["B1"]];
                 Falco.agent_trajectory :=
                   [{| Trajectory.agent_response := Demo.reply_done true "42";
                       Trajectory.results := [] |}];
                 Falco.messages :=
                   Falco.conv (SafeExecutor.world
                     (snd (Falco.run_loop Demo.leaky retry 1 "find X" (Falco.range 5)
                             (Demo.start Demo.accepted_script [])))) |}) /\
  fst (Falco._run Demo.leaky retry 1 "find X" None (Demo.start Demo.accepted_script [])) =
    Raise (PyException "RuntimeError" "browser already closed").
Proof.
  cbv zeta. split; [| split].
  - refine (proj1 (proj1 (environment_is_left Demo.stubborn
              (Demo.demo_config Config.RETRY Config.SHORT_OBSERVATIONS 5) 4 "find X" None
              (Demo.start Demo.empty_script []) (Demo.start Demo.empty_script [])
              (snd (Falco.run_loop Demo.stubborn
                      (Demo.demo_config Config.RETRY Config.SHORT_OBSERVATIONS 5) 4
                      "find X" (Falco.range 5) (Demo.start Demo.empty_script [])))
              (Raise (mk_MaxConsecutiveFailuresError 3)) eq_refl _ _)
              (mk_MaxConsecutiveFailuresError 3) _ eq_refl eq_refl)).
    + vm_compute. reflexivity.
    + discriminate.
  - vm_compute. reflexivity.
  - refine (proj1 (proj2 (environment_is_left Demo.leaky
              (Demo.demo_config Config.RETRY Config.SHORT_OBSERVATIONS 5) 1 "find X" None
              (Demo.start Demo.accepted_script []) (Demo.start Demo.accepted_script [])
              (snd (Falco.run_loop Demo.leaky
                      (Demo.demo_config Config.RETRY Config.SHORT_OBSERVATIONS 5) 1
                      "find X" (Falco.range 5) (Demo.start Demo.accepted_script [])))
              (fst (Falco.run_loop Demo.leaky
                      (Demo.demo_config Config.RETRY Config.SHORT_OBSERVATIONS 5) 1
                      "find X" (Falco.range 5) (Demo.start Demo.accepted_script [])))
              eq_refl _ _)
              (PyException "RuntimeError" "browser already closed") _ eq_refl)).
    + apply surjective_pairing.
    + vm_compute. discriminate.
Defined.

(** * [AgentConfig]: the validator of [env] and the arguments of [from_args] *)

Section SetEnvFacts.
Context {V : Type}.
Variable truthy : V -> bool.
Variable default_env : V.

Local Abbreviation set_env := (AgentConfig.set_env V truthy default_env).
Local Abbreviation refused :=
  (@Raise (gmap string V)
     (PyException "ValueError"
        "Env should not be set by the user. Set `default_env` instead.")).

Lemma set_env_cases (values d : gmap string V) :
  set_env values = Ret d ->
  (values !! "env" = None /\ d = <["env" := default_env]> values) \/
  (is_Some (values !! "env") /\
   (exists v, values !! "force_env" = Some v /\ truthy v = true) /\
   d = delete "force_env" values).
Proof.
  unfold AgentConfig.set_env. destruct (decide _) as [Henv | Hno].
  - destruct (values !! "force_env") as [v |] eqn:Hf; [| discriminate].
    destruct (truthy v) eqn:Ht; [| discriminate].
    intros [= <-]. right. eauto.
  - intros [= <-]. left. split; [| reflexivity].
    destruct (values !! "env"); [exfalso; apply Hno; eauto | reflexivity].
Qed.

Lemma set_env_refuses (values : gmap string V) :
  is_Some (values !! "env") ->
  (forall v, values !! "force_env" = Some v -> truthy v = false) ->
  set_env values = refused.
Proof.
  intros Henv Hforce. unfold AgentConfig.set_env.
  destruct (decide _) as [_ | Hno]; [| contradiction].
  destruct (values !! "force_env") as [v |]; [| reflexivity].
  now rewrite (Hforce v eq_refl).
Qed.
End SetEnvFacts.

(** X18.  What [set_env] returns always has the key [env]: the default
    environment when the caller gave none, the caller's own when
    [force_env] is true, in which case [force_env] is removed.  Every other
    key is passed on as it was. *)
Theorem set_env_result {V : Type} (truthy : V -> bool) (default_env : V)
    (values d : gmap string V) :
  AgentConfig.set_env V truthy default_env values = Ret d ->
  d !! "env" = Some (default (default_env) (values !! "env")) /\
  (is_Some (values !! "env") -> d !! "force_env" = None) /\
  (forall k, k <> "env" -> k <> "force_env" -> d !! k = values !! k).
Proof.
  intros Hset. destruct (set_env_cases truthy default_env _ _ Hset)
    as [[Hnone ->] | [[env Henv] [_ ->]]].
  - rewrite Hnone. cbn. repeat split.
    + apply lookup_insert_eq.
    + intros [x Hx]. discriminate.
    + intros k Hk _. now rewrite lookup_insert_ne.
  - rewrite Henv. cbn. repeat split.
    + rewrite lookup_delete_ne by discriminate. exact Henv.
    + intros _. apply lookup_delete_eq.
    + intros k _ Hk. now rewrite lookup_delete_ne.
Qed.

Lemma set_env_result_witness :
  Demo.forced_result !! "env" = Some (default true (Demo.forced_values !! "env")) /\
  (is_Some (Demo.forced_values !! "env") -> Demo.forced_result !! "force_env" = None) /\
  (forall k, k <> "env" -> k <> "force_env" ->
             Demo.forced_result !! k = Demo.forced_values !! k).
Proof.
  apply (set_env_result (fun b : bool => b) true Demo.forced_values Demo.forced_result).
  vm_compute. reflexivity.
Defined.

(** X19.  [set_env] refuses a dictionary with [env] unless [force_env] is
    true, and it does not accept its own results for long: after a result
    obtained with the caller's [env], validating that result again raises
    [ValueError]; in every case the third validation in a row raises. *)
Theorem set_env_revalidation {V : Type} (truthy : V -> bool) (default_env : V)
    (values d : gmap string V) :
  AgentConfig.set_env V truthy default_env values = Ret d ->
  let refused :=
    @Raise (gmap string V)
      (PyException "ValueError"
         "Env should not be set by the user. Set `default_env` instead.") in
  (is_Some (values !! "env") ->
   AgentConfig.set_env V truthy default_env d = refused) /\
  (forall d',
     AgentConfig.set_env V truthy default_env d = Ret d' ->
     AgentConfig.set_env V truthy default_env d' = refused).
Proof.
  intros Hset. cbv zeta.
  assert (forall v1 v2 : gmap string V,
            is_Some (v1 !! "env") ->
            AgentConfig.set_env V truthy default_env v1 = Ret v2 ->
            AgentConfig.set_env V truthy default_env v2 =
            Raise (PyException "ValueError"
                     "Env should not be set by the user. Set `default_env` instead."))
    as Hforced.
  { intros v1 v2 [env Henv] H12.
    destruct (set_env_cases truthy default_env _ _ H12) as [[Hnone _] | [_ [_ ->]]];
      [congruence |].
    apply set_env_refuses.
    - exists env. rewrite lookup_delete_ne by discriminate. exact Henv.
    - intros v. rewrite lookup_delete_eq. discriminate. }
  split.
  - intros Henv. exact (Hforced _ _ Henv Hset).
  - intros d' Hd. apply (Hforced d d'); [| exact Hd].
    destruct (set_env_cases truthy default_env _ _ Hset) as [[_ ->] | [[env Henv] [_ ->]]].
    + exists default_env. apply lookup_insert_eq.
    + exists env. rewrite lookup_delete_ne by discriminate. exact Henv.
Qed.

Lemma set_env_revalidation_witness :
  AgentConfig.set_env bool (fun b => b) true Demo.forced_result =
  Raise (PyException "ValueError"
           "Env should not be set by the user. Set `default_env` instead.").
Proof.
  apply (proj1 (set_env_revalidation (fun b : bool => b) true
                  Demo.forced_values Demo.forced_result
                  ltac:(vm_compute; reflexivity))).
  eexists. vm_compute. reflexivity.
Defined.

(** ** The keys of [from_args] *)

From Stdlib Require Import Ascii.

(** Replacing the one-character string ["-"] leaves no ["-"]. *)
Lemma replace_dash_no_dash (s : string) :
  AgentConfig.contains_char "-"%char (AgentConfig.str_replace "-" "_" s) = false.
Proof.
  unfold AgentConfig.str_replace. induction s as [| c rest IH]; [reflexivity |].
  cbn [AgentConfig.replace_from String.prefix String.length Nat.sub].
  destruct (Ascii.ascii_dec "-"%char c) as [<- | Hne].
  - destruct rest; cbn [String.prefix]; exact IH.
  - cbn [AgentConfig.contains_char]. rewrite IH, orb_false_r.
    apply Ascii.eqb_neq. exact Hne.
Qed.

(** It changes no other character, so a character that is neither ["-"]
    nor ["_"] is in the result only if it was in the string. *)
Lemma replace_dash_other_chars (a : Ascii.ascii) (s : string) :
  a <> "-"%char -> a <> "_"%char ->
  AgentConfig.contains_char a (AgentConfig.str_replace "-" "_" s) =
  AgentConfig.contains_char a s.
Proof.
  intros Hd Hu. unfold AgentConfig.str_replace.
  induction s as [| c rest IH]; [reflexivity |].
  cbn [AgentConfig.replace_from String.prefix String.length Nat.sub].
  destruct (Ascii.ascii_dec "-"%char c) as [<- | Hne].
  - replace (String.prefix "" rest) with true by (destruct rest; reflexivity).
    change ("_" +:+ AgentConfig.replace_from "-" "_" 0 rest)
      with (String "_"%char (AgentConfig.replace_from "-" "_" 0 rest)).
    cbn [AgentConfig.contains_char]. rewrite IH.
    rewrite (proj2 (Ascii.eqb_neq a "_"%char) Hu), (proj2 (Ascii.eqb_neq a "-"%char) Hd).
    reflexivity.
  - cbn [AgentConfig.contains_char]. now rewrite IH.
Qed.

(** The only string that it turns into ["task"] is ["task"]. *)
Lemma replace_dash_task (s : string) :
  AgentConfig.str_replace "-" "_" s = "task" -> s = "task".
Proof.
  assert (forall t s : string,
             AgentConfig.contains_char "_"%char t = false ->
             AgentConfig.str_replace "-" "_" s = t -> s = t) as H.
  { unfold AgentConfig.str_replace. induction t as [| a t IH]; intros s0 Ht.
    - destruct s0 as [| c rest]; [reflexivity |].
      cbn [AgentConfig.replace_from String.prefix String.length Nat.sub].
      destruct (Ascii.ascii_dec "-"%char c); [| discriminate].
      replace (String.prefix "" rest) with true by (destruct rest; reflexivity).
      discriminate.
    - cbn [AgentConfig.contains_char] in Ht. apply orb_false_elim in Ht as [Ha Ht].
      destruct s0 as [| c rest]; [discriminate |].
      cbn [AgentConfig.replace_from String.prefix String.length Nat.sub].
      destruct (Ascii.ascii_dec "-"%char c) as [<- | Hne].
      + replace (String.prefix "" rest) with true by (destruct rest; reflexivity).
        cbn [String.append]. intros [= <- _]. now rewrite Ascii.eqb_refl in Ha.
      + intros [= -> Hrest]. f_equal. exact (IH rest Ht Hrest). }
  apply H. reflexivity.
Qed.

(** A string that starts with ["env."] has a dot. *)
Lemma prefix_env_has_dot (s : string) :
  String.prefix "env." s = true -> AgentConfig.contains_char "."%char s = true.
Proof.
  destruct s as [| c1 [| c2 [| c3 [| c4 rest]]]]; cbn [String.prefix];
    repeat (destruct (Ascii.ascii_dec _ _) as [<- |]; try discriminate);
    try discriminate.
  intros _. reflexivity.
Qed.

(** Removing ["env."] from a string without dot changes nothing. *)
Lemma replace_env_no_dot (r : string) :
  AgentConfig.contains_char "."%char r = false ->
  AgentConfig.replace_from "env." "" 0 r = r.
Proof.
  induction r as [| c rest IH]; intros Hdot; [reflexivity |].
  cbn [AgentConfig.replace_from].
  destruct (String.prefix "env." (String c rest)) eqn:Hp.
  - apply prefix_env_has_dot in Hp. congruence.
  - f_equal. apply IH. cbn [AgentConfig.contains_char] in Hdot.
    now apply orb_false_elim in Hdot.
Qed.

Lemma replace_env_prefixed (r : string) :
  AgentConfig.contains_char "."%char r = false ->
  AgentConfig.str_replace "env." "" ("env." +:+ r) = r.
Proof.
  intros Hdot. unfold AgentConfig.str_replace.
  change ("env." +:+ r)
    with (String "e"%char (String "n"%char (String "v"%char (String "."%char r)))).
  cbn [AgentConfig.replace_from].
  replace (String.prefix "env."
             (String "e"%char (String "n"%char (String "v"%char (String "."%char r)))))
    with true by (cbn; destruct r; reflexivity).
  cbn [String.length Nat.sub]. apply replace_env_no_dot, Hdot.
Qed.

(** The keys of a dictionary built by a loop of guarded insertions. *)
Lemma guarded_inserts_keys {V : Type} (keep : string * V -> bool) (key : string * V -> string)
    (items : list (string * V)) (d0 : gmap string V) (k : string) :
  is_Some (foldl (fun d kv => if keep kv then <[key kv := snd kv]> d else d) d0 items !! k) ->
  is_Some (d0 !! k) \/ exists kv, In kv items /\ keep kv = true /\ key kv = k.
Proof.
  revert d0. induction items as [| kv rest IH]; intros d0; cbn [foldl].
  - auto.
  - intros Hk. apply IH in Hk as [Hk | (kv' & Hin & Hkeep & Hkey)].
    + destruct (keep kv) eqn:Hkeep; [| auto].
      destruct (decide (key kv = k)) as [<- | Hne].
      * right. exists kv. split; [left; reflexivity | auto].
      * rewrite lookup_insert_ne in Hk by exact Hne. auto.
    + right. exists kv'. split; [right; exact Hin | auto].
Qed.

(** X20.  No key of the two dictionaries that [from_args] builds holds a
    ["-"], and ["task"] is never a key of the arguments passed to the
    configuration class. *)
Theorem from_args_keys {V : Type} (items : list (string * V)) (k : string) :
  (is_Some (AgentConfig.env_args V items !! k) \/
   is_Some (AgentConfig.agent_args V items !! k) ->
   AgentConfig.contains_char "-"%char k = false) /\
  AgentConfig.agent_args V items !! "task" = None.
Proof.
  split.
  - intros [Hk | Hk]; apply guarded_inserts_keys in Hk as [[x Hx] | (kv & _ & _ & <-)];
      try (rewrite lookup_empty in Hx; discriminate); apply replace_dash_no_dash.
  - destruct (AgentConfig.agent_args V items !! "task") as [v |] eqn:Ht; [| reflexivity].
    exfalso.
    assert (is_Some (AgentConfig.agent_args V items !! "task")) as Hs by eauto.
    apply guarded_inserts_keys in Hs as [[x Hx] | (kv & _ & Hkeep & Hkey)].
    + rewrite lookup_empty in Hx. discriminate.
    + apply replace_dash_task in Hkey. rewrite Hkey in Hkeep.
      apply andb_true_iff in Hkeep as [_ Hd]. discriminate.
Qed.

(** X21.  When every key of the namespace that starts with ["env."] is
    ["env."] followed by a name without dot, as the options of
    [create_base_parser] are, the values are stored under the names without
    the prefix: no stored key has a dot, so [update_env] finds neither
    ["env.headless"] nor ["env.disable_web_security"] and is
    [_copy_and_validate] alone; [headless] and [disable_web_security] are
    not called. *)
Theorem update_env_never_toggles {V Env : Type} (truthy : V -> bool)
    (_copy_and_validate : Env -> gmap string V -> Outcome Env)
    (headless : Env -> V -> Outcome Env) (disable_web_security : Env -> Outcome Env)
    (items : list (string * V)) (env : Env) :
  (forall kv, In kv items -> AgentConfig.startswith (fst kv) "env." = true ->
     exists r, fst kv = "env." +:+ r /\ AgentConfig.contains_char "."%char r = false) ->
  (forall k, is_Some (AgentConfig.env_args V items !! k) ->
     AgentConfig.contains_char "."%char k = false) /\
  AgentConfig.update_env V truthy Env _copy_and_validate headless disable_web_security
    items env =
  _copy_and_validate env (AgentConfig.env_args V items).
Proof.
  intros Hshape.
  assert (forall k, is_Some (AgentConfig.env_args V items !! k) ->
                    AgentConfig.contains_char "."%char k = false) as Hkeys.
  { intros k Hk. apply guarded_inserts_keys in Hk as [[x Hx] | (kv & Hin & Hkeep & <-)].
    - rewrite lookup_empty in Hx. discriminate.
    - apply andb_true_iff in Hkeep as [Hstart _].
      destruct (Hshape kv Hin Hstart) as (r & -> & Hdot).
      rewrite replace_env_prefixed by exact Hdot.
      rewrite replace_dash_other_chars by discriminate. exact Hdot. }
  split; [exact Hkeys |].
  unfold AgentConfig.update_env. cbv zeta.
  assert (forall k, AgentConfig.contains_char "."%char k = true ->
                    AgentConfig.env_args V items !! k = None) as Hnone.
  { intros k Hdot. destruct (AgentConfig.env_args V items !! k) eqn:Hk; [| reflexivity].
    rewrite Hkeys in Hdot by eauto. discriminate. }
  rewrite (Hnone "env.headless" eq_refl), (Hnone "env.disable_web_security" eq_refl).
  destruct (_copy_and_validate env (AgentConfig.env_args V items)); reflexivity.
Qed.

(** Asking for a headless browser without web security on the command
    line: both requests stay fields of [_copy_and_validate]; the methods
    [headless] and [disable_web_security], which here would raise, are not
    called. *)
Lemma update_env_never_toggles_witness :
  AgentConfig.update_env bool (fun b => b) (list string)
    (fun env d => Ret (env ++ map fst (map_to_list d)))
    (fun _ _ => Raise (PyException "RuntimeError" "headless called"))
    (fun _ => Raise (PyException "RuntimeError" "disable_web_security called"))
    Demo.parsed_items [] =
  Ret ([] ++ map fst (map_to_list (AgentConfig.env_args bool Demo.parsed_items))) /\
  AgentConfig.env_args bool Demo.parsed_items !! "headless" = Some true /\
  AgentConfig.env_args bool Demo.parsed_items !! "disable_web_security" = Some true /\
  AgentConfig.agent_args bool Demo.parsed_items !! "max_history_tokens" = Some false.
Proof.
  split; [| repeat split; vm_compute; reflexivity].
  refine (proj2 (update_env_never_toggles (fun b : bool => b)
                   (fun (env : list string) d => Ret (env ++ map fst (map_to_list d)))
                   (fun _ _ => Raise (PyException "RuntimeError" "headless called"))
                   (fun _ => Raise (PyException "RuntimeError" "disable_web_security called"))
                   Demo.parsed_items [] _)).
  intros kv [<- | [<- | [<- | [<- | []]]]]; cbn [fst].
  - intros _. exists "headless". split; reflexivity.
  - intros _. exists "disable_web_security". split; reflexivity.
  - discriminate.
  - discriminate.
Defined.

(** * The playwright managers *)

Section PlaywrightFacts.
Context {Ext PlaywrightHandle Browser BrowserContext Page : Type}.
Variable D : @Playwright.Driver Ext PlaywrightHandle Browser BrowserContext Page.

Local Abbreviation Manager := (@Playwright.Manager Ext PlaywrightHandle Browser).

Lemma call_fields {A} (c : M Ext A) (m m' : Manager) (r : Outcome A) :
  Playwright.call c m = (r, m') ->
  Playwright._playwright m' = Playwright._playwright m /\
  Playwright.browser m' = Playwright.browser m /\
  Playwright.started m' = Playwright.started m.
Proof.
  unfold Playwright.call. destruct (c (Playwright.ext m)) as [r0 x].
  intros [= <- <-]. auto.
Qed.

Lemma start_cases (m m1 : Manager) :
  Playwright.start D m = (Ret tt, m1) ->
  exists p,
    Playwright._playwright m1 = Some p /\
    Playwright.browser m1 = Playwright.browser m /\
    Playwright.started m1 = Playwright.started m /\
    (Playwright._playwright m = Some p -> m1 = m).
Proof.
  unfold Playwright.start, bind, get.
  destruct (Playwright._playwright m) as [p |] eqn:Hp.
  - intros [= <-]. exists p. auto.
  - destruct (Playwright.call (Playwright.async_playwright_start D) m)
      as [[p | e | ] m0] eqn:Hc; try discriminate.
    apply call_fields in Hc as (_ & Hb & Hs).
    cbn. intros [= <-]. exists p. cbn. repeat split; [assumption.. | discriminate].
Qed.

Lemma stop_cases (m m1 : Manager) (r : Outcome unit) :
  Playwright.stop D m = (r, m1) ->
  Playwright.browser m1 = Playwright.browser m /\
  Playwright.started m1 = Playwright.started m /\
  (r = Ret tt -> Playwright._playwright m1 = None) /\
  (r <> Ret tt -> Playwright._playwright m1 = Playwright._playwright m /\
                  Playwright.is_started m = true).
Proof.
  unfold Playwright.stop, bind, get, Playwright.is_started.
  destruct (Playwright._playwright m) as [p |] eqn:Hp.
  - destruct (Playwright.call (Playwright.playwright_stop D p) m)
      as [[u | e | ] m0] eqn:Hc; apply call_fields in Hc as (Hpl & Hb & Hs).
    + cbn. intros [= <- <-]. cbn. repeat split; try assumption. congruence.
    + intros [= <- <-]. repeat split; try assumption; try discriminate. congruence.
    + intros [= <- <-]. repeat split; try assumption; try discriminate. congruence.
  - intros [= <- <-]. repeat split; auto; congruence.
Qed.
End PlaywrightFacts.

(** X22.  [start] is idempotent: after a call that returned, the manager
    is started, the property [playwright] gives the handle, and another
    [start] changes nothing and makes no call of the playwright library. *)
Theorem start_is_idempotent {Ext PlaywrightHandle Browser BrowserContext Page : Type}
    (D : @Playwright.Driver Ext PlaywrightHandle Browser BrowserContext Page)
    (m m1 : @Playwright.Manager Ext PlaywrightHandle Browser) :
  Playwright.start D m = (Ret tt, m1) ->
  Playwright.is_started m1 = true /\
  Playwright.start D m1 = (Ret tt, m1) /\
  exists p, Playwright.playwright D m1 = (Ret p, m1).
Proof.
  intros Hstart. destruct (start_cases D _ _ Hstart) as (p & Hp & _).
  unfold Playwright.is_started, Playwright.start, Playwright.playwright, bind, get.
  rewrite Hp. repeat split. exists p. reflexivity.
Qed.

Lemma start_is_idempotent_witness :
  let m1 := Demo.manager (Some 0%nat) None false ["start"] in
  Playwright.is_started m1 = true /\
  Playwright.start Demo.journal_driver m1 = (Ret tt, m1) /\
  exists p, Playwright.playwright Demo.journal_driver m1 = (Ret p, m1).
Proof.
  apply (start_is_idempotent Demo.journal_driver (Demo.manager None None false [])).
  reflexivity.
Defined.

(** X23.  After a [stop] that returned, the manager is not started, the
    property [playwright] raises [BrowserNotStartedError] and another [stop]
    changes nothing; [self.browser] is still what it was.  When [stop]
    raises, the manager stays started. *)
Theorem stop_lifecycle {Ext PlaywrightHandle Browser BrowserContext Page : Type}
    (D : @Playwright.Driver Ext PlaywrightHandle Browser BrowserContext Page)
    (m m1 : @Playwright.Manager Ext PlaywrightHandle Browser) (r : Outcome unit) :
  Playwright.stop D m = (r, m1) ->
  Playwright.browser m1 = Playwright.browser m /\
  (r = Ret tt ->
   Playwright.is_started m1 = false /\
   Playwright.stop D m1 = (Ret tt, m1) /\
   Playwright.playwright D m1 = (Raise (Playwright.BrowserNotStartedError D), m1)) /\
  (forall e, r = Raise e -> Playwright.is_started m1 = true).
Proof.
  intros Hstop. destruct (stop_cases D _ _ _ Hstop) as (Hb & _ & Hok & Hfail).
  split; [exact Hb | split].
  - intros Hr. specialize (Hok Hr).
    unfold Playwright.is_started, Playwright.stop, Playwright.playwright, bind, get.
    rewrite Hok. repeat split.
  - intros e ->. destruct Hfail as [Hp Hs]; [discriminate |].
    unfold Playwright.is_started in *. now rewrite Hp.
Qed.

Lemma stop_lifecycle_witness :
  let m1 := Demo.manager None (Some 9%nat) true ["start"; "launch"; "stop"] in
  Playwright.browser m1 = Some 9%nat /\
  Playwright.is_started m1 = false /\
  Playwright.playwright Demo.journal_driver m1 =
    (Raise (PyException "BrowserNotStartedError" ""), m1).
Proof.
  cbv zeta.
  destruct (stop_lifecycle Demo.journal_driver
              (Demo.manager (Some 0%nat) (Some 9%nat) true ["start"; "launch"])
              (Demo.manager None (Some 9%nat) true ["start"; "launch"; "stop"])
              (Ret tt) eq_refl) as (Hb & Hok & _).
  destruct (Hok eq_refl) as (Hs & _ & Hp).
  repeat split; assumption.
Defined.

(** X24.  [close_playwright_browser] raises nothing but
    [BrowserNotStartedError], and that only when there is no browser to
    close.  When closing works it returns [True] and [self.browser] is left
    as it was, still the browser just closed; when closing raises it
    returns [False] and [self.browser] is [None]. *)
Theorem close_playwright_browser_outcomes
    {Ext PlaywrightHandle Browser BrowserContext Page : Type}
    (D : @Playwright.Driver Ext PlaywrightHandle Browser BrowserContext Page)
    (arg : option Browser) (m m1 : @Playwright.Manager Ext PlaywrightHandle Browser)
    (r : Outcome bool) :
  Playwright.close_playwright_browser D arg m = (r, m1) ->
  r <> Timeout ->
  (r = Raise (Playwright.BrowserNotStartedError D) /\
   arg = None /\ Playwright.browser m = None /\ m1 = m) \/
  (r = Ret true /\ Playwright.browser m1 = Playwright.browser m) \/
  (r = Ret false /\ Playwright.browser m1 = None).
Proof.
  unfold Playwright.close_playwright_browser, bind at 1, get.
  set (target := match arg with Some b => Some b | None => Playwright.browser m end).
  destruct target as [b |] eqn:Ht.
  - unfold bind, Playwright.try_except.
    destruct (Playwright.call (Playwright.browser_close D b) m)
      as [[u | e | ] m0] eqn:Hc; apply call_fields in Hc as (_ & Hb & _); cbn.
    + intros [= <- <-] _. right. left. auto.
    + intros [= <- <-] _. right. right. auto.
    + intros [= <- <-] Hr. contradiction.
  - intros [= <- <-] _. left. subst target. destruct arg; [discriminate |]. auto.
Qed.

Lemma close_playwright_browser_outcomes_witness :
  let closes := Demo.manager (Some 0%nat) (Some 9%nat) true [] in
  let fails := Demo.manager (Some 0%nat) (Some 13%nat) true [] in
  let driver_error := Playwright.BrowserNotStartedError Demo.journal_driver in
  ((Ret true = Raise driver_error /\ @None nat = None /\
    Playwright.browser closes = None /\
    Demo.manager (Some 0%nat) (Some 9%nat) true ["close"] = closes) \/
   (Ret true = Ret true /\
    Playwright.browser (Demo.manager (Some 0%nat) (Some 9%nat) true ["close"]) =
    Playwright.browser closes) \/
   (Ret true = Ret false /\
    Playwright.browser (Demo.manager (Some 0%nat) (Some 9%nat) true ["close"]) = None)) /\
  ((Ret false = Raise driver_error /\ @None nat = None /\
    Playwright.browser fails = None /\
    Demo.manager (Some 0%nat) None true [] = fails) \/
   (Ret false = Ret true /\
    Playwright.browser (Demo.manager (Some 0%nat) None true []) =
    Playwright.browser fails) \/
   (Ret false = Ret false /\
    Playwright.browser (Demo.manager (Some 0%nat) None true []) = None)).
Proof.
  cbv zeta. split.
  - apply (close_playwright_browser_outcomes Demo.journal_driver None
             (Demo.manager (Some 0%nat) (Some 9%nat) true [])
             (Demo.manager (Some 0%nat) (Some 9%nat) true ["close"]) (Ret true));
      [reflexivity | discriminate].
  - apply (close_playwright_browser_outcomes Demo.journal_driver None
             (Demo.manager (Some 0%nat) (Some 13%nat) true [])
             (Demo.manager (Some 0%nat) None true []) (Ret false));
      [reflexivity | discriminate].
Defined.

(** X25.  A browser closed with [close_playwright_browser] is used again:
    after a call that returned [True], [get_browser_resource] launches no
    browser and opens the new context on the browser that was closed. *)
Theorem closed_browser_is_reused {Ext PlaywrightHandle Browser BrowserContext Page : Type}
    (D : @Playwright.Driver Ext PlaywrightHandle Browser BrowserContext Page)
    (m m1 : @Playwright.Manager Ext PlaywrightHandle Browser) (b : Browser)
    (o : Playwright.BrowserWindowOptions) :
  Playwright.browser m = Some b ->
  Playwright.close_playwright_browser D None m = (Ret true, m1) ->
  Playwright.browser m1 = Some b /\
  Playwright.get_browser_resource D o m1 = Playwright.open_resource D b o m1.
Proof.
  intros Hb Hclose.
  destruct (close_playwright_browser_outcomes D _ _ _ _ Hclose)
    as [(Hr & _) | [(_ & Hsame) | (Hr & _)]]; try discriminate.
  rewrite Hb in Hsame. split; [exact Hsame |].
  unfold Playwright.get_browser_resource, bind at 1, get. rewrite Hsame.
  reflexivity.
Qed.

Lemma closed_browser_is_reused_witness :
  let m1 := Demo.manager (Some 0%nat) (Some 9%nat) true ["close"] in
  Playwright.browser m1 = Some 9%nat /\
  Playwright.get_browser_resource Demo.journal_driver Demo.plain_options m1 =
  Playwright.open_resource Demo.journal_driver 9%nat Demo.plain_options m1.
Proof.
  apply (closed_browser_is_reused Demo.journal_driver
           (Demo.manager (Some 0%nat) (Some 9%nat) true [])); reflexivity.
Defined.

(** X26.  [GlobalWindowManager.close_window], whenever it returns, leaves
    the manager without browser and with [started] false, and stopped if it
    was started; an exception of [release_browser_resource] does not stop it:
    with [stop] returning, [close_window] returns. *)
Theorem close_window_resets {Ext PlaywrightHandle Browser BrowserContext Page : Type}
    (D : @Playwright.Driver Ext PlaywrightHandle Browser BrowserContext Page)
    (w : @Playwright.BrowserWindow Ext PlaywrightHandle Browser Page)
    (m : @Playwright.Manager Ext PlaywrightHandle Browser) :
  (forall m1,
     Playwright.global_close_window D w m = (Ret tt, m1) ->
     Playwright.browser m1 = None /\
     Playwright.started m1 = false /\
     (Playwright.started m = true -> Playwright.is_started m1 = false)) /\
  (forall e m0 m1,
     Playwright.started m = true ->
     Playwright.release_browser_resource D (Playwright.resource w) m = (Raise e, m0) ->
     Playwright.stop D (Playwright.set_browser None m0) = (Ret tt, m1) ->
     Playwright.global_close_window D w m =
     (Ret tt, Playwright.set_started false (Playwright.set_browser None m1))).
Proof.
  split.
  - intros m1. unfold Playwright.global_close_window, bind at 1, get.
    unfold bind at 1.
    destruct (Playwright.started m) eqn:Hs.
    + unfold bind at 1.
      destruct (Playwright.try_except _ _ m) as [[u | e | ] m0]; try discriminate.
      destruct (Playwright.stop D m0) as [[u' | e | ] m2] eqn:Hstop; try discriminate.
      destruct u'. destruct (stop_cases D _ _ _ Hstop) as (_ & _ & Hok & _).
      unfold bind, modify. intros [= <-]. cbn. repeat split.
      intros _. unfold Playwright.is_started. cbn. now rewrite (Hok eq_refl).
    + unfold bind, modify. cbn. intros [= <-]. cbn. repeat split. discriminate.
  - intros e m0 m1 Hs Hrel Hstop.
    unfold Playwright.global_close_window, bind at 1, get. rewrite Hs.
    unfold bind at 1. unfold bind at 1. unfold Playwright.try_except. rewrite Hrel.
    cbn [modify]. rewrite Hstop. reflexivity.
Qed.

Lemma close_window_resets_witness :
  let w : @Playwright.BrowserWindow (list string) nat nat nat :=
    {| Playwright.resource :=
         {| Playwright.page := 1113%nat; Playwright.options := Demo.plain_options |};
       Playwright.on_close := ret tt |} in
  Playwright.global_close_window Demo.journal_driver w
    (Demo.manager (Some 0%nat) (Some 13%nat) true []) =
  (Ret tt, Demo.manager None None false ["stop"]).
Proof.
  cbv zeta.
  apply (proj2 (close_window_resets Demo.journal_driver _
                  (Demo.manager (Some 0%nat) (Some 13%nat) true []))
           (PyException "Error" "context already closed")
           (Demo.manager (Some 0%nat) (Some 13%nat) true [])
           (Demo.manager None None true ["stop"]));
    reflexivity.
Defined.

(** X27.  [GlobalWindowManager.new_window] restarts playwright but keeps
    [self.browser]: when the manager still holds a browser, no browser is
    launched and the window is opened on that browser, made by the
    playwright instance that has just been stopped. *)
Theorem new_window_keeps_old_browser
    {Ext PlaywrightHandle Browser BrowserContext Page : Type}
    (D : @Playwright.Driver Ext PlaywrightHandle Browser BrowserContext Page)
    (o : Playwright.BrowserWindowOptions)
    (m m1 m2 : @Playwright.Manager Ext PlaywrightHandle Browser) (b : Browser) :
  Playwright.browser m = Some b ->
  Playwright.stop D m = (Ret tt, m1) ->
  Playwright.start D m1 = (Ret tt, m2) ->
  Playwright.global_new_window D o m =
  (r <- Playwright.open_resource D b o ;;
   ret {| Playwright.resource := r;
          Playwright.on_close := Playwright.release_browser_resource D r |})
    (Playwright.set_started true m2).
Proof.
  intros Hb Hstop Hstart.
  destruct (stop_cases D _ _ _ Hstop) as (Hb1 & _).
  destruct (start_cases D _ _ Hstart) as (p & _ & Hb2 & _).
  unfold Playwright.global_new_window. unfold bind at 1. rewrite Hstop.
  unfold bind at 1. rewrite Hstart. unfold bind at 1. cbn [modify].
  unfold Playwright.new_window, Playwright.get_browser_resource.
  unfold bind at 1. unfold bind at 1. unfold bind at 1. cbn [get Playwright.browser
    Playwright.set_started].
  rewrite Hb2, Hb1, Hb. reflexivity.
Qed.

Lemma new_window_keeps_old_browser_witness :
  Playwright.ext
    (snd (Playwright.global_new_window Demo.journal_driver Demo.plain_options
            (Demo.manager (Some 0%nat) (Some 9%nat) true []))) =
  ["stop"; "start"; "new_context"; "new_page"].
Proof.
  rewrite (new_window_keeps_old_browser Demo.journal_driver Demo.plain_options
             (Demo.manager (Some 0%nat) (Some 9%nat) true [])
             (Demo.manager None (Some 9%nat) true ["stop"])
             (Demo.manager (Some 1%nat) (Some 9%nat) true ["stop"; "start"])
             9%nat eq_refl eq_refl eq_refl).
  reflexivity.
Defined.

(** * The prompt library *)

Lemma collect_Forall2 {A B : Type} (body : A -> Outcome B) (l : list A) (ys : list B) :
  Prompt.collect body l = Ret ys -> Forall2 (fun x y => body x = Ret y) l ys.
Proof.
  revert ys. induction l as [| x rest IH]; intros ys; cbn [Prompt.collect].
  - intros [= <-]. constructor.
  - unfold AgentConfig.and_then. destruct (body x) as [y | e | ] eqn:Hx; try discriminate.
    destruct (Prompt.collect body rest) as [ys' | e | ]; try discriminate.
    intros [= <-]. constructor; [exact Hx | apply IH; reflexivity].
Qed.

(** The first exception of a loop is the one of some pass. *)
Lemma collect_Raise {A B : Type} (body : A -> Outcome B) (l : list A) (e : PyExn) :
  Prompt.collect body l = Raise e -> exists x, In x l /\ body x = Raise e.
Proof.
  induction l as [| x rest IH]; cbn [Prompt.collect]; [discriminate |].
  unfold AgentConfig.and_then. destruct (body x) as [y | e0 | ] eqn:Hx.
  - destruct (Prompt.collect body rest) as [ys' | e1 | ]; try discriminate.
    intros [= <-]. destruct (IH eq_refl) as (x' & Hin & Hx').
    exists x'. split; [right; exact Hin | exact Hx'].
  - intros [= <-]. exists x. split; [left; reflexivity | exact Hx].
  - discriminate.
Qed.

Section PromptFacts.
Variable Variables : Type.
Variable glob_md : string -> list string.
Variable read : string -> string -> Outcome string.
Variable render : string -> Variables -> Outcome string.
Variable str_exn : PyExn -> string.

Local Abbreviation get := (Prompt.get glob_md read).
Local Abbreviation materialize := (Prompt.materialize Variables glob_md read render str_exn).

Lemma load_Ret (prompt_id f : string) (m : Prompt.Message) :
  Prompt.load read prompt_id f = Ret m ->
  Prompt.role m = Prompt.before_dot f /\
  Prompt.valid_role (Prompt.role m) = true /\
  exists c, read prompt_id f = Ret c /\ Prompt.content m = Some c.
Proof.
  unfold Prompt.load, AgentConfig.and_then.
  destruct (read prompt_id f) as [c | e | ]; try discriminate.
  destruct (Prompt.valid_role (Prompt.before_dot f)) eqn:Hv; try discriminate.
  intros [= <-]. cbn. eauto.
Qed.

Lemma get_messages_of_files (prompt_id : string) (msgs : list Prompt.Message) :
  get prompt_id = Ret msgs ->
  glob_md prompt_id <> [] /\
  Forall2 (fun f m => Prompt.load read prompt_id f = Ret m) (glob_md prompt_id) msgs.
Proof.
  unfold Prompt.get. destruct (glob_md prompt_id) as [| f fs] eqn:Hg; [discriminate |].
  cbn [length Nat.eqb]. intros Hc. split; [discriminate |].
  apply collect_Forall2, Hc.
Qed.

Lemma as_dict_loaded (prompt_id : string) (files : list string)
    (msgs : list Prompt.Message) :
  Forall2 (fun f m => Prompt.load read prompt_id f = Ret m) files msgs ->
  exists ds,
    Prompt.collect Prompt.as_dict msgs = Ret ds /\
    map Prompt.dict_role ds = map Prompt.before_dot files /\
    Forall2 (fun f d => read prompt_id f = Ret (Prompt.dict_content d)) files ds.
Proof.
  induction 1 as [| f m files msgs Hload _ IH].
  - exists []. repeat split; constructor.
  - destruct IH as (ds & Hds & Hroles & Hcontents).
    destruct (load_Ret _ _ _ Hload) as (Hrole & _ & c & Hread & Hc).
    exists ({| Prompt.dict_role := Prompt.role m; Prompt.dict_content := c |} :: ds).
    cbn [Prompt.collect]. unfold Prompt.as_dict at 1. rewrite Hc.
    cbn [AgentConfig.and_then]. rewrite Hds. cbn. repeat split.
    + now rewrite Hrole, Hroles.
    + constructor; assumption.
Qed.

Lemma format_roles (vs : Variables) (ds ds' : list Prompt.MessageDict) :
  Prompt.collect (Prompt.format Variables render vs) ds = Ret ds' ->
  map Prompt.dict_role ds' = map Prompt.dict_role ds /\
  Forall2 (fun d d' => render (Prompt.dict_content d) vs = Ret (Prompt.dict_content d'))
    ds ds'.
Proof.
  intros Hc. apply collect_Forall2 in Hc.
  induction Hc as [| d d' ds ds' Hd _ IH].
  - split; constructor.
  - unfold Prompt.format, AgentConfig.and_then in Hd.
    destruct (render (Prompt.dict_content d) vs) as [c | e | ] eqn:Hr; try discriminate.
    injection Hd as <-. destruct IH as [IH1 IH2]. cbn. split.
    + now rewrite IH1.
    + constructor; [exact Hr | exact IH2].
Qed.
End PromptFacts.

(** X28.  The messages that [get] returns are those of the [*.md] files of
    the prompt, one per file and in their order: the role of each is the
    file name up to its first dot and is one of the five roles, the content
    is what the file holds; there is at least one. *)
Theorem get_reads_every_file (glob_md : string -> list string)
    (read : string -> string -> Outcome string)
    (prompt_id : string) (msgs : list Prompt.Message) :
  Prompt.get glob_md read prompt_id = Ret msgs ->
  msgs <> [] /\
  map Prompt.role msgs = map Prompt.before_dot (glob_md prompt_id) /\
  Forall (fun m => In (Prompt.role m) Prompt.roles) msgs /\
  Forall2 (fun f m => exists c, read prompt_id f = Ret c /\ Prompt.content m = Some c)
    (glob_md prompt_id) msgs.
Proof.
  intros Hget. destruct (get_messages_of_files glob_md read _ _ Hget) as [Hne Hall].
  split.
  - intros ->. inversion Hall as [Hnil |]. congruence.
  - clear Hget Hne. induction Hall as [| f m files ms Hload _ (IH1 & IH2 & IH3)].
    + repeat split; constructor.
    + destruct (load_Ret read _ _ _ Hload) as (Hrole & Hvalid & c & Hread & Hc).
      cbn. repeat split.
      * now rewrite Hrole, IH1.
      * constructor; [| exact IH2].
        unfold Prompt.valid_role in Hvalid. apply existsb_exists in Hvalid
          as (r & Hin & Heq). apply String.eqb_eq in Heq. now subst r.
      * constructor; [eauto | exact IH3].
Qed.

Lemma get_reads_every_file_witness :
  let msgs :=
    [ {| Prompt.role := "system"; Prompt.content := Some "You are helpful." |};
      {| Prompt.role := "user"; Prompt.content := Some "Hello {{name}}" |} ] in
  msgs <> [] /\
  map Prompt.role msgs = map Prompt.before_dot (Demo.demo_glob "greet") /\
  Forall (fun m => In (Prompt.role m) Prompt.roles) msgs /\
  Forall2 (fun f m => exists c, Demo.demo_read "greet" f = Ret c /\ Prompt.content m = Some c)
    (Demo.demo_glob "greet") msgs.
Proof.
  apply (get_reads_every_file Demo.demo_glob Demo.demo_read "greet"). reflexivity.
Defined.

(** X29.  What [materialize] returns keeps the messages of [get]: the
    same number, the same roles in the same order; without variables the
    contents are those of the files, with variables each content is the
    rendering of the content of its file. *)
Theorem materialize_keeps_messages (Variables : Type) (glob_md : string -> list string)
    (read : string -> string -> Outcome string)
    (render : string -> Variables -> Outcome string) (str_exn : PyExn -> string)
    (prompt_id : string) (variables : option Variables) (ds : list Prompt.MessageDict) :
  Prompt.materialize Variables glob_md read render str_exn prompt_id variables = Ret ds ->
  map Prompt.dict_role ds = map Prompt.before_dot (glob_md prompt_id) /\
  Forall2 (fun f d =>
             exists c, read prompt_id f = Ret c /\
               match variables with
               | None => Prompt.dict_content d = c
               | Some vs => render c vs = Ret (Prompt.dict_content d)
               end)
    (glob_md prompt_id) ds.
Proof.
  unfold Prompt.materialize, AgentConfig.and_then.
  destruct (Prompt.get glob_md read prompt_id) as [msgs | e | ] eqn:Hget; try discriminate.
  destruct (get_messages_of_files glob_md read _ _ Hget) as [_ Hall].
  destruct (as_dict_loaded read _ _ _ Hall) as (ds0 & -> & Hroles & Hcontents).
  destruct variables as [vs |].
  - destruct (Prompt.collect (Prompt.format Variables render vs) ds0)
      as [ds' | e | ] eqn:Hf; try discriminate.
    intros [= <-]. destruct (format_roles Variables render vs _ _ Hf) as [Hr Hc].
    split; [now rewrite Hr |].
    clear Hf Hr Hroles Hall Hget. revert ds' Hc.
    induction Hcontents as [| f d files ds1 Hread _ IH]; intros ds' Hc;
      inversion Hc as [| d0 d' ds2 ds3 Hd Hrest]; subst; constructor.
    + exists (Prompt.dict_content d). auto.
    + apply IH, Hrest.
  - intros [= <-]. split; [exact Hroles |].
    clear Hroles Hall Hget.
    induction Hcontents as [| f d files ds1 Hread _ IH]; constructor; [| exact IH].
    exists (Prompt.dict_content d). auto.
Qed.

Lemma materialize_keeps_messages_witness :
  let ds :=
    [ {| Prompt.dict_role := "system"; Prompt.dict_content := "You are helpful." |};
      {| Prompt.dict_role := "user"; Prompt.dict_content := "Hello Ada" |} ] in
  map Prompt.dict_role ds = map Prompt.before_dot (Demo.demo_glob "greet") /\
  Forall2 (fun f d =>
             exists c, Demo.demo_read "greet" f = Ret c /\
                       Demo.demo_render c ["Ada"] = Ret (Prompt.dict_content d))
    (Demo.demo_glob "greet") ds.
Proof.
  apply (materialize_keeps_messages (list string) Demo.demo_glob Demo.demo_read
           Demo.demo_render Demo.demo_str_exn "greet" (Some ["Ada"])).
  reflexivity.
Defined.

(** X30.  An exception that leaves [materialize] is one that [get] raised,
    or it is a [ValueError]: whatever [chevron.render] raises is turned into
    a [ValueError], with the message for a missing variable when it is a
    [KeyError]. *)
Theorem materialize_errors (Variables : Type) (glob_md : string -> list string)
    (read : string -> string -> Outcome string)
    (render : string -> Variables -> Outcome string) (str_exn : PyExn -> string)
    (prompt_id : string) (variables : option Variables) (e : PyExn) :
  Prompt.materialize Variables glob_md read render str_exn prompt_id variables = Raise e ->
  Prompt.get glob_md read prompt_id = Raise e \/
  exists (vs : Variables) (template : string) (e0 : PyExn),
    variables = Some vs /\
    render template vs = Raise e0 /\
    e = PyException "ValueError"
          (match e0 with
           | PyException "KeyError" _ => "Missing required variable in prompt template: "
           | _ => "Error formatting prompt: "
           end +:+ str_exn e0).
Proof.
  unfold Prompt.materialize, AgentConfig.and_then.
  destruct (Prompt.get glob_md read prompt_id) as [msgs | e1 | ] eqn:Hget;
    [| intros [= <-]; left; reflexivity | discriminate].
  destruct (get_messages_of_files glob_md read _ _ Hget) as [_ Hall].
  destruct (as_dict_loaded read _ _ _ Hall) as (ds0 & -> & _ & _).
  destruct variables as [vs |]; [| discriminate].
  destruct (Prompt.collect (Prompt.format Variables render vs) ds0)
    as [ds' | e0 | ] eqn:Hf; try discriminate.
  intros [= <-]. right.
  apply collect_Raise in Hf as (d & _ & Hd).
  unfold Prompt.format, AgentConfig.and_then in Hd.
  destruct (render (Prompt.dict_content d) vs) as [c | e2 | ] eqn:Hr; try discriminate.
  injection Hd as ->. exists vs, (Prompt.dict_content d), e0.
  repeat split; [exact Hr |].
  unfold Prompt.wrap_error.
  destruct e0 as [t | cls ms0 | t | cls t]; try reflexivity.
  destruct (String.eqb cls "KeyError") eqn:Hk.
  - apply String.eqb_eq in Hk. subst cls. reflexivity.
  - destruct cls as [| c1 cls]; [reflexivity |].
    repeat (match goal with
            | |- context [match ?c with Ascii.Ascii _ _ _ _ _ _ _ _ => _ end] => destruct c
            | |- context [match ?b with true => _ | false => _ end] => destruct b
            | |- context [match ?s with EmptyString => _ | String _ _ => _ end] => destruct s
            end; try reflexivity; try discriminate).
Qed.

(** * The results recorded in the trajectory *)

Lemma keeps_weaken {St A : Type} (R1 R2 : St -> St -> Prop) (m : M St A) :
  (forall s s', R1 s s' -> R2 s s') -> keeps R1 m -> keeps R2 m.
Proof. intros Hsub Hm s r s' Hrun. apply Hsub. exact (Hm s r s' Hrun). Qed.

(** [keeps_bind] when the continuation keeps the relation only for the
    values that the first computation can return. *)
Lemma keeps_bind_post {St A B : Type} (R : St -> St -> Prop) (P : A -> Prop)
    (m : M St A) (k : A -> M St B) :
  (forall s1 s2 s3, R s1 s2 -> R s2 s3 -> R s1 s3) ->
  keeps R m ->
  (forall s a s', m s = (Ret a, s') -> P a) ->
  (forall a, P a -> keeps R (k a)) ->
  keeps R (bind m k).
Proof.
  intros Htrans Hm Hpost Hk s r s'. unfold bind.
  destruct (m s) as [[a | e | ] s1] eqn:Em.
  - intros Ek. eapply Htrans; [eapply Hm, Em | eapply (Hk a), Ek].
    eapply Hpost, Em.
  - intros [= <- <-]. eapply Hm, Em.
  - intros [= <- <-]. eapply Hm, Em.
Qed.

Lemma well_formed_add_output (o : Types.StepAgentOutput)
    (t : list Trajectory.TrajectoryStep) :
  well_formed t -> well_formed (Trajectory.add_output o t).
Proof.
  unfold well_formed, Trajectory.add_output, Trajectory.all_results.
  rewrite map_app, concat_app. cbn. now rewrite !app_nil_r.
Qed.

Lemma well_formed_add_step (s : Trajectory.Status) (t : list Trajectory.TrajectoryStep) :
  readable s -> well_formed t -> well_formed (Trajectory.add_step s t).
Proof.
  intros Hs. unfold well_formed, Trajectory.all_results.
  induction t as [| x t IH]; [auto |].
  cbn [Trajectory.add_step]. destruct t as [| y t'].
  - cbn. rewrite !app_nil_r. intros Ht. apply Forall_app. split; [exact Ht |].
    constructor; [exact Hs | constructor].
  - change (map Trajectory.results (x :: y :: t'))
      with (Trajectory.results x :: map Trajectory.results (y :: t')).
    change (map Trajectory.results (x :: Trajectory.add_step s (y :: t')))
      with (Trajectory.results x :: map Trajectory.results (Trajectory.add_step s (y :: t'))).
    cbn [concat]. intros Ht. apply Forall_app in Ht as [Hx Hrest].
    apply Forall_app. split; [exact Hx | exact (IH Hrest)].
Qed.

Section WellFormed.
Context {Ext : Type}.
Variable X : Falco.Externals Ext.
Variable config : Config.FalcoAgentConfig.

Lemma same_trajectory_refl (a : Falco.Agent Ext) : same_trajectory a a.
Proof. reflexivity. Qed.

Lemma same_trajectory_trans (a1 a2 a3 : Falco.Agent Ext) :
  same_trajectory a1 a2 -> same_trajectory a2 a3 -> same_trajectory a1 a3.
Proof. unfold same_trajectory. congruence. Qed.

Lemma stays_well_formed_refl (st : Falco.State Ext) : stays_well_formed st st.
Proof. unfold stays_well_formed. auto. Qed.

Lemma stays_well_formed_trans (s1 s2 s3 : Falco.State Ext) :
  stays_well_formed s1 s2 -> stays_well_formed s2 s3 -> stays_well_formed s1 s3.
Proof. unfold stays_well_formed. auto. Qed.

Lemma call_same_trajectory {A} (m : M Ext A) :
  keeps (@same_trajectory Ext) (Falco.call m).
Proof.
  intros a r a'. unfold Falco.call. destruct (m (Falco.ext a)) as [r0 x].
  intros [= <- <-]. reflexivity.
Qed.

Lemma modify_same_trajectory (f : Falco.Agent Ext -> Falco.Agent Ext) :
  (forall a, Falco.trajectory (f a) = Falco.trajectory a) ->
  keeps (@same_trajectory Ext) (modify f).
Proof. intros Hf. apply keeps_modify. exact Hf. Qed.

Local Ltac trajectory_walk :=
  first
    [ apply (keeps_ret _ same_trajectory_refl)
    | apply (keeps_raise _ same_trajectory_refl)
    | apply (keeps_get _ same_trajectory_refl)
    | apply call_same_trajectory
    | apply modify_same_trajectory; intros; reflexivity
    | apply (keeps_bind _ same_trajectory_trans); [| intros ?]
    | apply (keeps_for_each _ same_trajectory_refl same_trajectory_trans); intros ?
    | match goal with
      | |- keeps _ (match ?x with _ => _ end) => destruct x
      end ].

Lemma get_messages_same_trajectory (task : string) :
  keeps (@same_trajectory Ext) (Falco.get_messages X config task).
Proof.
  unfold Falco.get_messages, Falco.add_result_messages, SafeExecutor.status_get,
    Falco.conv_reset, Falco.conv_add_system_message, Falco.conv_add_user_message,
    Falco.conv_add_assistant_message.
  repeat trajectory_walk.
Qed.

Lemma execute_action_same_trajectory (action : Actions.BaseAction) :
  keeps (@same_trajectory Ext) (Falco.execute_action X action).
Proof. unfold Falco.execute_action. repeat trajectory_walk. Qed.

Lemma handler_same_trajectory (e : PyExn) :
  keeps (@same_trajectory Ext) (Falco.invalid_action_id_handler X config e).
Proof.
  unfold Falco.invalid_action_id_handler, Falco.conv_add_user_message.
  repeat trajectory_walk.
Qed.

(** An operation of the agent that leaves the trajectory alone, run in the
    state of the executor. *)
Lemma lift_stays_well_formed {A} (m : M (Falco.Agent Ext) A) :
  keeps (@same_trajectory Ext) m ->
  keeps (@stays_well_formed Ext) (SafeExecutor.lift m).
Proof.
  intros Hm. eapply keeps_weaken; [| apply (lift_keeps (@same_trajectory Ext)), Hm].
  intros s s' Hsame. unfold stays_well_formed, same_trajectory in *. now rewrite Hsame.
Qed.

Lemma step_executor_stays_well_formed (action : Actions.BaseAction) :
  keeps (@stays_well_formed Ext) (Falco.step_executor_execute X config action).
Proof.
  eapply keeps_weaken;
    [| unfold Falco.step_executor_execute;
       apply (execute_keeps (@same_trajectory Ext))].
  - intros s s' Hsame. unfold stays_well_formed, same_trajectory in *. now rewrite Hsame.
  - apply same_trajectory_trans.
  - intros i a r a'. rewrite step_executor_attempt.
    apply (keeps_bind _ same_trajectory_trans);
      [apply execute_action_same_trajectory
      | intros obs; apply (keeps_ret _ same_trajectory_refl)].
  - intros e. unfold SafeExecutor.call_handler. cbn.
    destruct (decide _); [apply handler_same_trajectory |].
    apply (keeps_ret _ same_trajectory_refl).
Qed.

Lemma step_executor_readable (action : Actions.BaseAction) (st st' : Falco.State Ext)
    (result : Trajectory.Status) :
  Falco.step_executor_execute X config action st = (Ret result, st') -> readable result.
Proof.
  intros Hex. unfold readable.
  destruct (returned_status_cases _ _ _ _ _ _ Hex)
    as [(w & Ha & _) | (_ & Hs & _)]; [| congruence].
  intros _ Hnone. rewrite Hnone in Ha.
  exact (step_executor_attempt_not_None _ _ _ _ _ Ha).
Qed.

Lemma add_step_stays_well_formed (s : Trajectory.Status) :
  readable s ->
  keeps (@stays_well_formed Ext) (SafeExecutor.lift (Falco.trajectory_add_step s)).
Proof.
  intros Hs st r st'. cbn. intros [= <- <-]. unfold stays_well_formed. cbn.
  apply well_formed_add_step, Hs.
Qed.

Lemma add_output_stays_well_formed (o : Types.StepAgentOutput) :
  keeps (@stays_well_formed Ext) (SafeExecutor.lift (Falco.trajectory_add_output o)).
Proof.
  intros st r st'. cbn. intros [= <- <-]. unfold stays_well_formed. cbn.
  apply well_formed_add_output.
Qed.

Lemma step_actions_stays_well_formed
    (rerun : M (Falco.State Ext) (option Actions.CompletionAction))
    (response : Types.StepAgentOutput) (actions : list Actions.BaseAction) :
  keeps (@stays_well_formed Ext) rerun ->
  keeps (@stays_well_formed Ext)
    (Falco.step_actions X (Falco.step_executor_execute X config) rerun response actions).
Proof.
  intros Hrerun. induction actions as [| action rest IH]; cbn [Falco.step_actions].
  - apply (keeps_ret _ stays_well_formed_refl).
  - apply (keeps_bind_post _ readable _ _ stays_well_formed_trans).
    + apply step_executor_stays_well_formed.
    + intros s a s'. apply step_executor_readable.
    + intros result Hresult.
      destruct (SafeExecutor.should_rerun_step_agent result).
      * apply (keeps_bind _ stays_well_formed_trans); [| intros _; exact Hrerun].
        apply lift_stays_well_formed, modify_same_trajectory. reflexivity.
      * apply (keeps_bind _ stays_well_formed_trans);
          [apply add_step_stays_well_formed, Hresult | intros _].
        destruct (negb (SafeExecutor.success result)); [| exact IH].
        apply (keeps_bind _ stays_well_formed_trans);
          [apply lift_stays_well_formed, call_same_trajectory | intros obs].
        apply (keeps_bind _ stays_well_formed_trans);
          [apply add_output_stays_well_formed | intros _].
        apply (keeps_bind _ stays_well_formed_trans);
          [| intros _; apply (keeps_ret _ stays_well_formed_refl)].
        apply add_step_stays_well_formed. unfold readable. discriminate.
Qed.

Lemma step_stays_well_formed (fuel : nat) (task : string) :
  keeps (@stays_well_formed Ext) (Falco.step X config fuel task).
Proof.
  unfold Falco.step. induction fuel as [| fuel IH]; cbn [Falco.step_with].
  - apply (keeps_timeout _ stays_well_formed_refl).
  - apply (keeps_bind _ stays_well_formed_trans);
      [apply lift_stays_well_formed, get_messages_same_trajectory | intros messages].
    apply (keeps_bind _ stays_well_formed_trans);
      [apply lift_stays_well_formed, call_same_trajectory | intros response].
    apply (keeps_bind _ stays_well_formed_trans); [| intros _].
    { apply lift_stays_well_formed. destruct (Falco.step_callback X);
        [apply call_same_trajectory | apply (keeps_ret _ same_trajectory_refl)]. }
    apply (keeps_bind _ stays_well_formed_trans);
      [apply add_output_stays_well_formed | intros _].
    destruct (Types.output response).
    + apply (keeps_ret _ stays_well_formed_refl).
    + apply step_actions_stays_well_formed, IH.
Qed.

Lemma check_completion_stays_well_formed (task : string)
    (out : option Actions.CompletionAction) :
  keeps (@stays_well_formed Ext) (Falco.check_completion X task out).
Proof.
  unfold Falco.check_completion, Falco.output, Falco.env_trajectory_last.
  destruct out as [completion |]; [| apply (keeps_ret _ stays_well_formed_refl)].
  destruct (negb (Actions.success completion)).
  - repeat first
      [ apply (keeps_ret _ stays_well_formed_refl)
      | apply (keeps_bind _ stays_well_formed_trans); [| intros ?]
      | apply lift_stays_well_formed
      | apply modify_same_trajectory; reflexivity
      | apply (keeps_bind _ same_trajectory_trans); [| intros ?]
      | apply (keeps_get _ same_trajectory_refl)
      | apply (keeps_ret _ same_trajectory_refl) ].
  - apply (keeps_bind _ stays_well_formed_trans); [| intros obs].
    { apply lift_stays_well_formed.
      apply (keeps_bind _ same_trajectory_trans);
        [apply (keeps_get _ same_trajectory_refl) | intros a].
      destruct (rev _);
        [apply (keeps_raise _ same_trajectory_refl)
        | apply (keeps_ret _ same_trajectory_refl)]. }
    apply (keeps_bind _ stays_well_formed_trans);
      [apply lift_stays_well_formed, call_same_trajectory | intros val].
    destruct (Falco.is_valid val).
    + repeat first
        [ apply (keeps_ret _ stays_well_formed_refl)
        | apply (keeps_bind _ stays_well_formed_trans); [| intros ?]
        | apply lift_stays_well_formed
        | apply modify_same_trajectory; reflexivity
        | apply (keeps_bind _ same_trajectory_trans); [| intros ?]
        | apply (keeps_get _ same_trajectory_refl)
        | apply (keeps_ret _ same_trajectory_refl) ].
    + apply (keeps_bind _ stays_well_formed_trans);
        [apply lift_stays_well_formed, modify_same_trajectory; reflexivity | intros _].
      apply (keeps_bind _ stays_well_formed_trans);
        [| intros _; apply (keeps_ret _ stays_well_formed_refl)].
      apply add_step_stays_well_formed. unfold readable. discriminate.
Qed.

Lemma run_body_stays_well_formed (fuel : nat) (task : string) (n : Z) :
  keeps (@stays_well_formed Ext) (Falco.run_body X config fuel task n).
Proof.
  unfold Falco.run_body.
  apply (keeps_bind _ stays_well_formed_trans);
    [apply lift_stays_well_formed, modify_same_trajectory; reflexivity | intros _].
  apply (keeps_bind _ stays_well_formed_trans);
    [apply step_stays_well_formed | intros out; apply check_completion_stays_well_formed].
Qed.

Lemma run_loop_stays_well_formed (fuel : nat) (task : string) (steps : list Z) :
  keeps (@stays_well_formed Ext) (Falco.run_loop X config fuel task steps).
Proof.
  induction steps as [| n rest IH]; cbn [Falco.run_loop].
  - apply (keeps_ret _ stays_well_formed_refl).
  - apply (keeps_bind _ stays_well_formed_trans);
      [apply run_body_stays_well_formed | intros c].
    destruct c; [exact IH | apply (keeps_ret _ stays_well_formed_refl)].
Qed.
End WellFormed.

Lemma _run_stays_well_formed {Ext : Type} (X : Falco.Externals Ext)
    (config : Config.FalcoAgentConfig) (fuel : nat) (task : string) (url : option string) :
  keeps (@stays_well_formed Ext) (Falco._run X config fuel task url).
Proof.
  unfold Falco._run.
  apply (keeps_bind _ stays_well_formed_trans);
    [apply lift_stays_well_formed, call_same_trajectory | intros _].
  intros st r st'.
  destruct (Falco.run_loop _ _ _ _ _ st) as [block st1] eqn:Eloop.
  pose proof (run_loop_stays_well_formed _ _ _ _ _ _ _ _ Eloop) as H1.
  assert (Hexit : forall r2 st2,
             SafeExecutor.lift (Falco.call (Falco.env_aexit X)) st1 = (r2, st2) ->
             stays_well_formed st st2).
  { intros r2 st2 Eexit. eapply stays_well_formed_trans; [exact H1 |].
    exact (lift_stays_well_formed _ (call_same_trajectory _) _ _ _ Eexit). }
  assert (Hout : forall st2 : Falco.State Ext, keeps (@stays_well_formed Ext)
             (SafeExecutor.lift (Falco.logger (Falco.LogBudget (Falco.budget_message config))) ;;;
              SafeExecutor.lift (Falco.output X (Falco.budget_message config) false))).
  { intros _. apply (keeps_bind _ stays_well_formed_trans);
      [apply lift_stays_well_formed, modify_same_trajectory; reflexivity | intros _].
    apply lift_stays_well_formed. unfold Falco.output.
    apply (keeps_bind _ same_trajectory_trans);
      [apply (keeps_get _ same_trajectory_refl)
      | intros a; apply (keeps_ret _ same_trajectory_refl)]. }
  destruct block as [[r0 |] | e |].
  - destruct (SafeExecutor.lift _ st1) as [[u | e' |] st2] eqn:Eexit;
      intros [= <- <-]; exact (Hexit _ _ eq_refl).
  - destruct (SafeExecutor.lift _ st1) as [[u | e' |] st2] eqn:Eexit.
    + intros Hrun. eapply stays_well_formed_trans; [exact (Hexit _ _ eq_refl) |].
      exact (Hout st2 _ _ _ Hrun).
    + intros [= <- <-]; exact (Hexit _ _ eq_refl).
    + intros [= <- <-]; exact (Hexit _ _ eq_refl).
  - destruct (SafeExecutor.lift _ st1) as [[u | e' |] st2] eqn:Eexit;
      intros [= <- <-]; exact (Hexit _ _ eq_refl).
  - intros [= <- <-]. exact H1.
Qed.

(** X8.  Whatever [run] does -- it returns, raises, or is cut short -- every result
    it has recorded in the trajectory can be read back: a status stored as a
    success has an output, so [get] on it returns.  The statuses come from
    the executor, from the fallback observation and from the failed final
    validation. *)
Theorem recorded_results_are_readable {Ext : Type} (X : Falco.Externals Ext)
    (config : Config.FalcoAgentConfig) (fuel : nat) (task : string) (url : option string)
    (st st' : Falco.State Ext) (r : Outcome Falco.AgentResponse) :
  well_formed (Falco.trajectory (SafeExecutor.world st)) ->
  Falco.run X config fuel task url st = (r, st') ->
  well_formed (Falco.trajectory (SafeExecutor.world st')) /\
  (forall (status : Trajectory.Status) (a : Falco.Agent Ext),
     In status (Trajectory.all_results (Falco.trajectory (SafeExecutor.world st'))) ->
     SafeExecutor.success status = true ->
     exists obs, SafeExecutor.status_get status a = (Ret obs, a)).
Proof.
  intros Hwf Hrun.
  assert (Hkeeps : keeps (@stays_well_formed Ext) (Falco.run X config fuel task url)).
  { unfold Falco.run.
    apply (keeps_bind _ stays_well_formed_trans);
      [apply lift_stays_well_formed, modify_same_trajectory; reflexivity | intros _].
    intros s1 r1 s2.
    destruct (Falco._run X config fuel task url s1) as [[r0 | e |] s3] eqn:Erun;
      pose proof (_run_stays_well_formed _ _ _ _ _ _ _ _ Erun) as H1.
    - intros [= <- <-]. exact H1.
    - destruct (decide _).
      + intros Hout. eapply stays_well_formed_trans; [exact H1 |].
        revert Hout. apply lift_stays_well_formed. unfold Falco.output.
        apply (keeps_bind _ same_trajectory_trans);
          [apply (keeps_get _ same_trajectory_refl)
          | intros a; apply (keeps_ret _ same_trajectory_refl)].
      + intros [= <- <-]. exact H1.
    - intros [= <- <-]. exact H1. }
  pose proof (Hkeeps _ _ _ Hrun Hwf) as Hwf'.
  split; [exact Hwf' |].
  intros status a Hin Hs.
  unfold well_formed in Hwf'. rewrite List.Forall_forall in Hwf'.
  specialize (Hwf' status Hin Hs).
  unfold SafeExecutor.status_get. rewrite Hs.
  destruct (SafeExecutor.output status) as [obs |]; [| congruence].
  exists obs. reflexivity.
Qed.

Lemma recorded_results_are_readable_witness :
  let config := Demo.demo_config Config.NEVER Config.FULL_CONVERSATION 5 in
  let st' :=
    snd (Falco.run Demo.scripted config 4 "find X" None
           (Demo.start Demo.one_action_script [])) in
  well_formed (Falco.trajectory (SafeExecutor.world st')) /\
  (forall (status : Trajectory.Status) (a : Falco.Agent Demo.Script),
     In status (Trajectory.all_results (Falco.trajectory (SafeExecutor.world st'))) ->
     SafeExecutor.success status = true ->
     exists obs, SafeExecutor.status_get status a = (Ret obs, a)).
Proof.
  cbv zeta.
  apply (recorded_results_are_readable Demo.scripted
           (Demo.demo_config Config.NEVER Config.FULL_CONVERSATION 5) 4 "find X" None
           (Demo.start Demo.one_action_script []) _
           (fst (Falco.run Demo.scripted
                   (Demo.demo_config Config.NEVER Config.FULL_CONVERSATION 5) 4 "find X"
                   None (Demo.start Demo.one_action_script [])))).
  - constructor.
  - apply surjective_pairing.
Defined.

(** ** [get_messages] on a readable trajectory *)

Section ReturnsIn.
Context {St : Type}.
Variable I : St -> Prop.

Lemma returns_in_ret {A} (a : A) : returns_in I (ret a).
Proof. intros s Hs. exists a, s. split; [reflexivity | exact Hs]. Qed.

Lemma returns_in_modify (f : St -> St) :
  (forall s, I s -> I (f s)) -> returns_in I (modify f).
Proof. intros Hf s Hs. exists tt, (f s). split; [reflexivity | exact (Hf s Hs)]. Qed.

Lemma returns_in_bind {A B} (m : M St A) (k : A -> M St B) :
  returns_in I m -> (forall a, returns_in I (k a)) -> returns_in I (bind m k).
Proof.
  intros Hm Hk s Hs. destruct (Hm s Hs) as (a & s1 & Em & Hs1).
  destruct (Hk a s1 Hs1) as (b & s2 & Ek & Hs2).
  exists b, s2. unfold bind. rewrite Em. split; [exact Ek | exact Hs2].
Qed.

Lemma returns_in_get_bind {B} (k : St -> M St B) :
  (forall s, I s -> returns_in I (k s)) -> returns_in I (bind get k).
Proof. intros Hk s Hs. exact (Hk s Hs s Hs). Qed.

Lemma returns_in_for_each {A} (body : A -> M St unit) (l : list A) :
  Forall (fun x => returns_in I (body x)) l -> returns_in I (Falco.for_each body l).
Proof.
  induction 1 as [| x l Hx _ IH]; cbn [Falco.for_each].
  - apply returns_in_ret.
  - apply returns_in_bind; [exact Hx | intros _; exact IH].
Qed.
End ReturnsIn.

Section GetMessages.
Context {Ext : Type}.
Variable X : Falco.Externals Ext.
Variable config : Config.FalcoAgentConfig.
Variable t0 : list Trajectory.TrajectoryStep.

Let I (a : Falco.Agent Ext) : Prop := Falco.trajectory a = t0.

Lemma conv_add_user_message_returns (c : string) (img : option string) :
  returns_in I (Falco.conv_add_user_message X config c img).
Proof. apply returns_in_modify. intros s Hs. exact Hs. Qed.

Lemma add_result_messages_returns (result : Trajectory.Status) :
  readable result -> returns_in I (Falco.add_result_messages X config result).
Proof.
  intros Hr. unfold Falco.add_result_messages.
  apply returns_in_bind; [apply conv_add_user_message_returns | intros _].
  destruct (SafeExecutor.success result) eqn:Hs; cbn [negb];
    [| apply returns_in_ret].
  unfold SafeExecutor.status_get. rewrite Hs.
  destruct (SafeExecutor.output result) as [obs |] eqn:Ho; [| now destruct (Hr Hs)].
  apply returns_in_bind; [apply returns_in_ret | intros obs'].
  destruct (Config.history_type config), (Observation.has_data obs');
    first [apply conv_add_user_message_returns | apply returns_in_ret].
Qed.

Lemma results_of_steps_readable :
  well_formed t0 -> Forall (fun step => Forall readable (Trajectory.results step)) t0.
Proof.
  unfold well_formed, Trajectory.all_results.
  induction t0 as [| x t IH]; [constructor |].
  cbn [map concat]. intros H. apply Forall_app in H as [Hx Ht].
  constructor; [exact Hx | exact (IH Ht)].
Qed.

Lemma get_messages_returns_in (task : string) :
  well_formed t0 ->
  (forall v, Falco.vault X = Some v ->
     forall x, exists i x', Falco.instructions v x = (Ret i, x')) ->
  returns_in I (Falco.get_messages X config task).
Proof.
  intros Hwf Hvault. unfold Falco.get_messages.
  apply returns_in_bind; [apply returns_in_modify; intros s Hs; exact Hs | intros _].
  apply returns_in_bind.
  { destruct (Falco.vault X) as [v |] eqn:Ev; [| apply returns_in_ret].
    apply returns_in_bind; [| intros i; apply returns_in_ret].
    intros a Ha. destruct (Hvault v eq_refl (Falco.ext a)) as (i & x' & Ei).
    unfold Falco.call. rewrite Ei. eexists _, _. split; [reflexivity | exact Ha]. }
  intros system_msg.
  apply returns_in_bind; [apply returns_in_modify; intros s Hs; exact Hs | intros _].
  apply returns_in_bind; [apply conv_add_user_message_returns | intros _].
  apply returns_in_get_bind. intros a Ha.
  apply returns_in_bind.
  { destruct (Config.history_type config) eqn:Eh;
      try apply conv_add_user_message_returns;
      (apply returns_in_bind;
        [destruct (_ =? _)%nat;
           [apply conv_add_user_message_returns | apply returns_in_ret]
        | intros _]);
      (apply returns_in_for_each; rewrite Ha;
       eapply List.Forall_impl; [| exact (results_of_steps_readable Hwf)];
       intros step Hstep; cbn beta;
       apply returns_in_bind;
         [apply returns_in_modify; intros s Hs; exact Hs | intros _];
       apply returns_in_for_each;
       eapply List.Forall_impl; [| exact Hstep];
       intros result; apply add_result_messages_returns). }
  intros _. apply returns_in_bind.
  { destruct (Trajectory.last_obs _); [| apply returns_in_ret].
    destruct (Config.history_type config);
      first [apply returns_in_ret | apply conv_add_user_message_returns]. }
  intros _. apply returns_in_bind.
  { destruct (_ <? _)%nat; [apply conv_add_user_message_returns | apply returns_in_ret]. }
  intros _. apply returns_in_get_bind. intros a' Ha'. apply returns_in_ret.
Qed.
End GetMessages.

(** X16.  [get_messages] reads every recorded result back with [get], which raises a
    [ValueError] on a success without output.  On a trajectory whose results
    are all readable, and with a vault (if there is one) that gives its
    instructions, it returns the messages of the conversation it has rebuilt
    and leaves the trajectory as it was. *)
Theorem get_messages_returns {Ext : Type} (X : Falco.Externals Ext)
    (config : Config.FalcoAgentConfig) (task : string) (a : Falco.Agent Ext) :
  well_formed (Falco.trajectory a) ->
  (forall v, Falco.vault X = Some v ->
     forall x, exists i x', Falco.instructions v x = (Ret i, x')) ->
  exists msgs a',
    Falco.get_messages X config task a = (Ret msgs, a') /\
    Falco.trajectory a' = Falco.trajectory a.
Proof.
  intros Hwf Hvault.
  destruct (get_messages_returns_in X config (Falco.trajectory a) task Hwf Hvault a eq_refl)
    as (msgs & a' & Hrun & Htraj).
  exists msgs, a'. split; [exact Hrun | exact Htraj].
Qed.

Lemma get_messages_returns_witness :
  let config := Demo.demo_config Config.NEVER Config.FULL_CONVERSATION 5 in
  let a :=
    SafeExecutor.world
      (snd (Falco.run Demo.scripted config 4 "find X" None
              (Demo.start Demo.one_action_script []))) in
  exists msgs a',
    Falco.get_messages Demo.scripted config "find X" a = (Ret msgs, a') /\
    Falco.trajectory a' = Falco.trajectory a.
Proof.
  cbv zeta.
  apply (get_messages_returns Demo.scripted
           (Demo.demo_config Config.NEVER Config.FULL_CONVERSATION 5) "find X").
  - vm_compute. repeat constructor; discriminate.
  - intros v Hv. vm_compute in Hv. discriminate.
Defined.

Lemma materialize_errors_witness :
  let e :=
    PyException "ValueError"
      ("Missing required variable in prompt template: " +:+
       Demo.demo_str_exn (PyException "KeyError" "'name'")) in
  Prompt.get Demo.demo_glob Demo.demo_read "greet" = Raise e \/
  exists (vs : list string) (template : string) (e0 : PyExn),
    Some [] = Some vs /\
    Demo.demo_render template vs = Raise e0 /\
    e = PyException "ValueError"
          (match e0 with
           | PyException "KeyError" _ => "Missing required variable in prompt template: "
           | _ => "Error formatting prompt: "
           end +:+ Demo.demo_str_exn e0).
Proof.
  cbv zeta.
  apply (materialize_errors (list string) Demo.demo_glob Demo.demo_read Demo.demo_render
           Demo.demo_str_exn "greet" (Some [])).
  vm_compute. reflexivity.
Defined.

Lemma from_args_keys_witness :
  (is_Some (AgentConfig.env_args bool Demo.parsed_items !! "max_history_tokens") \/
   is_Some (AgentConfig.agent_args bool Demo.parsed_items !! "max_history_tokens") ->
   AgentConfig.contains_char "-"%char "max_history_tokens" = false) /\
  AgentConfig.agent_args bool Demo.parsed_items !! "task" = None.
Proof. apply (from_args_keys Demo.parsed_items "max_history_tokens"). Defined.

(** * The fallback observation of [step] *)



Section NoFallback.
Context {Ext : Type}.
Variable X : Falco.Externals Ext.
Variable config : Config.FalcoAgentConfig.




End NoFallback.


(** * Completion decisions in a run *)

(** [_run] when the loop runs to its end and the environment is left. *)
Lemma _run_budget_from_loop {Ext : Type} (X : Falco.Externals Ext)
    (config : Config.FalcoAgentConfig) (fuel : nat) (task : string) (url : option string)
    (st st1 st2 st3 : Falco.State Ext) :
  SafeExecutor.lift (Falco.call (Falco.env_aenter X)) st = (Ret tt, st1) ->
  Falco.run_loop X config fuel (Falco.task_with_url task url)
    (Falco.range (Config.max_steps config)) st1 = (Ret None, st2) ->
  SafeExecutor.lift (Falco.call (Falco.env_aexit X)) st2 = (Ret tt, st3) ->
  exists r st4,
    Falco._run X config fuel task url st = (Ret r, st4) /\
    Falco.success r = false /\
    Falco.answer r = Falco.budget_message config.
Proof.
  intros He Hl Hx. unfold Falco._run. unfold bind at 1. rewrite He. cbv zeta.
  rewrite Hl, Hx. unfold bind. cbn [SafeExecutor.lift Falco.logger modify].
  rewrite output_eq. eexists. eexists. split; [reflexivity | split; reflexivity].
Qed.

(** C7, amended.  Enter the environment, let the passes of the loop of
    [_run] before step number [n] all end with the next pass due, and let
    [step] return the completion decision [c] in the pass for [n].
    - If [c] reports failure, the loop ends at once and, when leaving the
      environment raises nothing, [_run] returns a response with [success]
      false and the answer of [c].
    - If [c] reports success, the latest observation of the environment is
      [obs] and the validator returns the verdict [val]:
      when [val] is valid the loop ends and, when leaving the environment
      raises nothing, [_run] returns a response with [success] true and the
      answer of [c]; when it is not, nothing is returned in this pass: a
      status with [success] false whose message carries the reason of [val]
      joins the latest entry of the trajectory and the loop goes on with the
      remaining step numbers, so that [_run] returns the response of a later
      pass or, when the step numbers run out, the failure for the step
      budget. *)
Theorem completion_decision_handling {Ext : Type} (X : Falco.Externals Ext)
    (config : Config.FalcoAgentConfig) (fuel : nat) (task : string) (url : option string)
    (before : list Z) (n : Z) (rest : list Z) (st st0 s st1 : Falco.State Ext)
    (c : Actions.CompletionAction) :
  SafeExecutor.lift (Falco.call (Falco.env_aenter X)) st = (Ret tt, st0) ->
  Falco.range (Config.max_steps config) = before ++ n :: rest ->
  Falco.run_loop X config fuel (Falco.task_with_url task url) before st0 = (Ret None, s) ->
  Falco.step X config fuel (Falco.task_with_url task url)
    (snd (SafeExecutor.lift (Falco.logger (Falco.LogStep n)) s)) = (Ret (Some c), st1) ->
  (Actions.success c = false ->
   forall st3,
     SafeExecutor.lift (Falco.call (Falco.env_aexit X))
       (snd (SafeExecutor.lift
               (Falco.logger (Falco.LogTerminatedEarly (Actions.answer c))) st1))
     = (Ret tt, st3) ->
     Falco._run X config fuel task url st =
     (Ret {| Falco.answer := Actions.answer c;
             Falco.success := false;
             Falco.env_trajectory :=
               Falco.env_trajectory_of X (Falco.ext (SafeExecutor.world st1));
             Falco.agent_trajectory := Falco.trajectory (SafeExecutor.world st1);
             Falco.messages := Falco.conv (SafeExecutor.world st1) |}, st3)) /\
  (Actions.success c = true ->
   forall (earlier : list Observation.Observation) (obs : Observation.Observation)
          (val : Falco.ValidationResult) (x2 : Ext),
     Falco.env_trajectory_of X (Falco.ext (SafeExecutor.world st1)) = earlier ++ [obs] ->
     Falco.validate X (Falco.task_with_url task url) c obs
       (Falco.ext (SafeExecutor.world st1)) = (Ret val, x2) ->
     (Falco.is_valid val = true ->
      forall st3,
        SafeExecutor.lift (Falco.call (Falco.env_aexit X))
          {| SafeExecutor.consecutive_failures := SafeExecutor.consecutive_failures st1;
             SafeExecutor.world :=
               {| Falco.conv := Falco.conv (SafeExecutor.world st1);
                  Falco.trajectory := Falco.trajectory (SafeExecutor.world st1);
                  Falco.log := Falco.log (SafeExecutor.world st1) ++ [Falco.LogCompleted];
                  Falco.ext := x2 |} |}
        = (Ret tt, st3) ->
        Falco._run X config fuel task url st =
        (Ret {| Falco.answer := Actions.answer c;
                Falco.success := true;
                Falco.env_trajectory := Falco.env_trajectory_of X x2;
                Falco.agent_trajectory := Falco.trajectory (SafeExecutor.world st1);
                Falco.messages := Falco.conv (SafeExecutor.world st1) |}, st3)) /\
     (Falco.is_valid val = false ->
      let failed_val_msg :=
        "Final validation failed: " +:+ Falco.reason val +:+ ". Continuing..." in
      exists t response,
        Falco.trajectory (SafeExecutor.world st1) =
          t ++ [{| Trajectory.agent_response := response; Trajectory.results := [] |}] /\
        Types.output response = Some c /\
        let st2 :=
          {| SafeExecutor.consecutive_failures := SafeExecutor.consecutive_failures st1;
             SafeExecutor.world :=
               {| Falco.conv := Falco.conv (SafeExecutor.world st1);
                  Falco.trajectory :=
                    t ++ [{| Trajectory.agent_response := response;
                             Trajectory.results :=
                               [{| SafeExecutor.input := Actions.Completion c;
                                   SafeExecutor.output := None;
                                   SafeExecutor.success := false;
                                   SafeExecutor.message := failed_val_msg;
                                   SafeExecutor.should_rerun_step_agent := false |}] |}];
                  Falco.log :=
                    Falco.log (SafeExecutor.world st1)
                    ++ [Falco.LogValidationFailed failed_val_msg];
                  Falco.ext := x2 |} |} in
        Falco.run_loop X config fuel (Falco.task_with_url task url)
          (Falco.range (Config.max_steps config)) st0 =
        Falco.run_loop X config fuel (Falco.task_with_url task url) rest st2 /\
        (forall r s3 st3,
           Falco.run_loop X config fuel (Falco.task_with_url task url) rest st2
           = (Ret (Some r), s3) ->
           SafeExecutor.lift (Falco.call (Falco.env_aexit X)) s3 = (Ret tt, st3) ->
           Falco._run X config fuel task url st = (Ret r, st3)) /\
        (forall s3 st3,
           Falco.run_loop X config fuel (Falco.task_with_url task url) rest st2
           = (Ret None, s3) ->
           SafeExecutor.lift (Falco.call (Falco.env_aexit X)) s3 = (Ret tt, st3) ->
           exists r st4,
             Falco._run X config fuel task url st = (Ret r, st4) /\
             Falco.success r = false /\
             Falco.answer r = Falco.budget_message config))).
Proof.
  intros He Hrange Hbefore Hstep.
  pose proof (run_loop_app X config fuel (Falco.task_with_url task url) before (n :: rest)
                _ _ Hbefore) as Happ.
  rewrite <- Hrange in Happ.
  destruct (completion_in_loop X config fuel (Falco.task_with_url task url) n rest s st1 c
              Hstep) as [Hfailed Hsucceeded].
  split.
  - intros Hs st3 Hx. rewrite (Hfailed Hs) in Happ.
    exact (_run_returns_from_loop X config fuel task url _ _ _ _ _ He Happ Hx).
  - intros Hs earlier obs val x2 Henv Hval.
    destruct (Hsucceeded Hs earlier obs val x2 Henv Hval) as [Haccepted Hrejected].
    split.
    + intros Hvalid st3 Hx. rewrite (Haccepted Hvalid) in Happ.
      exact (_run_returns_from_loop X config fuel task url _ _ _ _ _ He Happ Hx).
    + intros Hinvalid. cbv zeta.
      destruct (Hrejected Hinvalid) as (t & response & Htraj & Hout & Hloop).
      cbv zeta in Hloop. rewrite Hloop in Happ.
      exists t, response. split; [exact Htraj |]. split; [exact Hout |].
      split; [exact Happ |]. split.
      * intros r s3 st3 Hrest Hx. rewrite Hrest in Happ.
        exact (_run_returns_from_loop X config fuel task url _ _ _ _ _ He Happ Hx).
      * intros s3 st3 Hrest Hx. rewrite Hrest in Happ.
        exact (_run_budget_from_loop X config fuel task url _ _ _ _ He Happ Hx).
Qed.

(** Three runs with a budget of two steps in which the first pass brings a
    completion decision: one that reports failure, a success the validator
    rejects (the second pass then ends the run), and a success the validator
    accepts. *)
Lemma completion_decision_handling_witness :
  let config := Demo.demo_config Config.RETRY Config.SHORT_OBSERVATIONS 2 in
  let home := Demo.page "home" ["B1"] in
  let world replies verdicts :=
    Demo.start {| Demo.llm_replies := replies; Demo.act_results := [];
                  Demo.verdicts := verdicts; Demo.seen := [home] |} [] in
  let st_failed := world [Demo.reply_done false "cannot find X"] [] in
  let st_rejected :=
    world [Demo.reply_done true "42"; Demo.reply_done false "gave up"]
      [{| Falco.is_valid := false; Falco.reason := "price missing" |}] in
  let st_accepted :=
    world [Demo.reply_done true "42"]
      [{| Falco.is_valid := true; Falco.reason := "" |}] in
  (exists r s,
     Falco._run Demo.scripted config 1 "find X" None st_failed = (Ret r, s) /\
     Falco.success r = false /\ Falco.answer r = "cannot find X") /\
  (exists r s,
     Falco._run Demo.scripted config 1 "find X" None st_rejected = (Ret r, s) /\
     Falco.success r = false /\ Falco.answer r = "gave up" /\
     map SafeExecutor.message (Trajectory.all_results (Falco.agent_trajectory r)) =
       ["Final validation failed: price missing. Continuing..."]) /\
  (exists r s,
     Falco._run Demo.scripted config 1 "find X" None st_accepted = (Ret r, s) /\
     Falco.success r = true /\ Falco.answer r = "42").
Proof.
  cbv zeta. split; [| split].
  - assert (Hstep :
      Falco.step Demo.scripted
        (Demo.demo_config Config.RETRY Config.SHORT_OBSERVATIONS 2) 1
        (Falco.task_with_url "find X" None)
        (snd (SafeExecutor.lift (Falco.logger (Falco.LogStep 0))
                (Demo.start {| Demo.llm_replies := [Demo.reply_done false "cannot find X"];
                               Demo.act_results := []; Demo.verdicts := [];
                               Demo.seen := [Demo.page "home" ["B1"]] |} [])))
      = (Ret (Some {| Actions.success := false; Actions.answer := "cannot find X" |}),
         snd (Falco.step Demo.scripted
                (Demo.demo_config Config.RETRY Config.SHORT_OBSERVATIONS 2) 1
                (Falco.task_with_url "find X" None)
                (snd (SafeExecutor.lift (Falco.logger (Falco.LogStep 0))
                        (Demo.start
                           {| Demo.llm_replies := [Demo.reply_done false "cannot find X"];
                              Demo.act_results := []; Demo.verdicts := [];
                              Demo.seen := [Demo.page "home" ["B1"]] |} [])))))
      ) by (vm_compute; reflexivity).
    destruct (completion_decision_handling Demo.scripted
                (Demo.demo_config Config.RETRY Config.SHORT_OBSERVATIONS 2) 1 "find X" None
                [] 0 [1] _ _ _ _ _ eq_refl eq_refl eq_refl Hstep) as [Hfailed _].
    eexists. eexists. split; [exact (Hfailed eq_refl _ eq_refl) | split; reflexivity].
  - assert (Hstep :
      Falco.step Demo.scripted
        (Demo.demo_config Config.RETRY Config.SHORT_OBSERVATIONS 2) 1
        (Falco.task_with_url "find X" None)
        (snd (SafeExecutor.lift (Falco.logger (Falco.LogStep 0))
                (Demo.start {| Demo.llm_replies :=
                                 [Demo.reply_done true "42"; Demo.reply_done false "gave up"];
                               Demo.act_results := [];
                               Demo.verdicts :=
                                 [{| Falco.is_valid := false;
                                     Falco.reason := "price missing" |}];
                               Demo.seen := [Demo.page "home" ["B1"]] |} [])))
      = (Ret (Some {| Actions.success := true; Actions.answer := "42" |}),
         snd (Falco.step Demo.scripted
                (Demo.demo_config Config.RETRY Config.SHORT_OBSERVATIONS 2) 1
                (Falco.task_with_url "find X" None)
                (snd (SafeExecutor.lift (Falco.logger (Falco.LogStep 0))
                        (Demo.start
                           {| Demo.llm_replies :=
                                [Demo.reply_done true "42"; Demo.reply_done false "gave up"];
                              Demo.act_results := [];
                              Demo.verdicts :=
                                [{| Falco.is_valid := false;
                                    Falco.reason := "price missing" |}];
                              Demo.seen := [Demo.page "home" ["B1"]] |} [])))))
      ) by (vm_compute; reflexivity).
    destruct (completion_decision_handling Demo.scripted
                (Demo.demo_config Config.RETRY Config.SHORT_OBSERVATIONS 2) 1 "find X" None
                [] 0 [1] _ _ _ _ _ eq_refl eq_refl eq_refl Hstep) as [_ Hsuccess].
    destruct (Hsuccess eq_refl [] (Demo.page "home" ["B1"])
                {| Falco.is_valid := false; Falco.reason := "price missing" |} _
                eq_refl eq_refl) as [_ Hrejected].
    destruct (Hrejected eq_refl) as (t & response & Htraj & _ & _ & Hlater & _).
    clear Hrejected Hsuccess Hstep.
    destruct t as [| x t]; vm_compute in Htraj.
    + injection Htraj as <-.
      eexists. eexists. split.
      * eapply Hlater; vm_compute; reflexivity.
      * repeat split.
    + exfalso. injection Htraj as _ Htraj. destruct t; discriminate.
  - assert (Hstep :
      Falco.step Demo.scripted
        (Demo.demo_config Config.RETRY Config.SHORT_OBSERVATIONS 2) 1
        (Falco.task_with_url "find X" None)
        (snd (SafeExecutor.lift (Falco.logger (Falco.LogStep 0))
                (Demo.start {| Demo.llm_replies := [Demo.reply_done true "42"];
                               Demo.act_results := [];
                               Demo.verdicts :=
                                 [{| Falco.is_valid := true; Falco.reason := "" |}];
                               Demo.seen := [Demo.page "home" ["B1"]] |} [])))
      = (Ret (Some {| Actions.success := true; Actions.answer := "42" |}),
         snd (Falco.step Demo.scripted
                (Demo.demo_config Config.RETRY Config.SHORT_OBSERVATIONS 2) 1
                (Falco.task_with_url "find X" None)
                (snd (SafeExecutor.lift (Falco.logger (Falco.LogStep 0))
                        (Demo.start
                           {| Demo.llm_replies := [Demo.reply_done true "42"];
                              Demo.act_results := [];
                              Demo.verdicts :=
                                [{| Falco.is_valid := true; Falco.reason := "" |}];
                              Demo.seen := [Demo.page "home" ["B1"]] |} [])))))
      ) by (vm_compute; reflexivity).
    destruct (completion_decision_handling Demo.scripted
                (Demo.demo_config Config.RETRY Config.SHORT_OBSERVATIONS 2) 1 "find X" None
                [] 0 [1] _ _ _ _ _ eq_refl eq_refl eq_refl Hstep) as [_ Hsuccess].
    destruct (Hsuccess eq_refl [] (Demo.page "home" ["B1"])
                {| Falco.is_valid := true; Falco.reason := "" |} _
                eq_refl eq_refl) as [Haccepted _].
    eexists. eexists. split; [exact (Haccepted eq_refl _ eq_refl) | split; reflexivity].
Defined.

(** C7 as stated fails where leaving the environment raises: the reasoning
    engine reports success, the validator accepts it, and the run ends with
    the exception of the exit; under [NEVER] it returns a failed response. *)
Lemma completion_decision_handling_counterexample :
  let c := {| Actions.success := true; Actions.answer := "42" |} in
  let st := Demo.start Demo.accepted_script [] in
  let decided :=
    Falco.step Demo.leaky (Demo.demo_config Config.RETRY Config.SHORT_OBSERVATIONS 5)
      1 "find X" (snd (SafeExecutor.lift (Falco.logger (Falco.LogStep 0)) st)) in
  fst decided = Ret (Some c) /\
  fst (Falco.validate Demo.leaky "find X" c (Demo.page "home" ["B1"])
         (Falco.ext (SafeExecutor.world (snd decided)))) =
    Ret {| Falco.is_valid := true; Falco.reason := "" |} /\
  fst (Falco._run Demo.leaky (Demo.demo_config Config.RETRY Config.SHORT_OBSERVATIONS 5)
         1 "find X" None st) =
    Raise (PyException "RuntimeError" "browser already closed") /\
  fst (Falco.run Demo.leaky (Demo.demo_config Config.RETRY Config.SHORT_OBSERVATIONS 5)
         1 "find X" None st) =
    Raise (PyException "RuntimeError" "browser already closed") /\
  exists r,
    fst (Falco.run Demo.leaky (Demo.demo_config Config.NEVER Config.SHORT_OBSERVATIONS 5)
           1 "find X" None st) = Ret r /\
    Falco.success r = false /\
    Falco.answer r = "Failed due to browser already closed: Traceback".
Proof.
  cbv zeta. repeat split; try (vm_compute; reflexivity).
  eexists. split; [vm_compute; reflexivity | split; reflexivity].
Qed.

(** C8 as stated fails: in a world where every action fails and the
    reasoning engine never gives a completion decision, the third failure in
    a row of the first pass raises [MaxConsecutiveFailuresError] out of
    [_run] and [run] after one pass of the loop; under [NEVER] the response
    returned describes that error and not the step budget. *)
Lemma step_budget_exhausted_counterexample :
  let st := Demo.start Demo.empty_script [] in
  let retry := Demo.demo_config Config.RETRY Config.SHORT_OBSERVATIONS 5 in
  let never := Demo.demo_config Config.NEVER Config.SHORT_OBSERVATIONS 5 in
  (forall msgs s,
     Falco.structured_completion Demo.stubborn msgs s = (Ret (Demo.reply_action "B1"), s)) /\
  Types.output (Demo.reply_action "B1") = None /\
  fst (Falco._run Demo.stubborn retry 4 "find X" None st) =
    Raise (mk_MaxConsecutiveFailuresError 3) /\
  fst (Falco.run Demo.stubborn retry 4 "find X" None st) =
    Raise (mk_MaxConsecutiveFailuresError 3) /\
  Falco.steps_logged
    (Falco.log (SafeExecutor.world (snd (Falco.run Demo.stubborn retry 4 "find X" None st))))
  = 1%nat /\
  exists r,
    fst (Falco.run Demo.stubborn never 4 "find X" None st) = Ret r /\
    Falco.success r = false /\
    Falco.answer r =
      "Failed due to Max consecutive failures reached in a single step: 3.: Traceback".
Proof.
  cbv zeta. split; [intros msgs s; reflexivity |].
  repeat split; try (vm_compute; reflexivity).
  eexists. split; [vm_compute; reflexivity | split; reflexivity].
Qed.
